(** * immudb-node-ts-crud: the bulk importer and the CRUD service

    A shallow embedding of the two TypeScript programs of the repository:

    - the import script ([Importer.importJSONToImmuDB]: batching, statement
      construction with [escape], per-batch failure handling, the
      verification pass), and
    - the [ImmudbCrudService] class of [src/index.ts] ([Service.createUser],
      [getUser], [getAllUsers], [updateUser], [getUserAtTransaction]).

    Both talk to the immudb client, an external collaborator.  It is
    modelled as an interface ([Gateway]) over an arbitrary state type; every
    [await] of the source is one call through that interface, threaded
    through an explicit [World] together with the clock, the console and
    the record of the calls made so far.  An [async] body is a function of
    the world ([Async]) that settles as [Resolved] or [Rejected];
    [try]/[catch]/[finally] are combinators on such functions.

    Two things the programs rely on are not part of the repository and
    are described here by models of their own:

    - the statement grammar of the store ([Sql]), against which the text
      built by the importer is judged, and
    - what it means for the store to keep the [users] table
      ([UsersStore]), with an in-memory store ([MemStore]) that does.

    The first half of the file holds the definitions, the second half the
    proofs. *)

From Stdlib Require Import List String Ascii Arith ZArith Lia Bool DecimalString.
Import ListNotations.

Open Scope string_scope.
Open Scope list_scope.
Open Scope nat_scope.

(* [length] and [concat] are those of lists throughout; those of strings
   are written [String.length] and [String.concat]. *)
Abbreviation length := List.length (only parsing).
Abbreviation concat := List.concat (only parsing).

Set Implicit Arguments.

(* ================================================================== *)
(** ** JavaScript values used by the two programs *)
(* ================================================================== *)

(** The line break inside a template literal. *)
Definition nl : string := String "010"%char EmptyString.

(** A thrown [Error]; only its [message] is ever read. *)
Record Error : Type := mkError { message : string }.

(** [`${error}`] for an [Error] object ([Error.prototype.toString]). *)
Definition error_toString (e : Error) : string :=
  match message e with
  | EmptyString => "Error"
  | m => ("Error: " ++ m)%string
  end.

(** A settled promise. *)
Inductive Outcome (A : Type) : Type :=
| Resolved (a : A)
| Rejected (e : Error).
Arguments Resolved {A} a.
Arguments Rejected {A} e.

(** A column value of a row returned by the client ([row.values[i].value]),
    or a named parameter of a statement. *)
Inductive SqlValue : Type :=
| SqlNull
| SqlStr (s : string)
| SqlInt (n : Z)
| SqlBool (b : bool).

(** [row.values]: the ordered column values of one row. *)
Definition Row : Type := list SqlValue.

(** [params: { ... }]: the named parameters, in the order written. *)
Definition SQLParams : Type := list (string * SqlValue).

(** The part of [SQLExec]'s result that is read:
    [result.txs?.[0]?.header?.id]. *)
Record SQLExecResult : Type := mkExecResult { txs : list (option Z) }.

(** JavaScript truthiness of a column value, for [value || fallback]. *)
Definition truthy (v : SqlValue) : bool :=
  match v with
  | SqlNull => false
  | SqlStr s => negb (String.eqb s "")
  | SqlInt n => negb (Z.eqb n 0)
  | SqlBool b => b
  end.

(** [row.values?.[i]?.value || fallback]. *)
Definition value_or (row : Row) (i : nat) (fallback : SqlValue) : SqlValue :=
  match nth_error row i with
  | Some v => if truthy v then v else fallback
  | None => fallback
  end.

(** [s || ''] for an optional string ([undefined], [null] and [''] are
    all falsy). *)
Definition or_empty (s : option string) : string :=
  match s with
  | Some EmptyString => ""
  | Some s' => s'
  | None => ""
  end.

(** [id?.toString()] of a transaction id. *)
Definition Z_toString (z : Z) : string := NilZero.string_of_int (Z.to_int z).

(** [result.txs?.[0]?.header?.id?.toString()]. *)
Definition first_tx_id (r : SQLExecResult) : option string :=
  match txs r with
  | Some id :: _ => Some (Z_toString id)
  | _ => None
  end.

(* ================================================================== *)
(** ** The immudb client *)
(* ================================================================== *)

(** The methods of [ImmudbClient] the programs call.  [G] is the state of
    the client together with the server behind it; each method returns the
    next state and how the promise settled. *)
Class Gateway (G : Type) : Type := {
  gw_login : string -> string -> G -> G * Outcome unit;
  gw_createDatabase : string -> G -> G * Outcome unit;
  gw_useDatabase : string -> G -> G * Outcome unit;
  gw_SQLExec : string -> SQLParams -> G -> G * Outcome SQLExecResult;
  gw_SQLQuery : string -> SQLParams -> G -> G * Outcome (option (list Row));
  gw_logout : G -> G * Outcome unit
}.

(** One call through the client, as it appears in the call record. *)
Inductive Request : Type :=
| Login (user password : string)
| CreateDatabase (databasename : string)
| UseDatabase (databasename : string)
| SQLExec (sql : string) (params : SQLParams)
| SQLQuery (sql : string) (params : SQLParams)
| Logout.

(** A call and, when its promise was rejected, the error. *)
Definition CallRecord : Type := (Request * option Error)%type.

Definition failure_of {A : Type} (o : Outcome A) : option Error :=
  match o with
  | Resolved _ => None
  | Rejected e => Some e
  end.

(** What the programs write to the console.  Each constructor is one
    [console.log] / [console.error] of the source with the interpolated
    values as arguments. *)
Inductive ConsoleEvent : Type :=
| LogConnecting
| LogConnected
| LogCreatedDatabase (dbName : string)
| LogUsingExistingDatabase (dbName : string)
| LogReadingFile
| LogFoundCandidates (n : nat)
| LogCreatingSchema
| LogSchemaReady
| LogBulkInserted (insertedCount total : nat)
| ErrBulkInsertBatch (i : nat) (msg : string)
| LogImported (insertedCount : nat)
| LogVerifying
| LogTotalRecords (totalRecords : SqlValue)
| LogCountVerificationFailed (msg : string)
| LogSampleHeader
| LogSampleRecord (index : nat) (name appId course : SqlValue)
| LogNoSampleRecords
| LogSampleFetchFailed (msg : string)
| ErrImporting (msg : string)
| LogDisconnected
| LogConnectionAlreadyClosed
| LogRows (result : list Row)
| LogError (e : Error).

(** The state a program runs in. *)
Record World (G : Type) : Type := mkWorld {
  gateway : G;
  clock : Z;                      (* what [Date.now()] returns *)
  calls : list CallRecord;        (* oldest first *)
  console : list ConsoleEvent     (* oldest first *)
}.

(* ================================================================== *)
(** ** Asynchronous computations *)
(* ================================================================== *)

(** An [async] function body: it transforms the world and settles, or
    ([None]) has not finished within the fuel given to its loop. *)
Definition Async (G A : Type) : Type := World G -> option (World G * Outcome A).

Section AsyncMonad.
Context {G : Type}.

Definition ret {A : Type} (a : A) : Async G A :=
  fun w => Some (w, Resolved a).

Definition throw {A : Type} (e : Error) : Async G A :=
  fun w => Some (w, Rejected e).

Definition bind {A B : Type} (m : Async G A) (k : A -> Async G B) : Async G B :=
  fun w =>
    match m w with
    | None => None
    | Some (w1, Resolved a) => k a w1
    | Some (w1, Rejected e) => Some (w1, Rejected e)
    end.

(** [try { m } catch (error) { handler error }]. *)
Definition try_catch {A : Type} (m : Async G A) (handler : Error -> Async G A) : Async G A :=
  fun w =>
    match m w with
    | None => None
    | Some (w1, Resolved a) => Some (w1, Resolved a)
    | Some (w1, Rejected e) => handler e w1
    end.

(** [try { m } finally { cleanup }]: the cleanup always runs; when it
    completes normally the outcome of [m] stands. *)
Definition try_finally {A : Type} (m : Async G A) (cleanup : Async G unit) : Async G A :=
  fun w =>
    match m w with
    | None => None
    | Some (w1, o) =>
        match cleanup w1 with
        | None => None
        | Some (w2, Resolved _) => Some (w2, o)
        | Some (w2, Rejected e) => Some (w2, Rejected e)
        end
    end.

Definition console_log (ev : ConsoleEvent) : Async G unit :=
  fun w => Some (mkWorld (gateway w) (clock w) (calls w) (console w ++ [ev]), Resolved tt).

(** [Date.now()]. *)
Definition Date_now : Async G Z :=
  fun w => Some (w, Resolved (clock w)).

(** One awaited call of a client method: the gateway moves on and the call
    is recorded with its failure, if any. *)
Definition client_call {A : Type} (req : Request) (method : G -> G * Outcome A) : Async G A :=
  fun w =>
    let '(g', o) := method (gateway w) in
    Some (mkWorld g' (clock w) (calls w ++ [(req, failure_of o)]) (console w), o).

End AsyncMonad.

Declare Scope async_scope.
Delimit Scope async_scope with async.
Notation "x <- m ;; k" := (bind m (fun x => k))
  (at level 100, m at next level, right associativity) : async_scope.
Notation "m ;; k" := (bind m (fun _ => k))
  (at level 100, right associativity) : async_scope.
Open Scope async_scope.

Section Client.
Context {G : Type} `{Gateway G}.

Definition client_login (user password : string) : Async G unit :=
  client_call (Login user password) (gw_login user password).
Definition client_createDatabase (databasename : string) : Async G unit :=
  client_call (CreateDatabase databasename) (gw_createDatabase databasename).
Definition client_useDatabase (databasename : string) : Async G unit :=
  client_call (UseDatabase databasename) (gw_useDatabase databasename).
Definition client_SQLExec (sql : string) (params : SQLParams) : Async G SQLExecResult :=
  client_call (SQLExec sql params) (gw_SQLExec sql params).
Definition client_SQLQuery (sql : string) (params : SQLParams) : Async G (option (list Row)) :=
  client_call (SQLQuery sql params) (gw_SQLQuery sql params).
Definition client_logout : Async G unit :=
  client_call Logout gw_logout.

End Client.

(* ================================================================== *)
(** ** The import script: records and statement text *)
(* ================================================================== *)

Module Importer.

(** [interface MBACandidateRecord]; a field typed [string | null] is an
    [option string]. *)
Record MBACandidateRecord : Type := mkCandidate {
  AcademicYear : string;
  ProgramID : string;
  ProgramShortName : string;
  UserId : string;
  ApplicationID : string;
  CandidateName : string;
  ApplicantCategoryId : string;
  ApplicantCategory : string;
  AdmissionCategoryId : string;
  AdmissionCategory : string;
  CasteName : string;
  Gender : string;
  DOB : string;
  ReligionID : string;
  Religion : string;
  MotherTongueId : string;
  MotherTongue : string;
  IncomeId : string;
  AnnualFamilyIncome : string;
  FinalCandidatureType : string;
  FinalPHType : string;
  FinalDefenceType : option string;
  LingusticMinority : string;
  ReligiousMinority : string;
  CandidateMobile : string;
  Email : string;
  AdmittedChoiceCode : string;
  AdmittedChoiceCodeDisplay : string;
  AdmittedCourseName : string;
  AdmittedInstituteCode : string;
  AdmittedInstituteName : string;
  AdmittedInstituteDistrict : string;
  AdmittedInstituteStatus1 : string;
  AdmittedInstituteStatus2 : string;
  AdmittedInstituteStatus3 : string;
  AdmittedCourseStatus1 : string;
  AdmittedCourseStatus2 : string;
  AdmittedCourseStatus3 : string;
  AdmittedCourseGender : string;
  SeatTypeAllotted : string;
  CAPorIL : string;
  CAPRoundNo : string;
  CAPRoundDetails : string;
  TotalFees : string;
  AdmissionDate : string;
  AdmissionUploadDate : string;
  StateMeritSLGMN : option string;
  AllIndiaMeritNo : option string;
  MeritMarks : string;
  CAPAdmissionTFWS : option string;
  CAPAdmissionEWS : option string;
  CAPAdmissionOrphan : option string;
  NON_CAP : string;
  MotherName : option string;
  Status : string;
  StatusDetails : string
}.

(** [interface JSONExportData]. *)
Record JSONExportData : Type := mkExport {
  type : string;
  name : option string;
  version : option string;
  comment : option string;
  database : option string;
  data : option (list MBACandidateRecord)
}.

Definition mba_candidates : string := "mba_students".

Definition quote : ascii := "'"%char.

(** [str.replace(/'/g, "''")]: every quote character becomes two. *)
Fixpoint replace_quotes (str : string) : string :=
  match str with
  | EmptyString => EmptyString
  | String c rest =>
      if Ascii.eqb c quote
      then String quote (String quote (replace_quotes rest))
      else String c (replace_quotes rest)
  end.

(** [const escape = (str: string | null) => { if (!str) return '';
    return str.replace(/'/g, "''"); }].  [!str] holds for [null] and for
    the empty string. *)
Definition escape (str : option string) : string :=
  match str with
  | None => ""
  | Some EmptyString => ""
  | Some s => replace_quotes s
  end.

(** The arguments of the 56 [escape(candidate.X)] calls of the template, in
    the order they are written. *)
Definition candidate_fields (candidate : MBACandidateRecord) : list (option string) :=
  [ Some (AcademicYear candidate);
    Some (ProgramID candidate);
    Some (ProgramShortName candidate);
    Some (UserId candidate);
    Some (ApplicationID candidate);
    Some (CandidateName candidate);
    Some (ApplicantCategoryId candidate);
    Some (ApplicantCategory candidate);
    Some (AdmissionCategoryId candidate);
    Some (AdmissionCategory candidate);
    Some (CasteName candidate);
    Some (Gender candidate);
    Some (DOB candidate);
    Some (ReligionID candidate);
    Some (Religion candidate);
    Some (MotherTongueId candidate);
    Some (MotherTongue candidate);
    Some (IncomeId candidate);
    Some (AnnualFamilyIncome candidate);
    Some (FinalCandidatureType candidate);
    Some (FinalPHType candidate);
    FinalDefenceType candidate;
    Some (LingusticMinority candidate);
    Some (ReligiousMinority candidate);
    Some (CandidateMobile candidate);
    Some (Email candidate);
    Some (AdmittedChoiceCode candidate);
    Some (AdmittedChoiceCodeDisplay candidate);
    Some (AdmittedCourseName candidate);
    Some (AdmittedInstituteCode candidate);
    Some (AdmittedInstituteName candidate);
    Some (AdmittedInstituteDistrict candidate);
    Some (AdmittedInstituteStatus1 candidate);
    Some (AdmittedInstituteStatus2 candidate);
    Some (AdmittedInstituteStatus3 candidate);
    Some (AdmittedCourseStatus1 candidate);
    Some (AdmittedCourseStatus2 candidate);
    Some (AdmittedCourseStatus3 candidate);
    Some (AdmittedCourseGender candidate);
    Some (SeatTypeAllotted candidate);
    Some (CAPorIL candidate);
    Some (CAPRoundNo candidate);
    Some (CAPRoundDetails candidate);
    Some (TotalFees candidate);
    Some (AdmissionDate candidate);
    Some (AdmissionUploadDate candidate);
    StateMeritSLGMN candidate;
    AllIndiaMeritNo candidate;
    Some (MeritMarks candidate);
    CAPAdmissionTFWS candidate;
    CAPAdmissionEWS candidate;
    CAPAdmissionOrphan candidate;
    Some (NON_CAP candidate);
    MotherName candidate;
    Some (Status candidate);
    Some (StatusDetails candidate) ].

(** One line of the tuple template: ten blanks, then ['${escape(f)}']. *)
Definition literal_line (f : option string) : string :=
  ("          " ++ String quote (escape f ++ String quote EmptyString))%string.

(** The template literal returned by the [batch.map] callback: an opening
    parenthesis, the 56 quoted values one per line separated by commas, and
    the closing parenthesis indented by eight blanks. *)
Definition values_tuple (candidate : MBACandidateRecord) : string :=
  ("(" ++ nl
   ++ String.concat ("," ++ nl) (map literal_line (candidate_fields candidate))
   ++ nl ++ "        )")%string.

(** [batch.map(...).join(',')]. *)
Definition values_clause (batch : list MBACandidateRecord) : string :=
  String.concat "," (map values_tuple batch).

(** The column list of the statement, line by line as in the source. *)
Definition insert_columns : list string :=
  [ "          academic_year, program_id, program_short_name, user_id, application_id,";
    "          candidate_name, applicant_category_id, applicant_category, admission_category_id,";
    "          admission_category, caste_name, gender, dob, religion_id, religion,";
    "          mother_tongue_id, mother_tongue, income_id, annual_family_income,";
    "          final_candidature_type, final_ph_type, final_defence_type, lingustic_minority,";
    "          religious_minority, candidate_mobile, email, admitted_choice_code,";
    "          admitted_choice_code_display, admitted_course_name, admitted_institute_code,";
    "          admitted_institute_name, admitted_institute_district, admitted_institute_status1,";
    "          admitted_institute_status2, admitted_institute_status3, admitted_course_status1,";
    "          admitted_course_status2, admitted_course_status3, admitted_course_gender,";
    "          seat_type_allotted, cap_or_il, cap_round_no, cap_round_details, total_fees,";
    "          admission_date, admission_upload_date, state_merit_slgmn, all_india_merit_no,";
    "          merit_marks, cap_admission_tfws, cap_admission_ews, cap_admission_orphan,";
    "          non_cap, mother_name, status, status_details" ].

(** Everything of [bulkInsertSQL] before [${values}]. *)
Definition insert_header : string :=
  (nl ++ "        INSERT INTO " ++ mba_candidates ++ " (" ++ nl
   ++ String.concat nl insert_columns ++ nl
   ++ "        ) VALUES ")%string.

(** [const bulkInsertSQL = `... VALUES ${values} `]. *)
Definition bulkInsertSQL (batch : list MBACandidateRecord) : string :=
  (insert_header ++ values_clause batch ++ nl ++ "      ")%string.

(** [candidates.slice(start, stop)] for [0 <= start <= stop]. *)
Definition slice {A : Type} (l : list A) (start stop : nat) : list A :=
  firstn (stop - start) (skipn start l).

(** [s.includes(sub)]. *)
Fixpoint includes (s sub : string) : bool :=
  if String.prefix sub s then true
  else match s with
       | EmptyString => false
       | String _ rest => includes rest sub
       end.

(* ================================================================== *)
(** ** The import script: [importJSONToImmuDB] *)
(* ================================================================== *)

Section Run.
Context {G : Type} `{Gateway G}.

(** The body of the [for] loop for one value of [i]: the [try] submits the
    statement built from [batch] and adds the batch's length to
    [insertedCount]; the [catch] logs the offset and the error message and
    leaves [insertedCount] as it was.  It returns the new [insertedCount]. *)
Definition insert_batch (candidates : list MBACandidateRecord) (batchSize i insertedCount : nat)
  : Async G nat :=
  let batch := slice candidates i (i + batchSize) in
  try_catch
    (client_SQLExec (bulkInsertSQL batch) [] ;;
     let insertedCount := insertedCount + length batch in
     console_log (LogBulkInserted insertedCount (length candidates)) ;;
     ret insertedCount)
    (fun error =>
       console_log (ErrBulkInsertBatch i (message error)) ;;
       ret insertedCount).

(** [for (let i = 0; i < candidates.length; i += batchSize) { ... }], one
    unit of fuel per test of the loop condition.  It returns the final
    [insertedCount]. *)
Fixpoint insert_loop (fuel : nat) (candidates : list MBACandidateRecord)
    (batchSize i insertedCount : nat) : Async G nat :=
  match fuel with
  | O => fun _ => None
  | S fuel' =>
      if i <? length candidates
      then insertedCount' <- insert_batch candidates batchSize i insertedCount ;;
           insert_loop fuel' candidates batchSize (i + batchSize) insertedCount'
      else ret insertedCount
  end.

(** [const batchSize = 1000]. *)
Definition batchSize : nat := 1000.

(** The statements of the two verification queries. *)
Definition count_sql : string := ("SELECT COUNT(*) as total FROM " ++ mba_candidates)%string.
Definition sample_sql : string :=
  ("SELECT candidate_name, application_id, admitted_course_name FROM "
   ++ mba_candidates ++ " LIMIT 5")%string.

(** The first verification block: the count query inside its own
    [try]/[catch]. *)
Definition countRecords : Async G unit :=
  try_catch
    (countResult <- client_SQLQuery count_sql [] ;;
     match countResult with
     | Some (firstRow :: _) =>
         console_log (LogTotalRecords (value_or firstRow 0 (SqlInt 0)))
     | _ => ret tt
     end)
    (fun error => console_log (LogCountVerificationFailed (message error))).

(** [sampleResult.forEach((row, index) => console.log(...))]. *)
Fixpoint log_samples (rows : list Row) (index : nat) : Async G unit :=
  match rows with
  | [] => ret tt
  | row :: rest =>
      console_log (LogSampleRecord (index + 1)
                     (value_or row 0 (SqlStr "N/A"))
                     (value_or row 1 (SqlStr "N/A"))
                     (value_or row 2 (SqlStr "N/A"))) ;;
      log_samples rest (S index)
  end.

(** The second verification block: the sample query inside its own
    [try]/[catch]. *)
Definition sampleRecords : Async G unit :=
  try_catch
    (sampleResult <- client_SQLQuery sample_sql [] ;;
     match sampleResult with
     | Some (row :: rest) => log_samples (row :: rest) 0
     | _ => console_log LogNoSampleRecords
     end)
    (fun error => console_log (LogSampleFetchFailed (message error))).

(** [createTableSQL], line by line as in the source. *)
Definition create_table_lines : list string :=
  [ "        id INTEGER AUTO_INCREMENT,";
    "        academic_year VARCHAR(10),";
    "        program_id VARCHAR(20),";
    "        program_short_name VARCHAR(10),";
    "        user_id VARCHAR(20),";
    "        application_id VARCHAR(20),";
    "        candidate_name VARCHAR(100),";
    "        applicant_category_id VARCHAR(5),";
    "        applicant_category VARCHAR(20),";
    "        admission_category_id VARCHAR(5),";
    "        admission_category VARCHAR(20),";
    "        caste_name VARCHAR(50),";
    "        gender VARCHAR(5),";
    "        dob VARCHAR(20),";
    "        religion_id VARCHAR(5),";
    "        religion VARCHAR(20),";
    "        mother_tongue_id VARCHAR(5),";
    "        mother_tongue VARCHAR(20),";
    "        income_id VARCHAR(5),";
    "        annual_family_income VARCHAR(50),";
    "        final_candidature_type VARCHAR(150),";
    "        final_ph_type VARCHAR(200),";
    "        final_defence_type VARCHAR(20),";
    "        lingustic_minority VARCHAR(50),";
    "        religious_minority VARCHAR(50),";
    "        candidate_mobile VARCHAR(50),";
    "        email VARCHAR(100),";
    "        admitted_choice_code VARCHAR(20),";
    "        admitted_choice_code_display VARCHAR(20),";
    "        admitted_course_name VARCHAR(255),";
    "        admitted_institute_code VARCHAR(10),";
    "        admitted_institute_name VARCHAR(200),";
    "        admitted_institute_district VARCHAR(50),";
    "        admitted_institute_status1 VARCHAR(50),";
    "        admitted_institute_status2 VARCHAR(50),";
    "        admitted_institute_status3 VARCHAR(50),";
    "        admitted_course_status1 VARCHAR(50),";
    "        admitted_course_status2 VARCHAR(50),";
    "        admitted_course_status3 VARCHAR(50),";
    "        admitted_course_gender VARCHAR(5),";
    "        seat_type_allotted VARCHAR(50),";
    "        cap_or_il VARCHAR(10),";
    "        cap_round_no VARCHAR(50),";
    "        cap_round_details VARCHAR(50),";
    "        total_fees VARCHAR(20),";
    "        admission_date VARCHAR(20),";
    "        admission_upload_date VARCHAR(50),";
    "        state_merit_slgmn VARCHAR(20),";
    "        all_india_merit_no VARCHAR(20),";
    "        merit_marks VARCHAR(20),";
    "        cap_admission_tfws VARCHAR(10),";
    "        cap_admission_ews VARCHAR(10),";
    "        cap_admission_orphan VARCHAR(10),";
    "        non_cap VARCHAR(10),";
    "        mother_name VARCHAR(100),";
    "        status VARCHAR(5),";
    "        status_details VARCHAR(20),";
    "        PRIMARY KEY (id)";
    "      )" ].

Definition createTableSQL : string :=
  (nl ++ "      CREATE TABLE IF NOT EXISTS " ++ mba_candidates ++ " (" ++ nl
   ++ String.concat nl create_table_lines ++ nl ++ "    ")%string.

Definition dbName : string := "mba_data".

(** [parsedData.find(item => item.type === 'table' && item.data)]: an
    array, even an empty one, is truthy. *)
Definition is_table_item (item : JSONExportData) : bool :=
  String.eqb (type item) "table" &&
  match data item with Some _ => true | None => false end.

(** [JSON.parse(fs.readFileSync(jsonFilePath, 'utf8'))]: the world is
    untouched, and the promise settles as the file decides. *)
Definition read_json (source : Outcome (list JSONExportData)) : Async G (list JSONExportData) :=
  fun w => Some (w, source).

(** The statements of the outer [try] block, from the first log line to the
    end of the verification pass.  [source] is what
    [JSON.parse(fs.readFileSync(...))] yields: the parsed array, or the
    error thrown on a missing or malformed file.  It returns the final
    [insertedCount]. *)
Definition import_body (source : Outcome (list JSONExportData)) : Async G nat :=
  console_log LogConnecting ;;
  client_login "immudb" "immudb" ;;
  console_log LogConnected ;;
  try_catch
    (client_createDatabase dbName ;;
     console_log (LogCreatedDatabase dbName))
    (fun error =>
       if includes (message error) "already exists"
       then console_log (LogUsingExistingDatabase dbName)
       else throw error) ;;
  client_useDatabase dbName ;;
  console_log LogReadingFile ;;
  parsedData <- read_json source ;;
  match find is_table_item parsedData with
  | Some {| data := Some candidates |} =>
      console_log (LogFoundCandidates (length candidates)) ;;
      console_log LogCreatingSchema ;;
      client_SQLExec createTableSQL [] ;;
      console_log LogSchemaReady ;;
      insertedCount <- insert_loop (S (length candidates)) candidates batchSize 0 0 ;;
      console_log (LogImported insertedCount) ;;
      console_log LogVerifying ;;
      countRecords ;;
      console_log LogSampleHeader ;;
      sampleRecords ;;
      ret insertedCount
  | _ => throw (mkError "No table data found in JSON file")
  end.

(** [importJSONToImmuDB]: the body, the outer [catch] that logs and
    rethrows, and the [finally] that logs out.  The promise carries no
    value in the source; the embedding returns the final [insertedCount]
    with it so that theorems can speak about it. *)
Definition importJSONToImmuDB (source : Outcome (list JSONExportData)) : Async G nat :=
  try_finally
    (try_catch
       (import_body source)
       (fun error =>
          console_log (ErrImporting (message error)) ;;
          throw error))
    (try_catch
       (client_logout ;;
        console_log LogDisconnected)
       (fun _ => console_log LogConnectionAlreadyClosed)).

End Run.

End Importer.

(* ================================================================== *)
(** ** The CRUD service: [class ImmudbCrudService] *)
(* ================================================================== *)

Module Service.

(** [Omit<User, 'createdAt'>]: what [createUser] receives. *)
Record User : Type := mkUser { id : string; name : string; email : string }.

(** [Partial<Omit<User, 'id' | 'createdAt'>>]: what [updateUser] receives;
    an absent (or [null]) property is [None]. *)
Module Partial.
Record t : Type := mk { name : option string; email : option string }.
End Partial.

(** The values the methods put in [VerifiedResponse.data]. *)
Inductive ResponseData : Type :=
| UserData (user : User) (createdAt : Z)   (* [{ ...user, createdAt: new Date(createdAt) }] *)
| RowData (row : Row)                      (* [result[0]] *)
| RowsData (rows : option (list Row)).     (* [result] *)

(** The values the methods put in [VerifiedResponse.proof]. *)
Inductive ResponseProof : Type :=
| ExecProof (result : SQLExecResult)
| RowsProof (result : option (list Row))
| NoteProof (note : string).

(** [interface VerifiedResponse]. *)
Record VerifiedResponse : Type := mkResponse {
  data : ResponseData;
  verified : bool;
  txId : option string;
  proof : option ResponseProof
}.

Definition dq : string := String "034"%char EmptyString.
Definition users : string := (dq ++ "users" ++ dq)%string.

Definition insert_user_sql : string :=
  (nl ++ "          INSERT INTO " ++ users ++ " (id, name, email, created_at) " ++ nl
   ++ "          VALUES (@id, @name, @email, @createdAt)" ++ nl
   ++ "        ")%string.

Definition select_user_sql : string :=
  (nl ++ "          SELECT id, name, email, created_at " ++ nl
   ++ "          FROM " ++ users ++ " " ++ nl
   ++ "          WHERE id = @id" ++ nl
   ++ "        ")%string.

Definition select_all_sql : string :=
  (nl ++ "          SELECT id, name, email, created_at " ++ nl
   ++ "          FROM " ++ users ++ " " ++ nl
   ++ "          ORDER BY created_at DESC" ++ nl
   ++ "        ")%string.

Definition update_user_sql : string :=
  (nl ++ "          UPDATE " ++ users ++ " " ++ nl
   ++ "          SET name = @name, email = @email" ++ nl
   ++ "          WHERE id = @id" ++ nl
   ++ "        ")%string.

Definition history_sql : string :=
  ("SELECT * FROM (HISTORY OF " ++ users ++ ") WHERE id = @id")%string.

(** [`${txId}`] for [txId?: string]. *)
Definition show_txId (txId : option string) : string :=
  match txId with
  | Some t => t
  | None => "undefined"
  end.

Section Methods.
Context {G : Type} `{Gateway G}.

Definition createUser (user : User) : Async G VerifiedResponse :=
  try_catch
    (let userId := id user in
     createdAt <- Date_now ;;
     result <- client_SQLExec insert_user_sql
                 [ ("id", SqlStr userId);
                   ("name", SqlStr (name user));
                   ("email", SqlStr (email user));
                   ("createdAt", SqlInt createdAt) ] ;;
     ret {| data := UserData user createdAt;
            verified := true;
            txId := first_tx_id result;
            proof := Some (ExecProof result) |})
    (fun error => throw (mkError ("Failed to create user: " ++ error_toString error))).

Definition getUser (id : string) : Async G VerifiedResponse :=
  try_catch
    (result <- client_SQLQuery select_user_sql [ ("id", SqlStr id) ] ;;
     match result with
     | Some (row :: rest) =>
         console_log (LogRows (row :: rest)) ;;
         let userData := row in
         ret {| data := RowData userData;
                verified := true;
                txId := None;
                proof := Some (RowsProof result) |}
     | _ => throw (mkError "User not found")
     end)
    (fun error => throw (mkError ("Failed to get user: " ++ error_toString error))).

Definition getAllUsers : Async G VerifiedResponse :=
  try_catch
    (result <- client_SQLQuery select_all_sql [] ;;
     let users := match result with Some rows => rows | None => [] end in
     ret {| data := RowsData (Some users);
            verified := true;
            txId := None;
            proof := Some (RowsProof result) |})
    (fun error => throw (mkError ("Failed to get users: " ++ error_toString error))).

Definition updateUser (id : string) (updates : Partial.t) : Async G VerifiedResponse :=
  try_catch
    (getUser id ;;
     result <- client_SQLExec update_user_sql
                 [ ("id", SqlStr id);
                   ("name", SqlStr (or_empty (Partial.name updates)));
                   ("email", SqlStr (or_empty (Partial.email updates))) ] ;;
     updatedUser <- getUser id ;;
     ret {| data := data updatedUser;
            verified := true;
            txId := first_tx_id result;
            proof := Some (ExecProof result) |})
    (fun error => throw (mkError ("Failed to update user: " ++ error_toString error))).

Definition getUserAtTransaction (id : string) (txId : option string) : Async G VerifiedResponse :=
  try_catch
    (result <- client_SQLQuery history_sql [ ("id", SqlStr id) ] ;;
     ret {| data := RowsData result;
            verified := true;
            txId := None;
            proof := Some (NoteProof ("Historical data before transaction " ++ show_txId txId)) |})
    (fun error => throw (mkError ("Failed to get historical user data: " ++ error_toString error))).

Definition healthCheck : Async G bool :=
  try_catch
    (client_SQLQuery "SELECT 1;" [] ;;
     ret true)
    (fun _ => ret false).

End Methods.

End Service.

(* ================================================================== *)
(** ** Describing a run of the import loop *)
(* ================================================================== *)

Import Importer.

(** The number of batches: [n / b] rounded up. *)
Definition ceil_div (n b : nat) : nat := (n + b - 1) / b.

(** The batch the loop builds in its [k]-th iteration, where [i = k * b]. *)
Definition batch_at (candidates : list MBACandidateRecord) (b k : nat) : list MBACandidateRecord :=
  slice candidates (k * b) (k * b + b).

(** All the batches of a dataset, in order. *)
Definition batches (b : nat) (candidates : list MBACandidateRecord) : list (list MBACandidateRecord) :=
  map (batch_at candidates b) (seq 0 (ceil_div (length candidates) b)).

(** One iteration of the loop as seen from outside: the offset [i], the
    batch, and the error of the submission when it was rejected. *)
Record Attempt : Type := mkAttempt {
  offset : nat;
  records : list MBACandidateRecord;
  failure : option Error
}.

Definition attempt_call (a : Attempt) : CallRecord :=
  (SQLExec (bulkInsertSQL (records a)) [], failure a).

(** [insertedCount] after a sequence of attempts. *)
Fixpoint count_after (insertedCount : nat) (attempts : list Attempt) : nat :=
  match attempts with
  | [] => insertedCount
  | a :: rest =>
      count_after (match failure a with
                   | None => insertedCount + length (records a)
                   | Some _ => insertedCount
                   end) rest
  end.

(** What a sequence of attempts writes to the console. *)
Fixpoint console_after (total insertedCount : nat) (attempts : list Attempt) : list ConsoleEvent :=
  match attempts with
  | [] => []
  | a :: rest =>
      match failure a with
      | None =>
          LogBulkInserted (insertedCount + length (records a)) total
          :: console_after total (insertedCount + length (records a)) rest
      | Some e =>
          ErrBulkInsertBatch (offset a) (message e)
          :: console_after total insertedCount rest
      end
  end.

(** The attempts are those of the dataset: batch [k] at offset [k * b]. *)
Definition attempts_of (b : nat) (candidates : list MBACandidateRecord) (attempts : list Attempt) : Prop :=
  map records attempts = batches b candidates /\
  map offset attempts = map (fun k => k * b) (seq 0 (ceil_div (length candidates) b)).

(* ================================================================== *)
(** ** A scripted gateway *)
(* ================================================================== *)

(** A gateway whose answers are written down in advance: each [SQLExec]
    consumes the next entry of [execs] (an error to throw, or [None] to
    succeed), each [SQLQuery] the next entry of [queries]; past the end of
    a script every call succeeds.  [logins] scripts [login] the same way.
    It stands for any finite behaviour of the external store in examples. *)
Module Scripted.

Record t : Type := mk {
  logins : list (option Error);
  execs : list (option Error);
  queries : list (Outcome (option (list Row)))
}.

Definition settle (o : option Error) : Outcome unit :=
  match o with
  | None => Resolved tt
  | Some e => Rejected e
  end.

Definition login (g : t) : t * Outcome unit :=
  match logins g with
  | [] => (g, Resolved tt)
  | o :: rest => (mk rest (execs g) (queries g), settle o)
  end.

Definition exec (g : t) : t * Outcome SQLExecResult :=
  match execs g with
  | [] => (g, Resolved (mkExecResult []))
  | None :: rest => (mk (logins g) rest (queries g), Resolved (mkExecResult []))
  | Some e :: rest => (mk (logins g) rest (queries g), Rejected e)
  end.

Definition query (g : t) : t * Outcome (option (list Row)) :=
  match queries g with
  | [] => (g, Resolved (Some []))
  | o :: rest => (mk (logins g) (execs g) rest, o)
  end.

#[global] Instance gateway : Gateway t := {
  gw_login _ _ := login;
  gw_createDatabase _ g := (g, Resolved tt);
  gw_useDatabase _ g := (g, Resolved tt);
  gw_SQLExec _ _ := exec;
  gw_SQLQuery _ _ := query;
  gw_logout g := (g, Resolved tt)
}.

(** A fresh world around a script. *)
Definition world (g : t) : World t := mkWorld g 0%Z [] [].

End Scripted.

(** A candidate record for examples: every field empty but the name, the
    application id and the course. *)
Definition candidate (name appId course : string) (mother : option string) : MBACandidateRecord :=
  {| AcademicYear := "2024"; ProgramID := ""; ProgramShortName := "MBA"; UserId := "";
     ApplicationID := appId; CandidateName := name; ApplicantCategoryId := "";
     ApplicantCategory := ""; AdmissionCategoryId := ""; AdmissionCategory := "";
     CasteName := ""; Gender := ""; DOB := ""; ReligionID := ""; Religion := "";
     MotherTongueId := ""; MotherTongue := ""; IncomeId := ""; AnnualFamilyIncome := "";
     FinalCandidatureType := ""; FinalPHType := ""; FinalDefenceType := None;
     LingusticMinority := ""; ReligiousMinority := ""; CandidateMobile := ""; Email := "";
     AdmittedChoiceCode := ""; AdmittedChoiceCodeDisplay := ""; AdmittedCourseName := course;
     AdmittedInstituteCode := ""; AdmittedInstituteName := ""; AdmittedInstituteDistrict := "";
     AdmittedInstituteStatus1 := ""; AdmittedInstituteStatus2 := ""; AdmittedInstituteStatus3 := "";
     AdmittedCourseStatus1 := ""; AdmittedCourseStatus2 := ""; AdmittedCourseStatus3 := "";
     AdmittedCourseGender := ""; SeatTypeAllotted := ""; CAPorIL := ""; CAPRoundNo := "";
     CAPRoundDetails := ""; TotalFees := ""; AdmissionDate := ""; AdmissionUploadDate := "";
     StateMeritSLGMN := None; AllIndiaMeritNo := None; MeritMarks := "";
     CAPAdmissionTFWS := None; CAPAdmissionEWS := None; CAPAdmissionOrphan := None;
     NON_CAP := ""; MotherName := mother; Status := ""; StatusDetails := "" |}.

Definition five_candidates : list MBACandidateRecord :=
  [ candidate "Asha Rao" "A1" "MBA" None;
    candidate "Liam O'Brien" "A2" "MBA" (Some "Maeve O'Brien");
    candidate "Chen Wei" "A3" "MMS" (Some "");
    candidate "D'Souza" "A4" "MBA" None;
    candidate "Noor" "A5" "MMS" (Some "Sara") ].

(** A computation that always settles: from every world it ends, resolved
    or rejected, within the fuel of its loops. *)
Definition settles {G A : Type} (m : Async G A) : Prop :=
  forall w, exists w' o, m w = Some (w', o).

(* ================================================================== *)
(** ** Describing a whole run of [importJSONToImmuDB] *)
(* ================================================================== *)

(** The dataset a run imports: [tableData.data] of the first item that is a
    table with data, when the file could be read and has one. *)
Definition dataset_of (source : Outcome (list JSONExportData)) : option (list MBACandidateRecord) :=
  match source with
  | Resolved parsedData =>
      match find is_table_item parsedData with
      | Some item => data item
      | None => None
      end
  | Rejected _ => None
  end.

(** The console lines of the three blocks whose outcome is caught. *)
Definition database_report (created : option Error) : ConsoleEvent :=
  match created with
  | None => LogCreatedDatabase dbName
  | Some _ => LogUsingExistingDatabase dbName
  end.

Definition count_report (o : Outcome (option (list Row))) : list ConsoleEvent :=
  match o with
  | Resolved (Some (firstRow :: _)) => [LogTotalRecords (value_or firstRow 0 (SqlInt 0))]
  | Resolved _ => []
  | Rejected e => [LogCountVerificationFailed (message e)]
  end.

Fixpoint sample_lines (rows : list Row) (index : nat) : list ConsoleEvent :=
  match rows with
  | [] => []
  | row :: rest =>
      LogSampleRecord (index + 1)
        (value_or row 0 (SqlStr "N/A")) (value_or row 1 (SqlStr "N/A"))
        (value_or row 2 (SqlStr "N/A"))
      :: sample_lines rest (S index)
  end.

Definition sample_report (o : Outcome (option (list Row))) : list ConsoleEvent :=
  match o with
  | Resolved (Some (row :: rest)) => sample_lines (row :: rest) 0
  | Resolved _ => [LogNoSampleRecords]
  | Rejected e => [LogSampleFetchFailed (message e)]
  end.

Definition logout_report (o : option Error) : ConsoleEvent :=
  match o with
  | None => LogDisconnected
  | Some _ => LogConnectionAlreadyClosed
  end.

(** The calls a run makes before the loop, when all of them go through
    ([created] is the error of [createDatabase], if any). *)
Definition setup_calls (created : option Error) : list CallRecord :=
  [ (Login "immudb" "immudb", None);
    (CreateDatabase dbName, created);
    (UseDatabase dbName, None);
    (SQLExec createTableSQL [], None) ].

(** The calls of the verification pass and the logout. *)
Definition closing_calls (oc os : Outcome (option (list Row))) (ol : option Error) : list CallRecord :=
  [ (SQLQuery count_sql [], failure_of oc);
    (SQLQuery sample_sql [], failure_of os);
    (Logout, ol) ].

(** A run that resolved with [insertedCount], seen from outside: the
    dataset, the attempts of the loop, and the answers to the caught
    calls. *)
Inductive ImportRun (G : Type) (source : Outcome (list JSONExportData))
    (w w' : World G) (insertedCount : nat) : Prop :=
| import_run
    (candidates : list MBACandidateRecord)
    (attempts : list Attempt)
    (created : option Error)
    (counted sampled : Outcome (option (list Row)))
    (left : option Error)
    (run_dataset : dataset_of source = Some candidates)
    (run_attempts : attempts_of batchSize candidates attempts)
    (run_inserted : insertedCount = count_after 0 attempts)
    (run_calls :
       calls w' = calls w ++ setup_calls created ++ map attempt_call attempts
                    ++ closing_calls counted sampled left)
    (run_console :
       console w' = console w
         ++ [LogConnecting; LogConnected; database_report created; LogReadingFile;
             LogFoundCandidates (length candidates); LogCreatingSchema; LogSchemaReady]
         ++ console_after (length candidates) 0 attempts
         ++ [LogImported insertedCount; LogVerifying]
         ++ count_report counted
         ++ [LogSampleHeader]
         ++ sample_report sampled
         ++ [logout_report left]).

(** The calls a run can make before its loop. *)
Definition is_setup_request (r : Request) : bool :=
  match r with
  | Login _ _ | CreateDatabase _ | UseDatabase _ | Logout => true
  | SQLExec sql _ => String.eqb sql createTableSQL
  | SQLQuery _ _ => false
  end.

(** [post m w Q]: run from [w], the computation [m] settles, in a world and
    with an outcome that satisfy [Q]. *)
Definition post {G A : Type} (m : Async G A) (w : World G)
    (Q : World G -> Outcome A -> Prop) : Prop :=
  exists w' o, m w = Some (w', o) /\ Q w' o.

(** What a run of [importJSONToImmuDB] leaves behind: when it resolves, an
    [ImportRun]; when it rejects, it made none but calls that precede the
    loop (and the logout). *)
Definition import_outcome {G : Type} (source : Outcome (list JSONExportData))
    (w w' : World G) (o : Outcome nat) : Prop :=
  match o with
  | Resolved insertedCount => ImportRun source w w' insertedCount
  | Rejected _ =>
      exists new, calls w' = calls w ++ new /\
                  forallb (fun c => is_setup_request (fst c)) new = true
  end.

(** The calls made and the lines written between two worlds. *)
Definition calls_since {G : Type} (w w' : World G) : list CallRecord :=
  skipn (length (calls w)) (calls w').

Definition console_since {G : Type} (w w' : World G) : list ConsoleEvent :=
  skipn (length (console w)) (console w').

(** The records of an attempt that do not reach the store. *)
Definition lost_records (a : Attempt) : nat :=
  match failure a with
  | Some _ => length (records a)
  | None => 0
  end.

(** A parsed export file as the script expects it: a header item, a
    database item and the table item that carries the records. *)
Definition export_of (candidates : list MBACandidateRecord) : list JSONExportData :=
  [ mkExport "header" None (Some "5.2.1") (Some "Export to JSON plugin for PHPMyAdmin") None None;
    mkExport "database" (Some "mba") None None None None;
    mkExport "table" (Some "mba_candidates") None None (Some "mba") (Some candidates) ].

(* ================================================================== *)
(** ** The statement grammar of the store *)
(* ================================================================== *)

(** The store reads the statement text, which the import script builds by
    hand.  What "well-formed" means for that text is fixed here by a lexer
    and a parser for the one statement form the script produces, with the
    string literal rule of SQL: a literal starts and ends with a quote
    character, and two quote characters in a row inside it stand for one.

    [INSERT INTO table ( column , ... ) VALUES ( literal , ... ) , ...] *)
Module Sql.

Inductive token : Type :=
| Word (w : string)
| Literal (s : string)
| LParen
| RParen
| Comma.

(** Where the lexer is: between tokens, inside a word, inside a literal,
    or just after a quote character met inside a literal (the end of the
    literal, unless another quote follows). *)
Inductive mode : Type :=
| Idle
| InWord (w : string)
| InLiteral (s : string)
| AfterQuote (s : string).

Definition is_blank (c : ascii) : bool :=
  let n := nat_of_ascii c in
  (n =? 32) || (n =? 10) || (n =? 9) || (n =? 13).

Definition is_word_char (c : ascii) : bool :=
  let n := nat_of_ascii c in
  ((48 <=? n) && (n <=? 57)) || ((65 <=? n) && (n <=? 90))
  || ((97 <=? n) && (n <=? 122)) || (n =? 95).

Definition snoc (s : string) (c : ascii) : string := (s ++ String c EmptyString)%string.

(** A character met between tokens. *)
Definition step_idle (c : ascii) (toks : list token) : option (mode * list token) :=
  if is_blank c then Some (Idle, toks)
  else if Ascii.eqb c "("%char then Some (Idle, toks ++ [LParen])
  else if Ascii.eqb c ")"%char then Some (Idle, toks ++ [RParen])
  else if Ascii.eqb c ","%char then Some (Idle, toks ++ [Comma])
  else if Ascii.eqb c quote then Some (InLiteral EmptyString, toks)
  else if is_word_char c then Some (InWord (String c EmptyString), toks)
  else None.

Definition step (st : mode * list token) (c : ascii) : option (mode * list token) :=
  let '(m, toks) := st in
  match m with
  | Idle => step_idle c toks
  | InWord w =>
      if is_word_char c then Some (InWord (snoc w c), toks)
      else step_idle c (toks ++ [Word w])
  | InLiteral s =>
      if Ascii.eqb c quote then Some (AfterQuote s, toks)
      else Some (InLiteral (snoc s c), toks)
  | AfterQuote s =>
      if Ascii.eqb c quote then Some (InLiteral (snoc s quote), toks)
      else step_idle c (toks ++ [Literal s])
  end.

Fixpoint run (st : mode * list token) (text : string) : option (mode * list token) :=
  match text with
  | EmptyString => Some st
  | String c rest =>
      match step st c with
      | Some st' => run st' rest
      | None => None
      end
  end.

(** At the end of the text a literal must have been closed. *)
Definition finish (st : mode * list token) : option (list token) :=
  let '(m, toks) := st in
  match m with
  | Idle => Some toks
  | InWord w => Some (toks ++ [Word w])
  | AfterQuote s => Some (toks ++ [Literal s])
  | InLiteral _ => None
  end.

Definition lex (text : string) : option (list token) :=
  match run (Idle, []) text with
  | Some st => finish st
  | None => None
  end.

(** [column , column , ... )]: the names, and what follows the closing
    parenthesis. *)
Fixpoint parse_columns (toks : list token) : option (list string * list token) :=
  match toks with
  | Word w :: RParen :: rest => Some ([w], rest)
  | Word w :: Comma :: rest =>
      match parse_columns rest with
      | Some (ws, rest') => Some (w :: ws, rest')
      | None => None
      end
  | _ => None
  end.

(** Where the parser of the [VALUES] clause is. *)
Inductive rows_state : Type :=
| ExpectTuple (rows : list (list string))
| ExpectValue (rows : list (list string)) (current : list string)
| AfterValue (rows : list (list string)) (current : list string)
| AfterTuple (rows : list (list string)).

Definition rows_step (st : rows_state) (t : token) : option rows_state :=
  match st, t with
  | ExpectTuple rows, LParen => Some (ExpectValue rows [])
  | ExpectValue rows current, Literal s => Some (AfterValue rows (current ++ [s]))
  | AfterValue rows current, Comma => Some (ExpectValue rows current)
  | AfterValue rows current, RParen => Some (AfterTuple (rows ++ [current]))
  | AfterTuple rows, Comma => Some (ExpectTuple rows)
  | _, _ => None
  end.

Fixpoint rows_run (st : rows_state) (toks : list token) : option rows_state :=
  match toks with
  | [] => Some st
  | t :: rest =>
      match rows_step st t with
      | Some st' => rows_run st' rest
      | None => None
      end
  end.

(** [( literal , ... ) , ( literal , ... ) , ...]: at least one tuple, each
    with at least one literal. *)
Definition parse_rows (toks : list token) : option (list (list string)) :=
  match rows_run (ExpectTuple []) toks with
  | Some (AfterTuple rows) => Some rows
  | _ => None
  end.

(** A parsed [INSERT] statement. *)
Record insert : Type := mkInsert {
  table : string;
  columns : list string;
  rows : list (list string)
}.

(** The whole statement; every tuple must have as many values as there
    are columns. *)
Definition parse_insert (toks : list token) : option insert :=
  match toks with
  | Word "INSERT" :: Word "INTO" :: Word t :: LParen :: rest =>
      match parse_columns rest with
      | Some (cols, Word "VALUES" :: rest') =>
          match parse_rows rest' with
          | Some rs =>
              if forallb (fun r => length r =? length cols) rs
              then Some (mkInsert t cols rs)
              else None
          | None => None
          end
      | _ => None
      end
  | _ => None
  end.

Definition parse (text : string) : option insert :=
  match lex text with
  | Some toks => parse_insert toks
  | None => None
  end.

End Sql.

(** The number of quote characters in a string. *)
Fixpoint count_quotes (s : string) : nat :=
  match s with
  | EmptyString => 0
  | String c rest => (if Ascii.eqb c quote then 1 else 0) + count_quotes rest
  end.

(** The value a field is meant to carry into the store: the string itself,
    and the empty string for [null]. *)
Definition field_value (f : option string) : string :=
  match f with
  | Some s => s
  | None => ""
  end.

(** The 56 columns of the statement. *)
Definition column_names : list string :=
  [ "academic_year"; "program_id"; "program_short_name"; "user_id"; "application_id";
    "candidate_name"; "applicant_category_id"; "applicant_category"; "admission_category_id";
    "admission_category"; "caste_name"; "gender"; "dob"; "religion_id"; "religion";
    "mother_tongue_id"; "mother_tongue"; "income_id"; "annual_family_income";
    "final_candidature_type"; "final_ph_type"; "final_defence_type"; "lingustic_minority";
    "religious_minority"; "candidate_mobile"; "email"; "admitted_choice_code";
    "admitted_choice_code_display"; "admitted_course_name"; "admitted_institute_code";
    "admitted_institute_name"; "admitted_institute_district"; "admitted_institute_status1";
    "admitted_institute_status2"; "admitted_institute_status3"; "admitted_course_status1";
    "admitted_course_status2"; "admitted_course_status3"; "admitted_course_gender";
    "seat_type_allotted"; "cap_or_il"; "cap_round_no"; "cap_round_details"; "total_fees";
    "admission_date"; "admission_upload_date"; "state_merit_slgmn"; "all_india_merit_no";
    "merit_marks"; "cap_admission_tfws"; "cap_admission_ews"; "cap_admission_orphan";
    "non_cap"; "mother_name"; "status"; "status_details" ].

(** The tokens of a tuple of values, and of a sequence of tuples. *)
Fixpoint values_tokens (vs : list string) : list Sql.token :=
  match vs with
  | [] => [Sql.RParen]
  | [v] => [Sql.Literal v; Sql.RParen]
  | v :: rest => Sql.Literal v :: Sql.Comma :: values_tokens rest
  end.

Definition tuple_tokens (vs : list string) : list Sql.token :=
  Sql.LParen :: values_tokens vs.

Fixpoint rows_tokens (rs : list (list string)) : list Sql.token :=
  match rs with
  | [] => []
  | [r] => tuple_tokens r
  | r :: rest => tuple_tokens r ++ Sql.Comma :: rows_tokens rest
  end.

(** The tokens of [insert_header]. *)
Definition header_tokens : list Sql.token :=
  [Sql.Word "INSERT"; Sql.Word "INTO"; Sql.Word mba_candidates; Sql.LParen]
  ++ flat_map (fun c => [Sql.Word c; Sql.Comma]) (removelast column_names)
  ++ [Sql.Word (last column_names ""); Sql.RParen; Sql.Word "VALUES"].

(** The tokens already complete when the lexer is at the end of the last
    value of a tuple. *)
Fixpoint open_tokens (vs : list string) : list Sql.token :=
  match vs with
  | [] => []
  | [v] => []
  | v :: rest => Sql.Literal v :: Sql.Comma :: open_tokens rest
  end.

(** The values of one record, in column order. *)
Definition record_values (candidate : MBACandidateRecord) : list string :=
  map field_value (candidate_fields candidate).

(* ================================================================== *)
(** ** What the CRUD service expects of the store *)
(* ================================================================== *)

(** The columns of a stored user besides its key: name, email and
    [created_at]. *)
Definition StoredUser : Type := (string * string * Z)%type.

(** The row the select statement of [getUser] lists for a stored user:
    [id, name, email, created_at]. *)
Definition user_row (id : string) (u : StoredUser) : Row :=
  let '(n, e, t) := u in [SqlStr id; SqlStr n; SqlStr e; SqlInt t].

Definition rows_for (id : string) (u : option StoredUser) : list Row :=
  match u with
  | Some u' => [user_row id u']
  | None => []
  end.

(** A gateway that keeps the [users] table as a table should: [stored g]
    is the content of the table in state [g], keyed by [id].  The select by
    id answers with the stored row and changes nothing; an insert that
    goes through stores the row; an update that goes through overwrites
    name and email of the row with that id, when there is one. *)
Class UsersStore (G : Type) `{Gateway G} : Type := {
  stored : G -> string -> option StoredUser;
  select_law : forall (g : G) (id : string),
    exists g',
      gw_SQLQuery Service.select_user_sql [("id", SqlStr id)] g
      = (g', Resolved (Some (rows_for id (stored g id)))) /\
      forall k, stored g' k = stored g k;
  insert_law : forall (g g' : G) (id n e : string) (t : Z) (r : SQLExecResult),
    gw_SQLExec Service.insert_user_sql
      [("id", SqlStr id); ("name", SqlStr n); ("email", SqlStr e); ("createdAt", SqlInt t)] g
    = (g', Resolved r) ->
    stored g' id = Some (n, e, t);
  update_law : forall (g g' : G) (id n e : string) (r : SQLExecResult),
    gw_SQLExec Service.update_user_sql
      [("id", SqlStr id); ("name", SqlStr n); ("email", SqlStr e)] g
    = (g', Resolved r) ->
    stored g' id = match stored g id with
                   | Some (_, _, t) => Some (n, e, t)
                   | None => None
                   end
}.
Arguments UsersStore G {_}.

(** An in-memory store with exactly that behaviour: the table is a list of
    rows in insertion order, with [id] as primary key. *)
Module MemStore.

Definition t : Type := list (string * StoredUser).

Fixpoint lookup (id : string) (tb : t) : option StoredUser :=
  match tb with
  | [] => None
  | (k, u) :: rest => if String.eqb k id then Some u else lookup id rest
  end.

Fixpoint param (k : string) (ps : SQLParams) : option SqlValue :=
  match ps with
  | [] => None
  | (k', v) :: rest => if String.eqb k' k then Some v else param k rest
  end.

Fixpoint overwrite (id n e : string) (tb : t) : t :=
  match tb with
  | [] => []
  | (k, (n0, e0, t0)) :: rest =>
      if String.eqb k id
      then (k, (n, e, t0)) :: overwrite id n e rest
      else (k, (n0, e0, t0)) :: overwrite id n e rest
  end.

Definition committed (tb : t) : SQLExecResult :=
  mkExecResult [Some (Z.of_nat (S (length tb)))].

Definition exec (sql : string) (ps : SQLParams) (tb : t) : t * Outcome SQLExecResult :=
  if String.eqb sql Service.insert_user_sql then
    match param "id" ps, param "name" ps, param "email" ps, param "createdAt" ps with
    | Some (SqlStr id), Some (SqlStr n), Some (SqlStr e), Some (SqlInt ts) =>
        match lookup id tb with
        | Some _ => (tb, Rejected (mkError "key already exists"))
        | None => (tb ++ [(id, (n, e, ts))], Resolved (committed tb))
        end
    | _, _, _, _ => (tb, Rejected (mkError "missing parameters"))
    end
  else if String.eqb sql Service.update_user_sql then
    match param "id" ps, param "name" ps, param "email" ps with
    | Some (SqlStr id), Some (SqlStr n), Some (SqlStr e) =>
        (overwrite id n e tb, Resolved (committed tb))
    | _, _, _ => (tb, Rejected (mkError "missing parameters"))
    end
  else (tb, Resolved (mkExecResult [])).

Definition query (sql : string) (ps : SQLParams) (tb : t) : t * Outcome (option (list Row)) :=
  if String.eqb sql Service.select_user_sql then
    match param "id" ps with
    | Some (SqlStr id) => (tb, Resolved (Some (rows_for id (lookup id tb))))
    | _ => (tb, Rejected (mkError "missing parameters"))
    end
  else if String.eqb sql Service.select_all_sql then
    (tb, Resolved (Some (map (fun '(k, u) => user_row k u) tb)))
  else (tb, Resolved (Some [])).

#[global] Instance gateway : Gateway t := {
  gw_login _ _ tb := (tb, Resolved tt);
  gw_createDatabase _ tb := (tb, Resolved tt);
  gw_useDatabase _ tb := (tb, Resolved tt);
  gw_SQLExec := exec;
  gw_SQLQuery := query;
  gw_logout tb := (tb, Resolved tt)
}.

(** A fresh world around a table, with the clock at [now]. *)
Definition world (tb : t) (now : Z) : World t := mkWorld tb now [] [].

End MemStore.

(** How [getUser] settles, given how its query settled. *)
Definition getUser_result (queried : Outcome (option (list Row))) : Outcome Service.VerifiedResponse :=
  match queried with
  | Resolved (Some (row :: rest)) =>
      Resolved (Service.mkResponse (Service.RowData row) true None
                  (Some (Service.RowsProof (Some (row :: rest)))))
  | Resolved _ => Rejected (mkError "Failed to get user: Error: User not found")
  | Rejected e => Rejected (mkError ("Failed to get user: " ++ error_toString e))
  end.

(** What [getUser] writes to the console ([console.log(result)]). *)
Definition getUser_console (queried : Outcome (option (list Row))) : list ConsoleEvent :=
  match queried with
  | Resolved (Some (row :: rest)) => [LogRows (row :: rest)]
  | _ => []
  end.

(** The parameters [updateUser] passes with its statement. *)
Definition update_params (id : string) (updates : Service.Partial.t) : SQLParams :=
  [ ("id", SqlStr id);
    ("name", SqlStr (or_empty (Service.Partial.name updates)));
    ("email", SqlStr (or_empty (Service.Partial.email updates))) ].

(** A table with one user, and the requests of the test script. *)
Definition one_user : MemStore.t :=
  [ ("user001", ("Alice Johnson", "alice@example.com", 1700000000000%Z)) ].

Definition bob : Service.User :=
  Service.mkUser "user002" "Bob Smith" "bob@example.com".

Definition rename_alice : Service.Partial.t :=
  Service.Partial.mk (Some "Alice Johnson-Smith") None.


(* ================================================================== *)
(** ** The import script: [readFirst10Records] and the main block *)
(* ================================================================== *)

(** The second function of the script and the promise chain that runs
    both.  What they write to the console are lines of their own, kept in
    [printed] beside the world of the importer: a [Desk] is that world and
    those lines.  Each list is in the order written; the lines of
    [importJSONToImmuDB] stay in the console of the world. *)
Module Reader.

(** One [console.log] / [console.error] of [readFirst10Records] or of the
    main block, with the interpolated values as arguments. *)
Inductive Line : Type :=
| SayConnecting                         (* 'Connecting to ImmuDB for reading...' *)
| SayConnected
| SayHeader                             (* 'First 10 records from ImmuDB:' *)
| SayRule (width : nat)                 (* a rule of [width] characters *)
| SayApplicationId (index : nat) (appId : SqlValue)
| SayName (name : SqlValue)
| SayCourse (course : SqlValue)
| SayInstitute (institute : SqlValue)
| SayDistrict (district : SqlValue)
| SayStatus (status statusDetails : SqlValue)
| SayFees (fees : SqlValue)
| SayAdmissionDate (admissionDate : SqlValue)
| SayParseError (index : nat) (msg : string)
| SayNoRecords
| ErrExecutingQuery (msg : string)
| ErrReadingData (msg : string)
| SayDisconnected
| SayConnectionAlreadyClosed
| SayImportCompleted
| SayNowReading
| SayAllCompleted
| ErrOperationFailed (msg : string).

Record Desk (G : Type) : Type := mkDesk {
  world : World G;
  printed : list Line     (* oldest first *)
}.

(** An [async] body of this part of the script. *)
Definition Reading (G A : Type) : Type := Desk G -> option (Desk G * Outcome A).

Section ReadingMonad.
Context {G : Type}.

Definition ret {A : Type} (a : A) : Reading G A :=
  fun d => Some (d, Resolved a).

Definition throw {A : Type} (e : Error) : Reading G A :=
  fun d => Some (d, Rejected e).

Definition bind {A B : Type} (m : Reading G A) (k : A -> Reading G B) : Reading G B :=
  fun d =>
    match m d with
    | None => None
    | Some (d1, Resolved a) => k a d1
    | Some (d1, Rejected e) => Some (d1, Rejected e)
    end.

(** [try { m } catch (error) { handler error }], and [.catch(handler)]
    after a promise chain. *)
Definition try_catch {A : Type} (m : Reading G A) (handler : Error -> Reading G A) : Reading G A :=
  fun d =>
    match m d with
    | None => None
    | Some (d1, Resolved a) => Some (d1, Resolved a)
    | Some (d1, Rejected e) => handler e d1
    end.

(** [try { m } finally { cleanup }]. *)
Definition try_finally {A : Type} (m : Reading G A) (cleanup : Reading G unit) : Reading G A :=
  fun d =>
    match m d with
    | None => None
    | Some (d1, o) =>
        match cleanup d1 with
        | None => None
        | Some (d2, Resolved _) => Some (d2, o)
        | Some (d2, Rejected e) => Some (d2, Rejected e)
        end
    end.

Definition print (l : Line) : Reading G unit :=
  fun d => Some (mkDesk (world d) (printed d ++ [l]), Resolved tt).

(** A computation on the world of the importer, run at the desk. *)
Definition on_world {A : Type} (m : Async G A) : Reading G A :=
  fun d =>
    match m (world d) with
    | None => None
    | Some (w', o) => Some (mkDesk w' (printed d), o)
    end.

End ReadingMonad.

Declare Scope reading_scope.
Delimit Scope reading_scope with reading.
Notation "x <- m ;; k" := (bind m (fun x => k))
  (at level 100, m at next level, right associativity) : reading_scope.
Notation "m ;; k" := (bind m (fun _ => k))
  (at level 100, right associativity) : reading_scope.

(** The query of [readFirst10Records], line by line as in the source. *)
Definition first10_lines : list string :=
  [ "SELECT ";
    "                    application_id, ";
    "                    candidate_name, ";
    "                    admitted_course_name, ";
    "                    admitted_institute_name, ";
    "                    admitted_institute_district,";
    "                    status,";
    "                    status_details,";
    "                    total_fees,";
    "                    admission_date";
    ("                FROM " ++ mba_candidates ++ " ")%string;
    "                ORDER BY id ";
    "                LIMIT 10" ].

Definition first10_sql : string := String.concat nl first10_lines.

Section Read.
Context {G : Type} `{Gateway G}.
Local Open Scope reading_scope.

(** The body of [result.forEach((row, index) => { try { ... } catch
    (parseError) { ... } })] for one row. *)
Definition print_record (row : Row) (index : nat) : Reading G unit :=
  try_catch
    (let appId := value_or row 0 (SqlStr "N/A") in
     let name := value_or row 1 (SqlStr "N/A") in
     let course := value_or row 2 (SqlStr "N/A") in
     let institute := value_or row 3 (SqlStr "N/A") in
     let district := value_or row 4 (SqlStr "N/A") in
     let status := value_or row 5 (SqlStr "N/A") in
     let statusDetails := value_or row 6 (SqlStr "N/A") in
     let fees := value_or row 7 (SqlStr "N/A") in
     let admissionDate := value_or row 8 (SqlStr "N/A") in
     print (SayApplicationId (index + 1) appId) ;;
     print (SayName name) ;;
     print (SayCourse course) ;;
     print (SayInstitute institute) ;;
     print (SayDistrict district) ;;
     print (SayStatus status statusDetails) ;;
     print (SayFees fees) ;;
     print (SayAdmissionDate admissionDate) ;;
     print (SayRule 60))
    (fun parseError => print (SayParseError (index + 1) (message parseError))).

(** [result.forEach(...)]. *)
Fixpoint print_records (rows : list Row) (index : nat) : Reading G unit :=
  match rows with
  | [] => ret tt
  | row :: rest => print_record row index ;; print_records rest (S index)
  end.

(** The inner [try]/[catch] around the query. *)
Definition show_first10 : Reading G unit :=
  try_catch
    (result <- on_world (client_SQLQuery first10_sql []) ;;
     match result with
     | Some (row :: rest) => print_records (row :: rest) 0
     | _ => print SayNoRecords
     end)
    (fun queryError => print (ErrExecutingQuery (message queryError))).

Definition readFirst10Records : Reading G unit :=
  try_finally
    (try_catch
       (print SayConnecting ;;
        on_world (client_login "immudb" "immudb") ;;
        print SayConnected ;;
        on_world (client_useDatabase dbName) ;;
        print SayHeader ;;
        print (SayRule 80) ;;
        show_first10)
       (fun error =>
          print (ErrReadingData (message error)) ;;
          throw error))
    (try_catch
       (on_world client_logout ;;
        print SayDisconnected)
       (fun _ => print SayConnectionAlreadyClosed)).

(** The main block: [importJSONToImmuDB().then(...).then(...).catch(...)].
    It returns the code passed to [process.exit]. *)
Definition main (source : Outcome (list JSONExportData)) : Reading G nat :=
  try_catch
    (on_world (importJSONToImmuDB source) ;;
     print SayImportCompleted ;;
     print SayNowReading ;;
     readFirst10Records ;;
     print SayAllCompleted ;;
     ret 0)
    (fun error =>
       print (ErrOperationFailed (message error)) ;;
       ret 1).

End Read.

End Reader.

(* ================================================================== *)
(** ** The CRUD service: [connect] and the Express routes *)
(* ================================================================== *)

(** The rest of [src/index.ts]: the [connect] method of the service and
    the route handlers.  A handler ends in one [res.status(..).json(..)];
    the embedding returns that response. *)
Module Api.
Import Service.

Definition tab : string := String "009"%char EmptyString.

(** The statement of [connect] that creates the table, as written (the
    lines of the template are indented with tabs). *)
Definition create_users_sql : string :=
  (nl ++ tab ++ tab ++ "  CREATE TABLE IF NOT EXISTS " ++ users ++ " (" ++ nl
   ++ tab ++ tab ++ "    id VARCHAR[100] NOT NULL," ++ nl
   ++ tab ++ tab ++ "    name VARCHAR[100]," ++ nl
   ++ tab ++ tab ++ "    email VARCHAR[100]," ++ nl
   ++ tab ++ tab ++ "    created_at INTEGER," ++ nl
   ++ tab ++ tab ++ "    PRIMARY KEY (id)" ++ nl
   ++ tab ++ tab ++ "  )" ++ nl
   ++ tab ++ tab)%string.

Definition index_name_sql : string :=
  ("CREATE INDEX IF NOT EXISTS ON " ++ users ++ " (name)")%string.

Definition index_email_sql : string :=
  ("CREATE INDEX IF NOT EXISTS ON " ++ users ++ " (email)")%string.

(** [process.env.X || fallback]: an unset or empty variable gives the
    fallback. *)
Definition env_or (v : option string) (fallback : string) : string :=
  match v with
  | Some EmptyString => fallback
  | Some s => s
  | None => fallback
  end.

(** The body of a JSON response. *)
Record TamperProof : Type := mkTamperProof {
  tp_verified : bool;
  transactionId : option string;     (* absent, or [undefined], is [None] *)
  cryptographicProof : bool;
  note : option string
}.

Inductive Body : Type :=
| UserBody (user : ResponseData) (tamperProof : TamperProof)
| UsersBody (users : ResponseData) (count : option nat) (tamperProof : TamperProof)
| HistoryBody (historicalUser : ResponseData) (tamperProof : TamperProof)
| ErrorBody (error : string)                      (* [{ success: false, error }] *)
| HealthBody (success : bool) (database : string) (error : option string)
    (timestamp : Z).                              (* the instant of [new Date()] *)

Record Response : Type := mkHttp { status : nat; body : Body }.

(** [!!result.proof]: an object or an array, even an empty one, is truthy;
    [null] and [undefined] are not. *)
Definition has_proof (p : option ResponseProof) : bool :=
  match p with
  | Some (ExecProof _) => true
  | Some (RowsProof (Some _)) => true
  | Some (RowsProof None) => false
  | Some (NoteProof _) => true
  | None => false
  end.

(** [result.data.length]. *)
Definition data_length (d : ResponseData) : option nat :=
  match d with
  | RowsData (Some rows) => Some (length rows)
  | _ => None
  end.

Section Handlers.
Context {G : Type} `{Gateway G}.

(** [connect]: [env] is [process.env]. *)
Definition connect (env : string -> option string) : Async G unit :=
  let user := env_or (env "IMMUDB_USER") "immudb" in
  let password := env_or (env "IMMUDB_PASSWORD") "immudb" in
  client_login user password ;;
  client_SQLExec create_users_sql [] ;;
  try_catch
    (client_SQLExec index_name_sql [] ;;
     client_SQLExec index_email_sql [] ;;
     ret tt)
    (fun error => console_log (LogError error)).

(** [app.get('/health', ...)]. *)
Definition get_health : Async G Response :=
  try_catch
    (isHealthy <- healthCheck ;;
     timestamp <- Date_now ;;
     if isHealthy
     then ret (mkHttp 200 (HealthBody true "connected" None timestamp))
     else ret (mkHttp 500 (HealthBody false "disconnected" None timestamp)))
    (fun error =>
       timestamp <- Date_now ;;
       ret (mkHttp 500 (HealthBody false "disconnected" (Some (message error)) timestamp))).

(** [app.post('/users', ...)]; [user] is [req.body]. *)
Definition post_users (user : User) : Async G Response :=
  try_catch
    (result <- createUser (mkUser (id user) (name user) (email user)) ;;
     ret (mkHttp 201
            (UserBody (data result)
               (mkTamperProof (verified result) (txId result) (has_proof (proof result)) None))))
    (fun error => ret (mkHttp 400 (ErrorBody (message error)))).

(** [app.get('/users/:id', ...)]. *)
Definition get_user (id : string) : Async G Response :=
  try_catch
    (result <- getUser id ;;
     ret (mkHttp 200
            (UserBody (data result)
               (mkTamperProof (verified result) None (has_proof (proof result)) None))))
    (fun error => ret (mkHttp 404 (ErrorBody (message error)))).

(** [app.get('/users', ...)]. *)
Definition get_users : Async G Response :=
  try_catch
    (result <- getAllUsers ;;
     ret (mkHttp 200
            (UsersBody (data result) (data_length (data result))
               (mkTamperProof (verified result) None (has_proof (proof result)) None))))
    (fun error => ret (mkHttp 500 (ErrorBody (message error)))).

(** [app.put('/users/:id', ...)]; [updates] is [req.body]. *)
Definition put_user (id : string) (updates : Partial.t) : Async G Response :=
  try_catch
    (result <- updateUser id (Partial.mk (Partial.name updates) (Partial.email updates)) ;;
     ret (mkHttp 200
            (UserBody (data result)
               (mkTamperProof (verified result) (txId result) (has_proof (proof result)) None))))
    (fun error => ret (mkHttp 400 (ErrorBody (message error)))).

(** [app.get('/users/:id/history', ...)]: the handler passes no [txId]. *)
Definition get_user_history (id : string) : Async G Response :=
  try_catch
    (result <- getUserAtTransaction id None ;;
     ret (mkHttp 200
            (HistoryBody (data result)
               (mkTamperProof (verified result) None (has_proof (proof result))
                  (Some "This data represents the state before the specified transaction")))))
    (fun error => ret (mkHttp 404 (ErrorBody (message error)))).

End Handlers.

End Api.

(* ================================================================== *)
(** ** Describing the runs of the importer that fail *)
(* ================================================================== *)

(** [createDatabase] did not stop the run: it went through, or was
    rejected with a message that says the database already exists. *)
Definition database_ready (created : option Error) : Prop :=
  match created with
  | None => True
  | Some e => includes (message e) "already exists" = true
  end.

Definition login_ok : CallRecord := (Login "immudb" "immudb", None).
Definition use_ok : CallRecord := (UseDatabase dbName, None).

(** Why and where a run was rejected: the calls made up to that point,
    the console lines written up to that point, and the error. *)
Inductive FailureCause (source : Outcome (list JSONExportData))
  : list CallRecord -> list ConsoleEvent -> Error -> Prop :=
| login_failed (e : Error) :
    FailureCause source
      [(Login "immudb" "immudb", Some e)]
      [LogConnecting] e
| database_failed (e : Error) :
    includes (message e) "already exists" = false ->
    FailureCause source
      [login_ok; (CreateDatabase dbName, Some e)]
      [LogConnecting; LogConnected] e
| use_failed (created : option Error) (e : Error) :
    database_ready created ->
    FailureCause source
      [login_ok; (CreateDatabase dbName, created); (UseDatabase dbName, Some e)]
      [LogConnecting; LogConnected; database_report created] e
| file_failed (created : option Error) (e : Error) :
    database_ready created ->
    source = Rejected e ->
    FailureCause source
      [login_ok; (CreateDatabase dbName, created); use_ok]
      [LogConnecting; LogConnected; database_report created; LogReadingFile] e
| table_missing (created : option Error) :
    database_ready created ->
    (exists parsedData, source = Resolved parsedData) ->
    dataset_of source = None ->
    FailureCause source
      [login_ok; (CreateDatabase dbName, created); use_ok]
      [LogConnecting; LogConnected; database_report created; LogReadingFile]
      (mkError "No table data found in JSON file")
| schema_failed (created : option Error) (candidates : list MBACandidateRecord) (e : Error) :
    database_ready created ->
    dataset_of source = Some candidates ->
    FailureCause source
      [login_ok; (CreateDatabase dbName, created); use_ok; (SQLExec createTableSQL [], Some e)]
      [LogConnecting; LogConnected; database_report created; LogReadingFile;
       LogFoundCandidates (length candidates); LogCreatingSchema] e.

(** A run that was rejected with [e], seen from outside. *)
Inductive ImportFailure (G : Type) (source : Outcome (list JSONExportData))
    (w w' : World G) (e : Error) : Prop :=
| import_failure
    (made : list CallRecord) (written : list ConsoleEvent) (left : option Error)
    (failure_cause : FailureCause source made written e)
    (failure_calls : calls w' = calls w ++ made ++ [(Logout, left)])
    (failure_console :
       console w' = console w ++ written ++ [ErrImporting (message e); logout_report left]).

(** Every run, resolved or rejected, seen from outside. *)
Definition import_trace {G : Type} (source : Outcome (list JSONExportData))
    (w w' : World G) (o : Outcome nat) : Prop :=
  match o with
  | Resolved insertedCount =>
      exists candidates attempts created counted sampled left,
        database_ready created /\
        dataset_of source = Some candidates /\
        attempts_of batchSize candidates attempts /\
        insertedCount = count_after 0 attempts /\
        calls w' = calls w ++ setup_calls created ++ map attempt_call attempts
                     ++ closing_calls counted sampled left /\
        console w' = console w
          ++ [LogConnecting; LogConnected; database_report created; LogReadingFile;
              LogFoundCandidates (length candidates); LogCreatingSchema; LogSchemaReady]
          ++ console_after (length candidates) 0 attempts
          ++ [LogImported insertedCount; LogVerifying]
          ++ count_report counted
          ++ [LogSampleHeader]
          ++ sample_report sampled
          ++ [logout_report left]
  | Rejected e => ImportFailure source w w' e
  end.

(** The two calls that open and close the session. *)
Definition is_session_request (r : Request) : bool :=
  match r with
  | Login _ _ | Logout => true
  | _ => false
  end.

(** A statement sent to the store, to change it or to read it. *)
Definition is_statement (r : Request) : bool :=
  match r with
  | SQLExec _ _ | SQLQuery _ _ => true
  | _ => false
  end.

(** The rows of the statements among some calls that parse as an
    [INSERT], in call order. *)
Definition inserted_rows (made : list CallRecord) : list (list string) :=
  flat_map (fun c => match fst c with
                     | SQLExec sql _ =>
                         match Sql.parse sql with
                         | Some stmt => Sql.rows stmt
                         | None => []
                         end
                     | _ => []
                     end) made.

(* ================================================================== *)
(** ** Describing a run of [readFirst10Records] *)
(* ================================================================== *)

(** The lines printed for one row, and for the rows of a result. *)
Definition record_lines (row : Row) (index : nat) : list Reader.Line :=
  [ Reader.SayApplicationId (index + 1) (value_or row 0 (SqlStr "N/A"));
    Reader.SayName (value_or row 1 (SqlStr "N/A"));
    Reader.SayCourse (value_or row 2 (SqlStr "N/A"));
    Reader.SayInstitute (value_or row 3 (SqlStr "N/A"));
    Reader.SayDistrict (value_or row 4 (SqlStr "N/A"));
    Reader.SayStatus (value_or row 5 (SqlStr "N/A")) (value_or row 6 (SqlStr "N/A"));
    Reader.SayFees (value_or row 7 (SqlStr "N/A"));
    Reader.SayAdmissionDate (value_or row 8 (SqlStr "N/A"));
    Reader.SayRule 60 ].

Fixpoint records_lines (rows : list Row) (index : nat) : list Reader.Line :=
  match rows with
  | [] => []
  | row :: rest => record_lines row index ++ records_lines rest (S index)
  end.

(** What is printed for the query, as it settled. *)
Definition first10_report (queried : Outcome (option (list Row))) : list Reader.Line :=
  match queried with
  | Resolved (Some (row :: rest)) => records_lines (row :: rest) 0
  | Resolved _ => [Reader.SayNoRecords]
  | Rejected e => [Reader.ErrExecutingQuery (message e)]
  end.

Definition farewell (left : option Error) : Reader.Line :=
  match left with
  | None => Reader.SayDisconnected
  | Some _ => Reader.SayConnectionAlreadyClosed
  end.

(** The three ways a run of [readFirst10Records] goes: the calls it
    makes, the lines it prints, and how it settles. *)
Inductive ReadShape : list CallRecord -> list Reader.Line -> Outcome unit -> Prop :=
| read_login_failed (e : Error) (left : option Error) :
    ReadShape
      [(Login "immudb" "immudb", Some e); (Logout, left)]
      [Reader.SayConnecting; Reader.ErrReadingData (message e); farewell left]
      (Rejected e)
| read_use_failed (e : Error) (left : option Error) :
    ReadShape
      [login_ok; (UseDatabase dbName, Some e); (Logout, left)]
      [Reader.SayConnecting; Reader.SayConnected; Reader.ErrReadingData (message e);
       farewell left]
      (Rejected e)
| read_done (queried : Outcome (option (list Row))) (left : option Error) :
    ReadShape
      [login_ok; use_ok; (SQLQuery Reader.first10_sql [], failure_of queried); (Logout, left)]
      ([Reader.SayConnecting; Reader.SayConnected; Reader.SayHeader; Reader.SayRule 80]
       ++ first10_report queried ++ [farewell left])
      (Resolved tt).

(** The calls made and the lines printed between two desks. *)
Definition desk_calls_since {G : Type} (d d' : Reader.Desk G) : list CallRecord :=
  calls_since (Reader.world d) (Reader.world d').

Definition printed_since {G : Type} (d d' : Reader.Desk G) : list Reader.Line :=
  skipn (length (Reader.printed d)) (Reader.printed d').

(** The application-id lines among some printed lines: the numbered
    heading of each record shown. *)
Definition headings (lines : list Reader.Line) : list (nat * SqlValue) :=
  flat_map (fun l => match l with
                     | Reader.SayApplicationId index appId => [(index, appId)]
                     | _ => []
                     end) lines.

(** The calls [readFirst10Records] makes inside its session. *)
Definition is_read_request (r : Request) : bool :=
  match r with
  | UseDatabase _ | SQLQuery _ _ => true
  | _ => false
  end.

(** A rejected call that ends the script with exit code 1: a rejected
    login, [useDatabase] or creation of the table, and a rejected
    [createDatabase] unless its message says that the database already
    exists. *)
Definition fatal_call (c : CallRecord) : bool :=
  match c with
  | (Logout, _) => false
  | (CreateDatabase _, Some e) => negb (includes (message e) "already exists")
  | (r, Some _) => is_setup_request r
  | (_, None) => false
  end.

(* ================================================================== *)
(** ** Describing a run of [connect] *)
(* ================================================================== *)

(** The five ways a run of [connect] goes: the calls it makes, what it
    writes to the console, and how it settles. *)
Inductive ConnectShape (user password : string)
  : list CallRecord -> list ConsoleEvent -> Outcome unit -> Prop :=
| connect_login_failed (e : Error) :
    ConnectShape user password
      [(Login user password, Some e)] [] (Rejected e)
| connect_table_failed (e : Error) :
    ConnectShape user password
      [(Login user password, None); (SQLExec Api.create_users_sql [], Some e)] [] (Rejected e)
| connect_name_index_failed (e : Error) :
    ConnectShape user password
      [(Login user password, None); (SQLExec Api.create_users_sql [], None);
       (SQLExec Api.index_name_sql [], Some e)]
      [LogError e] (Resolved tt)
| connect_email_index_failed (e : Error) :
    ConnectShape user password
      [(Login user password, None); (SQLExec Api.create_users_sql [], None);
       (SQLExec Api.index_name_sql [], None); (SQLExec Api.index_email_sql [], Some e)]
      [LogError e] (Resolved tt)
| connect_done :
    ConnectShape user password
      [(Login user password, None); (SQLExec Api.create_users_sql [], None);
       (SQLExec Api.index_name_sql [], None); (SQLExec Api.index_email_sql [], None)]
      [] (Resolved tt).

(** A client whose methods always settle the same way, each as given. *)
Module Fixed.

Record t : Type := mk {
  on_login : option Error;
  on_createDatabase : option Error;
  on_useDatabase : option Error;
  on_SQLExec : option Error;
  on_SQLQuery : Outcome (option (list Row));
  on_logout : option Error
}.

#[global] Instance gateway : Gateway t := {
  gw_login _ _ g := (g, Scripted.settle (on_login g));
  gw_createDatabase _ g := (g, Scripted.settle (on_createDatabase g));
  gw_useDatabase _ g := (g, Scripted.settle (on_useDatabase g));
  gw_SQLExec _ _ g := (g, match on_SQLExec g with
                          | None => Resolved (mkExecResult [])
                          | Some e => Rejected e
                          end);
  gw_SQLQuery _ _ g := (g, on_SQLQuery g);
  gw_logout g := (g, Scripted.settle (on_logout g))
}.

(** A fresh world around such a client. *)
Definition world (g : t) : World t := mkWorld g 0%Z [] [].

(** A fresh desk around such a client. *)
Definition desk (g : t) : Reader.Desk t := Reader.mkDesk (world g) [].

End Fixed.

(* ================================================================== *)
(** ** The import script on a file as it is *)
(* ================================================================== *)

(** [JSON.parse] returns what the file holds, and nothing checks it
    against [MBACandidateRecord]: a field declared [string] can hold a
    number.  [Raw] is the importer over such records.  Its statements
    are those of [Importer]; the difference is in the loop, where the text
    of the statement is built, with [escape] called on every field, before
    the [try] that submits it. *)
Module Raw.

(** The value of a property of a record.  Of a value that is not a string
    the script reads one thing, whether it is truthy; so a number, a
    boolean, an array and an object are kept as [JOther], truthy unless
    the value is [0] or [false].  An absent property reads as [JNull]:
    [undefined] and [null] are both falsy and neither is a string. *)
Inductive Json : Type :=
| JString (s : string)
| JNull
| JOther (truthy : bool).

(** A record of the table: an object, as the function from its property
    names. *)
Definition Candidate : Type := string -> Json.

(** An item of the export; [type] and [data] are what the script reads. *)
Record ExportItem : Type := mkItem {
  type : string;
  data : option (list Candidate)
}.

(** The properties named by the 56 [escape(candidate.X)] calls of the
    template, in the order they are written. *)
Definition field_names : list string :=
  [ "AcademicYear"; "ProgramID"; "ProgramShortName"; "UserId"; "ApplicationID";
    "CandidateName"; "ApplicantCategoryId"; "ApplicantCategory"; "AdmissionCategoryId";
    "AdmissionCategory"; "CasteName"; "Gender"; "DOB"; "ReligionID"; "Religion";
    "MotherTongueId"; "MotherTongue"; "IncomeId"; "AnnualFamilyIncome";
    "FinalCandidatureType"; "FinalPHType"; "FinalDefenceType"; "LingusticMinority";
    "ReligiousMinority"; "CandidateMobile"; "Email"; "AdmittedChoiceCode";
    "AdmittedChoiceCodeDisplay"; "AdmittedCourseName"; "AdmittedInstituteCode";
    "AdmittedInstituteName"; "AdmittedInstituteDistrict"; "AdmittedInstituteStatus1";
    "AdmittedInstituteStatus2"; "AdmittedInstituteStatus3"; "AdmittedCourseStatus1";
    "AdmittedCourseStatus2"; "AdmittedCourseStatus3"; "AdmittedCourseGender";
    "SeatTypeAllotted"; "CAPorIL"; "CAPRoundNo"; "CAPRoundDetails"; "TotalFees";
    "AdmissionDate"; "AdmissionUploadDate"; "StateMeritSLGMN"; "AllIndiaMeritNo";
    "MeritMarks"; "CAPAdmissionTFWS"; "CAPAdmissionEWS"; "CAPAdmissionOrphan";
    "NON_CAP"; "MotherName"; "Status"; "StatusDetails" ].

(** [const escape = (str: string | null) => { if (!str) return '';
    return str.replace(/'/g, "''"); }] on any value: [!str] holds for
    every falsy value; a truthy value that is not a string has no
    [replace], and calling it throws the [TypeError] with this message. *)
Definition escape (str : Json) : Outcome string :=
  match str with
  | JNull => Resolved ""
  | JOther false => Resolved ""
  | JString EmptyString => Resolved ""
  | JString s => Resolved (replace_quotes s)
  | JOther true => Rejected (mkError "str.replace is not a function")
  end.

(** The lines ['${escape(candidate.X)}'] of the template, evaluated in
    order: the first [escape] that throws ends the evaluation. *)
Fixpoint literal_lines (fields : list Json) : Outcome (list string) :=
  match fields with
  | [] => Resolved []
  | f :: rest =>
      match escape f with
      | Rejected e => Rejected e
      | Resolved escaped =>
          match literal_lines rest with
          | Rejected e => Rejected e
          | Resolved lines =>
              Resolved (("          " ++ String quote (escaped ++ String quote EmptyString))%string
                        :: lines)
          end
      end
  end.

(** The template literal returned by the [batch.map] callback. *)
Definition values_tuple (candidate : Candidate) : Outcome string :=
  match literal_lines (map candidate field_names) with
  | Rejected e => Rejected e
  | Resolved lines =>
      Resolved ("(" ++ nl ++ String.concat ("," ++ nl) lines ++ nl ++ "        )")%string
  end.

(** [batch.map(...)]: the callback runs on the records in order, and the
    first that throws ends the [map]. *)
Fixpoint values_tuples (batch : list Candidate) : Outcome (list string) :=
  match batch with
  | [] => Resolved []
  | candidate :: rest =>
      match values_tuple candidate with
      | Rejected e => Rejected e
      | Resolved tuple =>
          match values_tuples rest with
          | Rejected e => Rejected e
          | Resolved tuples => Resolved (tuple :: tuples)
          end
      end
  end.

(** [batch.map(...).join(',')]. *)
Definition values_clause (batch : list Candidate) : Outcome string :=
  match values_tuples batch with
  | Rejected e => Rejected e
  | Resolved tuples => Resolved (String.concat "," tuples)
  end.

(** [const bulkInsertSQL = `... VALUES ${values} `]. *)
Definition bulkInsertSQL (values : string) : string :=
  (insert_header ++ values ++ nl ++ "      ")%string.

(** [parsedData.find(item => item.type === 'table' && item.data)]. *)
Definition is_table_item (item : ExportItem) : bool :=
  String.eqb (type item) "table" &&
  match data item with Some _ => true | None => false end.

Section Run.
Context {G : Type} `{Gateway G}.

(** A step that touches nothing outside the program: it settles as the
    evaluation did. *)
Definition evaluated {A : Type} (o : Outcome A) : Async G A :=
  fun w => Some (w, o).

(** The body of the [for] loop for one value of [i]: the values are built
    first, outside the [try]; then the [try] submits the statement. *)
Definition insert_batch (candidates : list Candidate) (batchSize i insertedCount : nat)
  : Async G nat :=
  let batch := slice candidates i (i + batchSize) in
  values <- evaluated (values_clause batch) ;;
  try_catch
    (client_SQLExec (bulkInsertSQL values) [] ;;
     let insertedCount := insertedCount + length batch in
     console_log (LogBulkInserted insertedCount (length candidates)) ;;
     ret insertedCount)
    (fun error =>
       console_log (ErrBulkInsertBatch i (message error)) ;;
       ret insertedCount).

(** [for (let i = 0; i < candidates.length; i += batchSize) { ... }], one
    unit of fuel per test of the loop condition. *)
Fixpoint insert_loop (fuel : nat) (candidates : list Candidate)
    (batchSize i insertedCount : nat) : Async G nat :=
  match fuel with
  | O => fun _ => None
  | S fuel' =>
      if i <? length candidates
      then insertedCount' <- insert_batch candidates batchSize i insertedCount ;;
           insert_loop fuel' candidates batchSize (i + batchSize) insertedCount'
      else ret insertedCount
  end.

(** The statements of the outer [try] block. *)
Definition import_body (source : Outcome (list ExportItem)) : Async G nat :=
  console_log LogConnecting ;;
  client_login "immudb" "immudb" ;;
  console_log LogConnected ;;
  try_catch
    (client_createDatabase dbName ;;
     console_log (LogCreatedDatabase dbName))
    (fun error =>
       if includes (message error) "already exists"
       then console_log (LogUsingExistingDatabase dbName)
       else throw error) ;;
  client_useDatabase dbName ;;
  console_log LogReadingFile ;;
  parsedData <- evaluated source ;;
  match find is_table_item parsedData with
  | Some {| data := Some candidates |} =>
      console_log (LogFoundCandidates (length candidates)) ;;
      console_log LogCreatingSchema ;;
      client_SQLExec createTableSQL [] ;;
      console_log LogSchemaReady ;;
      insertedCount <- insert_loop (S (length candidates)) candidates batchSize 0 0 ;;
      console_log (LogImported insertedCount) ;;
      console_log LogVerifying ;;
      countRecords ;;
      console_log LogSampleHeader ;;
      sampleRecords ;;
      ret insertedCount
  | _ => throw (mkError "No table data found in JSON file")
  end.

(** [importJSONToImmuDB]: the body, the outer [catch] that logs and
    rethrows, and the [finally] that logs out. *)
Definition importJSONToImmuDB (source : Outcome (list ExportItem)) : Async G nat :=
  try_finally
    (try_catch
       (import_body source)
       (fun error =>
          console_log (ErrImporting (message error)) ;;
          throw error))
    (try_catch
       (client_logout ;;
        console_log LogDisconnected)
       (fun _ => console_log LogConnectionAlreadyClosed)).

(** The main block: [importJSONToImmuDB().then(...).then(...).catch(...)].
    It returns the code passed to [process.exit]. *)
Definition main (source : Outcome (list ExportItem)) : Reader.Reading G nat :=
  Reader.try_catch
    (Reader.bind (Reader.on_world (importJSONToImmuDB source)) (fun _ =>
     Reader.bind (Reader.print Reader.SayImportCompleted) (fun _ =>
     Reader.bind (Reader.print Reader.SayNowReading) (fun _ =>
     Reader.bind Reader.readFirst10Records (fun _ =>
     Reader.bind (Reader.print Reader.SayAllCompleted) (fun _ =>
     Reader.ret 0))))))
    (fun error =>
       Reader.bind (Reader.print (Reader.ErrOperationFailed (message error))) (fun _ =>
       Reader.ret 1)).

End Run.

(** The dataset a run imports. *)
Definition dataset_of (source : Outcome (list ExportItem)) : option (list Candidate) :=
  match source with
  | Resolved parsedData =>
      match find is_table_item parsedData with
      | Some item => data item
      | None => None
      end
  | Rejected _ => None
  end.

(** A value [escape] throws on: truthy, and not a string. *)
Definition unescapable (v : Json) : bool :=
  match v with
  | JOther true => true
  | _ => false
  end.

(** A record one of whose 56 fields [escape] throws on. *)
Definition throws (candidate : Candidate) : bool :=
  existsb (fun name => unescapable (candidate name)) field_names.

(** A dataset with such a record. *)
Definition ill_typed (source : Outcome (list ExportItem)) : bool :=
  match dataset_of source with
  | Some candidates => existsb throws candidates
  | None => false
  end.

(** The record as [MBACandidateRecord] sees it, when none of its fields
    makes [escape] throw: a string is itself; anything falsy is [null]
    where the field may be [null], and reads as the empty string where it
    may not, which [escape] does not tell apart. *)
Definition as_text (v : Json) : option string :=
  match v with
  | JString s => Some s
  | _ => None
  end.

Definition as_string (v : Json) : string :=
  match v with
  | JString s => s
  | _ => ""
  end.

Definition typed_of (candidate : Candidate) : MBACandidateRecord :=
  mkCandidate
    (as_string (candidate "AcademicYear"))
    (as_string (candidate "ProgramID"))
    (as_string (candidate "ProgramShortName"))
    (as_string (candidate "UserId"))
    (as_string (candidate "ApplicationID"))
    (as_string (candidate "CandidateName"))
    (as_string (candidate "ApplicantCategoryId"))
    (as_string (candidate "ApplicantCategory"))
    (as_string (candidate "AdmissionCategoryId"))
    (as_string (candidate "AdmissionCategory"))
    (as_string (candidate "CasteName"))
    (as_string (candidate "Gender"))
    (as_string (candidate "DOB"))
    (as_string (candidate "ReligionID"))
    (as_string (candidate "Religion"))
    (as_string (candidate "MotherTongueId"))
    (as_string (candidate "MotherTongue"))
    (as_string (candidate "IncomeId"))
    (as_string (candidate "AnnualFamilyIncome"))
    (as_string (candidate "FinalCandidatureType"))
    (as_string (candidate "FinalPHType"))
    (as_text (candidate "FinalDefenceType"))
    (as_string (candidate "LingusticMinority"))
    (as_string (candidate "ReligiousMinority"))
    (as_string (candidate "CandidateMobile"))
    (as_string (candidate "Email"))
    (as_string (candidate "AdmittedChoiceCode"))
    (as_string (candidate "AdmittedChoiceCodeDisplay"))
    (as_string (candidate "AdmittedCourseName"))
    (as_string (candidate "AdmittedInstituteCode"))
    (as_string (candidate "AdmittedInstituteName"))
    (as_string (candidate "AdmittedInstituteDistrict"))
    (as_string (candidate "AdmittedInstituteStatus1"))
    (as_string (candidate "AdmittedInstituteStatus2"))
    (as_string (candidate "AdmittedInstituteStatus3"))
    (as_string (candidate "AdmittedCourseStatus1"))
    (as_string (candidate "AdmittedCourseStatus2"))
    (as_string (candidate "AdmittedCourseStatus3"))
    (as_string (candidate "AdmittedCourseGender"))
    (as_string (candidate "SeatTypeAllotted"))
    (as_string (candidate "CAPorIL"))
    (as_string (candidate "CAPRoundNo"))
    (as_string (candidate "CAPRoundDetails"))
    (as_string (candidate "TotalFees"))
    (as_string (candidate "AdmissionDate"))
    (as_string (candidate "AdmissionUploadDate"))
    (as_text (candidate "StateMeritSLGMN"))
    (as_text (candidate "AllIndiaMeritNo"))
    (as_string (candidate "MeritMarks"))
    (as_text (candidate "CAPAdmissionTFWS"))
    (as_text (candidate "CAPAdmissionEWS"))
    (as_text (candidate "CAPAdmissionOrphan"))
    (as_string (candidate "NON_CAP"))
    (as_text (candidate "MotherName"))
    (as_string (candidate "Status"))
    (as_string (candidate "StatusDetails")).

Definition typed_item (item : ExportItem) : JSONExportData :=
  mkExport (type item) None None None None (option_map (map typed_of) (data item)).

Definition typed_source (source : Outcome (list ExportItem)) : Outcome (list JSONExportData) :=
  match source with
  | Resolved parsedData => Resolved (map typed_item parsedData)
  | Rejected e => Rejected e
  end.

End Raw.

(** The record of a file in which [TotalFees] is the number [125000] and
    not the string ['125000']. *)
Definition fees_as_number : Raw.Candidate :=
  fun name =>
    if String.eqb name "TotalFees" then Raw.JOther true
    else if String.eqb name "CandidateName" then Raw.JString "Asha Rao"
    else Raw.JNull.

Definition fees_as_text : Raw.Candidate :=
  fun name =>
    if String.eqb name "TotalFees" then Raw.JString "125000"
    else if String.eqb name "CandidateName" then Raw.JString "Asha Rao"
    else Raw.JNull.

(* ================================================================== *)
(** ** Arithmetic of batch counts *)
(* ================================================================== *)

Lemma ceil_div_zero (b : nat) : 1 <= b -> ceil_div 0 b = 0.
Proof.
  intros Hb. unfold ceil_div. apply Nat.div_small. lia.
Qed.

Lemma ceil_div_step (n b : nat) :
  1 <= b -> 0 < n -> ceil_div n b = S (ceil_div (n - b) b).
Proof.
  intros Hb Hn. unfold ceil_div.
  destruct (le_lt_dec b n) as [Hle | Hlt].
  - replace (n + b - 1) with ((n - b + b - 1) + 1 * b) by lia.
    rewrite Nat.div_add by lia. lia.
  - replace (n - b) with 0 by lia.
    rewrite (Nat.div_small (0 + b - 1) b) by lia.
    symmetry. apply Nat.div_unique with (r := n - 1); lia.
Qed.

Lemma ceil_div_bounds (n b : nat) :
  1 <= b -> n <= ceil_div n b * b /\ (0 < n -> (ceil_div n b - 1) * b < n /\ 1 <= ceil_div n b).
Proof.
  intros Hb. unfold ceil_div.
  pose proof (Nat.div_mod_eq (n + b - 1) b) as E.
  pose proof (Nat.mod_upper_bound (n + b - 1) b ltac:(lia)) as U.
  set (q := (n + b - 1) / b) in *. set (r := (n + b - 1) mod b) in *.
  split; [nia|]. intros Hn.
  assert (1 <= q) by (destruct q; [nia | lia]).
  split; [nia | lia].
Qed.

Lemma ceil_div_mod (n b : nat) :
  1 <= b -> 0 < n ->
  n - (ceil_div n b - 1) * b = if n mod b =? 0 then b else n mod b.
Proof.
  intros Hb Hn.
  pose proof (Nat.div_mod_eq n b) as E.
  pose proof (Nat.mod_upper_bound n b ltac:(lia)) as U.
  assert (Hc : ceil_div n b = if n mod b =? 0 then n / b else S (n / b)).
  { unfold ceil_div. destruct (Nat.eqb_spec (n mod b) 0) as [Hz | Hnz].
    - symmetry. apply Nat.div_unique with (r := b - 1); nia.
    - symmetry. apply Nat.div_unique with (r := n mod b - 1); nia. }
  rewrite Hc. destruct (Nat.eqb_spec (n mod b) 0) as [Hz | Hnz].
  - assert (1 <= n / b) by (destruct (n / b); [nia | lia]). nia.
  - replace (S (n / b) - 1) with (n / b) by lia. nia.
Qed.

Lemma ceil_div_le (n b : nat) : 1 <= b -> ceil_div n b <= n.
Proof.
  intros Hb. destruct n as [|n].
  - rewrite ceil_div_zero by lia. lia.
  - destruct (ceil_div_bounds (S n) Hb) as [_ Hpos].
    destruct (Hpos ltac:(lia)) as [Hlt _]. nia.
Qed.

(* ================================================================== *)
(** ** The batches partition the dataset *)
(* ================================================================== *)

Section Batches.
Variable b : nat.
Hypothesis b_pos : 1 <= b.
Variable candidates : list MBACandidateRecord.

Lemma firstn_plus {A : Type} (l : list A) (p q : nat) :
  firstn (p + q) l = firstn p l ++ firstn q (skipn p l).
Proof.
  revert l. induction p as [|p IH]; intros l; simpl.
  - reflexivity.
  - destruct l as [|x l]; simpl.
    + now rewrite firstn_nil.
    + now rewrite IH.
Qed.

Lemma batch_at_length (k : nat) :
  length (batch_at candidates b k) = Nat.min b (length candidates - k * b).
Proof.
  unfold batch_at, slice. rewrite length_firstn, length_skipn.
  replace (k * b + b - k * b) with b by lia. reflexivity.
Qed.

Lemma concat_batches_prefix (m : nat) :
  concat (map (batch_at candidates b) (seq 0 m)) = firstn (m * b) candidates.
Proof.
  induction m as [|m IH].
  - reflexivity.
  - rewrite seq_S, map_app, concat_app, IH. simpl.
    rewrite app_nil_r. unfold batch_at, slice.
    replace (m * b + b - m * b) with b by lia.
    replace (b + m * b) with (m * b + b) by lia.
    symmetry. apply firstn_plus.
Qed.

Lemma batches_concat : concat (batches b candidates) = candidates.
Proof.
  unfold batches. rewrite concat_batches_prefix.
  apply firstn_all2. apply (ceil_div_bounds (length candidates) b_pos).
Qed.

Lemma batches_count : length (batches b candidates) = ceil_div (length candidates) b.
Proof.
  unfold batches. now rewrite length_map, length_seq.
Qed.

Lemma batches_nth (k : nat) :
  k < ceil_div (length candidates) b ->
  nth_error (batches b candidates) k = Some (batch_at candidates b k).
Proof.
  intros Hk. unfold batches.
  rewrite nth_error_map, nth_error_seq.
  destruct (Nat.ltb_spec k (ceil_div (length candidates) b)); [reflexivity | lia].
Qed.

(** Every batch but the last is full; the last holds what is left. *)
Lemma batch_sizes (k : nat) :
  k < ceil_div (length candidates) b ->
  length (batch_at candidates b k) =
    if S k =? ceil_div (length candidates) b
    then (if length candidates mod b =? 0 then b else length candidates mod b)
    else b.
Proof.
  intros Hk. rewrite batch_at_length.
  assert (Hn : 0 < length candidates).
  { destruct (length candidates); [rewrite ceil_div_zero in Hk by lia; lia | lia]. }
  pose proof (@ceil_div_mod (length candidates) b b_pos Hn) as Hlast.
  destruct (ceil_div_bounds (length candidates) b_pos) as [Hup Hlow].
  destruct (Hlow Hn) as [Hlt Hone].
  destruct (Nat.eqb_spec (S k) (ceil_div (length candidates) b)) as [E | NE].
  - rewrite <- Hlast. rewrite <- E. replace (S k - 1) with k by lia.
    rewrite <- E in Hup. apply Nat.min_r. nia.
  - apply Nat.min_l.
    assert (S k <= ceil_div (length candidates) b - 1) by lia. nia.
Qed.

End Batches.

(* ================================================================== *)
(** ** The loop, iteration by iteration *)
(* ================================================================== *)

Section LoopRuns.
Context {G : Type} `{Gateway G}.

(** One iteration always completes: whatever the gateway answers, the
    attempt is recorded, the console gets one line and the count is that
    of [count_after]. *)
Lemma insert_batch_run (candidates : list MBACandidateRecord) (b i cnt : nat) (w : World G) :
  exists (w' : World G) (fl : option Error),
    let a := mkAttempt i (slice candidates i (i + b)) fl in
    insert_batch candidates b i cnt w = Some (w', Resolved (count_after cnt [a])) /\
    calls w' = calls w ++ [attempt_call a] /\
    console w' = console w ++ console_after (length candidates) cnt [a] /\
    clock w' = clock w.
Proof.
  unfold insert_batch, try_catch, bind, client_SQLExec, client_call, console_log, ret.
  destruct (gw_SQLExec (bulkInsertSQL (slice candidates i (i + b))) [] (gateway w))
    as [g' [r | e]] eqn:E; simpl.
  - eexists. exists None. simpl. repeat split; reflexivity.
  - eexists. exists (Some e). simpl. repeat split; reflexivity.
Qed.

(** The loop started at offset [i] with [m] iterations left makes exactly
    those [m] attempts, whatever the gateway does. *)
Lemma insert_loop_from (candidates : list MBACandidateRecord) (b : nat) :
  1 <= b ->
  forall (m fuel i cnt : nat) (w : World G),
    m = ceil_div (length candidates - i) b ->
    m < fuel ->
    exists (w' : World G) (attempts : list Attempt),
      insert_loop fuel candidates b i cnt w = Some (w', Resolved (count_after cnt attempts)) /\
      map records attempts = map (fun k => slice candidates (i + k * b) (i + k * b + b)) (seq 0 m) /\
      map offset attempts = map (fun k => i + k * b) (seq 0 m) /\
      calls w' = calls w ++ map attempt_call attempts /\
      console w' = console w ++ console_after (length candidates) cnt attempts /\
      clock w' = clock w.
Proof.
  intros Hb. induction m as [|m IH]; intros fuel i cnt w Hm Hfuel.
  - destruct fuel as [|fuel]; [lia|]. simpl.
    assert (Hi : length candidates - i = 0).
    { destruct (length candidates - i) eqn:E; [reflexivity|].
      rewrite (@ceil_div_step (S n) b) in Hm by lia. discriminate. }
    destruct (Nat.ltb_spec i (length candidates)); [lia|].
    exists w, []. simpl. rewrite !app_nil_r. repeat split; reflexivity.
  - destruct fuel as [|fuel]; [lia|]. simpl.
    assert (Hi : 0 < length candidates - i).
    { destruct (length candidates - i) eqn:E; [|lia].
      rewrite ceil_div_zero in Hm by lia. discriminate. }
    destruct (Nat.ltb_spec i (length candidates)); [|lia].
    destruct (insert_batch_run candidates b i cnt w) as (w1 & fl & Hrun & Hcalls & Hcons & Hclk).
    cbv zeta in Hrun, Hcalls, Hcons.
    unfold bind at 1. rewrite Hrun.
    rewrite ceil_div_step in Hm by lia.
    destruct (IH fuel (i + b) (count_after cnt [mkAttempt i (slice candidates i (i + b)) fl]) w1)
      as (w2 & rest & Hloop & Hrec & Hoff & Hcalls2 & Hcons2 & Hclk2).
    { replace (length candidates - (i + b)) with (length candidates - i - b) by lia. lia. }
    { lia. }
    exists w2, (mkAttempt i (slice candidates i (i + b)) fl :: rest).
    split; [exact Hloop|].
    rewrite <- seq_shift, !map_map. simpl map.
    repeat split.
    + rewrite Hrec. f_equal.
      * now rewrite Nat.add_0_r.
      * apply map_ext. intros k. f_equal; lia.
    + rewrite Hoff. f_equal; [lia|].
      apply map_ext. intros k. lia.
    + rewrite Hcalls2, Hcalls, <- app_assoc. reflexivity.
    + rewrite Hcons2, Hcons, <- app_assoc. f_equal.
      simpl. destruct fl; reflexivity.
    + congruence.
Qed.

(** With a batch size of zero the offset never moves: on a non-empty
    dataset the loop outlives any fuel.  This is why the results below ask
    for a batch size of at least one. *)
Lemma insert_loop_zero_batch (candidates : list MBACandidateRecord)
    (fuel cnt : nat) (w : World G) :
  candidates <> [] -> insert_loop fuel candidates 0 0 cnt w = None.
Proof.
  intros Hne. destruct candidates as [|c rest]; [congruence|]. clear Hne.
  revert cnt w. induction fuel as [|fuel IH]; intros cnt w; [reflexivity|].
  cbn [insert_loop List.length Nat.ltb Nat.leb].
  destruct (insert_batch_run (c :: rest) 0 0 cnt w) as (w1 & fl & Hrun & _).
  unfold bind. rewrite Hrun. apply IH.
Qed.

(** The loop as [importJSONToImmuDB] starts it. *)
Lemma insert_loop_run (candidates : list MBACandidateRecord) (b : nat) (w : World G) :
  1 <= b ->
  exists (w' : World G) (attempts : list Attempt),
    insert_loop (S (length candidates)) candidates b 0 0 w
      = Some (w', Resolved (count_after 0 attempts)) /\
    attempts_of b candidates attempts /\
    calls w' = calls w ++ map attempt_call attempts /\
    console w' = console w ++ console_after (length candidates) 0 attempts /\
    clock w' = clock w.
Proof.
  intros Hb.
  destruct (@insert_loop_from candidates b Hb (ceil_div (length candidates) b)
              (S (length candidates)) 0 0 w) as (w' & attempts & Hloop & Hrec & Hoff & Hrest).
  { now rewrite Nat.sub_0_r. }
  { pose proof (@ceil_div_le (length candidates) b Hb). lia. }
  exists w', attempts. split; [exact Hloop|]. split; [|exact Hrest].
  split.
  - rewrite Hrec. unfold batches. apply map_ext. intros k. reflexivity.
  - rewrite Hoff. apply map_ext. intros k. reflexivity.
Qed.

End LoopRuns.

(* ================================================================== *)
(** ** Claims about batching *)
(* ================================================================== *)

Lemma sum_lengths_concat {A : Type} (ls : list (list A)) :
  list_sum (map (fun l => length l) ls) = length (concat ls).
Proof.
  induction ls as [|l ls IH]; simpl; [reflexivity|].
  rewrite length_app, IH. reflexivity.
Qed.

Lemma last_nth_error {A : Type} (l : list A) (d x : A) :
  nth_error l (length l - 1) = Some x -> last l d = x.
Proof.
  induction l as [|y l IH]; simpl; [discriminate|].
  destruct l as [|z l].
  - simpl. congruence.
  - intros Hn. apply IH.
    simpl in Hn. simpl. now rewrite Nat.sub_0_r.
Qed.

(** C1.  For a batch size [b >= 1] and any dataset of [n] records, the
    batches the loop cuts are [ceil (n / b)] in number, each holds between
    one and [b] records, the last one holds [n mod b] records (or [b] when
    [b] divides [n]), and their concatenation in order is the dataset.
    From any world, and whatever the gateway answers, the loop ends after
    attempting exactly these batches in this order, one statement each, so
    the records attempted add up to [n]. *)
Theorem batches_partition_dataset {G : Type} `{Gateway G}
    (b : nat) (candidates : list MBACandidateRecord) (w : World G) :
  1 <= b ->
  length (batches b candidates) = ceil_div (length candidates) b /\
  (length candidates <= length (batches b candidates) * b < length candidates + b) /\
  Forall (fun batch => 1 <= length batch <= b) (batches b candidates) /\
  (0 < length candidates ->
   length (last (batches b candidates) []) =
     if length candidates mod b =? 0 then b else length candidates mod b) /\
  concat (batches b candidates) = candidates /\
  exists (w' : World G) (attempts : list Attempt),
    insert_loop (S (length candidates)) candidates b 0 0 w
      = Some (w', Resolved (count_after 0 attempts)) /\
    map records attempts = batches b candidates /\
    calls w' = calls w ++ map attempt_call attempts /\
    list_sum (map (fun a => length (records a)) attempts) = length candidates.
Proof.
  intros Hb.
  pose proof (@batches_count b candidates) as Hcount.
  destruct (ceil_div_bounds (length candidates) Hb) as [Hup Hlow].
  split; [exact Hcount|]. split.
  { rewrite Hcount. split; [exact Hup|].
    destruct (length candidates) eqn:En.
    - rewrite ceil_div_zero by lia. lia.
    - destruct (Hlow ltac:(lia)) as [Hlt Hone]. nia. }
  split.
  { apply Forall_forall. intros batch Hin.
    apply In_nth_error in Hin. destruct Hin as [k Hk].
    assert (Hlt : k < ceil_div (length candidates) b).
    { rewrite <- Hcount. apply nth_error_Some. congruence. }
    rewrite (batches_nth Hb candidates Hlt) in Hk. injection Hk as <-.
    rewrite (batch_sizes Hb candidates Hlt).
    pose proof (Nat.mod_upper_bound (length candidates) b ltac:(lia)).
    destruct (S k =? _); [destruct (Nat.eqb_spec (length candidates mod b) 0)|]; lia. }
  split.
  { intros Hn. destruct (Hlow Hn) as [_ Hone].
    assert (Hlt : ceil_div (length candidates) b - 1 < ceil_div (length candidates) b) by lia.
    rewrite (@last_nth_error _ (batches b candidates) [] (batch_at candidates b (ceil_div (length candidates) b - 1))).
    - rewrite (batch_sizes Hb candidates Hlt).
      replace (S (ceil_div (length candidates) b - 1)) with (ceil_div (length candidates) b) by lia.
      now rewrite Nat.eqb_refl.
    - rewrite Hcount. now apply (batches_nth Hb). }
  split; [now apply batches_concat|].
  destruct (insert_loop_run candidates w Hb) as (w' & attempts & Hloop & [Hrec Hoff] & Hcalls & _).
  exists w', attempts. repeat split; try assumption.
  transitivity (length (concat (batches b candidates))).
  - rewrite <- sum_lengths_concat, <- Hrec, map_map. reflexivity.
  - now rewrite batches_concat.
Qed.

(** Five records in batches of two: two full batches and one of one. *)
Example batches_of_five :
  map (fun batch => length batch) (batches 2 five_candidates) = [2; 2; 1].
Proof. reflexivity. Qed.

(** The example of the specification: 2500 records and the configured
    batch size give three statements of 1000, 1000 and 500 records. *)
Example batches_of_2500 :
  map (fun batch => length batch)
      (batches batchSize (repeat (candidate "Asha Rao" "A1" "MBA" None) 2500))
  = [1000; 1000; 500].
Proof. vm_compute. reflexivity. Qed.

Lemma batches_partition_dataset_witness :
  1 <= 2 /\
  length (batches 2 five_candidates) = ceil_div 5 2 /\
  concat (batches 2 five_candidates) = five_candidates /\
  length (last (batches 2 five_candidates) []) = 1.
Proof.
  assert (Hb : 1 <= 2) by lia.
  destruct (@batches_partition_dataset _ _ 2 five_candidates
              (Scripted.world (Scripted.mk [] [None; Some (mkError "boom")] [])) Hb)
    as (Hcount & _ & _ & Hlast & Hcat & _).
  split; [exact Hb|]. split; [exact Hcount|]. split; [exact Hcat|].
  apply Hlast. simpl. lia.
Defined.

(* ================================================================== *)
(** ** A whole run of [importJSONToImmuDB] *)
(* ================================================================== *)

Section ImportRuns.
Context {G : Type} `{Gateway G}.

Lemma log_samples_run (rows : list Row) (index : nat) (w : World G) :
  log_samples rows index w
  = Some (mkWorld (gateway w) (clock w) (calls w) (console w ++ sample_lines rows index),
          Resolved tt).
Proof.
  revert index w. induction rows as [|row rows IH]; intros index w; simpl.
  - unfold ret. rewrite app_nil_r. now destruct w.
  - unfold bind at 1, console_log at 1. rewrite IH. simpl.
    now rewrite <- app_assoc.
Qed.

(** The count block never throws: a rejected query is reported on the
    console and nothing else changes. *)
Lemma countRecords_run (w : World G) :
  exists g' o,
    gw_SQLQuery count_sql [] (gateway w) = (g', o) /\
    countRecords w
    = Some (mkWorld g' (clock w) (calls w ++ [(SQLQuery count_sql [], failure_of o)])
                    (console w ++ count_report o),
            Resolved tt).
Proof.
  unfold countRecords, try_catch, bind, client_SQLQuery, client_call.
  destruct (gw_SQLQuery count_sql [] (gateway w)) as [g' o] eqn:E.
  exists g', o. split; [reflexivity|].
  destruct o as [[[|firstRow rest]|] | e]; simpl; unfold ret, console_log; simpl;
    rewrite ?app_nil_r; reflexivity.
Qed.

(** The sample block never throws either. *)
Lemma sampleRecords_run (w : World G) :
  exists g' o,
    gw_SQLQuery sample_sql [] (gateway w) = (g', o) /\
    sampleRecords w
    = Some (mkWorld g' (clock w) (calls w ++ [(SQLQuery sample_sql [], failure_of o)])
                    (console w ++ sample_report o),
            Resolved tt).
Proof.
  unfold sampleRecords, try_catch, bind, client_SQLQuery, client_call.
  destruct (gw_SQLQuery sample_sql [] (gateway w)) as [g' o] eqn:E.
  exists g', o. split; [reflexivity|].
  destruct o as [[[|row rest]|] | e]; try reflexivity.
  rewrite log_samples_run. reflexivity.
Qed.

Lemma batchSize_pos : 1 <= batchSize.
Proof. unfold batchSize. lia. Qed.

End ImportRuns.

(* ================================================================== *)
(** ** Rules for [post] *)
(* ================================================================== *)

Section PostRules.
Context {G : Type} `{Gateway G}.

Lemma post_ret {A : Type} (a : A) (w : World G) (Q : World G -> Outcome A -> Prop) :
  Q w (Resolved a) -> post (ret a) w Q.
Proof. intros HQ. now exists w, (Resolved a). Qed.

Lemma post_throw {A : Type} (e : Error) (w : World G) (Q : World G -> Outcome A -> Prop) :
  Q w (Rejected e) -> post (throw e) w Q.
Proof. intros HQ. now exists w, (Rejected e). Qed.

Lemma post_bind {A B : Type} (m : Async G A) (k : A -> Async G B) (w : World G)
    (Q : World G -> Outcome B -> Prop) :
  post m w (fun w1 o =>
              match o with
              | Resolved a => post (k a) w1 Q
              | Rejected e => Q w1 (Rejected e)
              end) ->
  post (bind m k) w Q.
Proof.
  intros (w1 & [a | e] & Hm & HQ); unfold post, bind; rewrite Hm.
  - exact HQ.
  - now exists w1, (Rejected e).
Qed.

Lemma post_try_catch {A : Type} (m : Async G A) (h : Error -> Async G A) (w : World G)
    (Q : World G -> Outcome A -> Prop) :
  post m w (fun w1 o =>
              match o with
              | Resolved a => Q w1 (Resolved a)
              | Rejected e => post (h e) w1 Q
              end) ->
  post (try_catch m h) w Q.
Proof.
  intros (w1 & [a | e] & Hm & HQ); unfold post, try_catch; rewrite Hm.
  - now exists w1, (Resolved a).
  - exact HQ.
Qed.

Lemma post_try_finally {A : Type} (m : Async G A) (c : Async G unit) (w : World G)
    (Q : World G -> Outcome A -> Prop) :
  post m w (fun w1 o =>
              post c w1 (fun w2 oc =>
                           match oc with
                           | Resolved _ => Q w2 o
                           | Rejected e => Q w2 (Rejected e)
                           end)) ->
  post (try_finally m c) w Q.
Proof.
  intros (w1 & o & Hm & w2 & [u | e] & Hc & HQ); unfold post, try_finally;
    rewrite Hm, Hc; eauto.
Qed.

Lemma post_console_log (ev : ConsoleEvent) (w : World G) (Q : World G -> Outcome unit -> Prop) :
  Q (mkWorld (gateway w) (clock w) (calls w) (console w ++ [ev])) (Resolved tt) ->
  post (console_log ev) w Q.
Proof. intros HQ. unfold post, console_log. eauto. Qed.

Lemma post_client_call {A : Type} (req : Request) (method : G -> G * Outcome A)
    (w : World G) (Q : World G -> Outcome A -> Prop) :
  (forall g' o, method (gateway w) = (g', o) ->
                Q (mkWorld g' (clock w) (calls w ++ [(req, failure_of o)]) (console w)) o) ->
  post (client_call req method) w Q.
Proof.
  intros HQ. unfold post, client_call.
  destruct (method (gateway w)) as [g' o] eqn:E. eauto.
Qed.

Lemma post_Date_now (w : World G) (Q : World G -> Outcome Z -> Prop) :
  Q w (Resolved (clock w)) -> post Date_now w Q.
Proof. intros HQ. unfold post, Date_now. eauto. Qed.

Lemma post_run {A : Type} (m : Async G A) (w w' : World G) (o : Outcome A)
    (Q : World G -> Outcome A -> Prop) :
  post m w Q -> m w = Some (w', o) -> Q w' o.
Proof. intros (w1 & o1 & Hm & HQ) E. rewrite Hm in E. now injection E as <- <-. Qed.

End PostRules.

(** One step of symbolic execution of a computation under [post]. *)
Ltac post_step :=
  lazymatch goal with
  | |- post (bind _ _) _ _ => apply post_bind
  | |- post (try_catch _ _) _ _ => apply post_try_catch
  | |- post (try_finally _ _) _ _ => apply post_try_finally
  | |- post (console_log _) _ _ => apply post_console_log
  | |- post (ret _) _ _ => apply post_ret
  | |- post (throw _) _ _ => apply post_throw
  | |- post Date_now _ _ => apply post_Date_now
  | |- post (client_call _ _) _ _ =>
      apply post_client_call;
      let g := fresh "g" in let E := fresh "Ecall" in
      intros g [? | ?] E
  end;
  cbv beta iota;
  cbn [gateway clock calls console failure_of].


Section ImportPost.
Context {G : Type} `{Gateway G}.

Lemma post_insert_loop (candidates : list MBACandidateRecord) (b : nat) (w : World G)
    (Q : World G -> Outcome nat -> Prop) :
  1 <= b ->
  (forall w' attempts,
      attempts_of b candidates attempts ->
      calls w' = calls w ++ map attempt_call attempts ->
      console w' = console w ++ console_after (length candidates) 0 attempts ->
      Q w' (Resolved (count_after 0 attempts))) ->
  post (insert_loop (S (length candidates)) candidates b 0 0) w Q.
Proof.
  intros Hb HQ.
  destruct (insert_loop_run candidates w Hb)
    as (w' & attempts & Hloop & Hof & Hcalls & Hcons & _).
  exists w', (Resolved (count_after 0 attempts)). auto.
Qed.

Lemma post_countRecords (w : World G) (Q : World G -> Outcome unit -> Prop) :
  (forall g' o,
      Q (mkWorld g' (clock w) (calls w ++ [(SQLQuery count_sql [], failure_of o)])
                 (console w ++ count_report o)) (Resolved tt)) ->
  post countRecords w Q.
Proof.
  intros HQ. destruct (countRecords_run w) as (g' & o & _ & Hrun).
  unfold post. rewrite Hrun. eauto.
Qed.

Lemma post_sampleRecords (w : World G) (Q : World G -> Outcome unit -> Prop) :
  (forall g' o,
      Q (mkWorld g' (clock w) (calls w ++ [(SQLQuery sample_sql [], failure_of o)])
                 (console w ++ sample_report o)) (Resolved tt)) ->
  post sampleRecords w Q.
Proof.
  intros HQ. destruct (sampleRecords_run w) as (g' & o & _ & Hrun).
  unfold post. rewrite Hrun. eauto.
Qed.

Lemma post_read_json (source : Outcome (list JSONExportData)) (w : World G)
    (Q : World G -> Outcome (list JSONExportData) -> Prop) :
  Q w source -> post (read_json source) w Q.
Proof. intros HQ. unfold post, read_json. eauto. Qed.

End ImportPost.

Ltac import_step :=
  first
    [ post_step
    | lazymatch goal with
      | |- post (read_json ?s) _ _ => apply post_read_json
      | |- post countRecords _ _ => apply post_countRecords; intros ? ?
      | |- post sampleRecords _ _ => apply post_sampleRecords; intros ? ?
      | |- post (insert_loop _ _ _ _ _) _ _ =>
          apply post_insert_loop; [exact batchSize_pos | intros ? ? ? ? ?]
      | |- post ((if ?c then _ else _) _) _ _ => destruct c eqn:?
      | |- post (if ?c then _ else _) _ _ => destruct c eqn:?
      end; cbv beta iota; cbn [gateway clock calls console failure_of] ].

Section ImportWhole.
Context {G : Type} `{Gateway G}.

(** Every run of the importer settles, and [import_outcome] describes it. *)
Lemma importJSONToImmuDB_run (source : Outcome (list JSONExportData)) (w : World G) :
  post (importJSONToImmuDB source) w (import_outcome source w).
Proof.
  unfold importJSONToImmuDB, import_body,
    client_login, client_createDatabase, client_useDatabase, client_SQLExec, client_logout.
  repeat import_step.
  all: try (destruct source as [parsedData | e0]; cbv beta iota).
  all: try (destruct (find is_table_item parsedData)
              as [[ty nm ver cm db [candidates|]]|] eqn:Efind).
  all: repeat import_step.
  all: unfold import_outcome.
  all: try (eexists; split; [repeat rewrite <- app_assoc; reflexivity |];
            cbn [forallb fst is_setup_request andb app];
            rewrite ?String.eqb_refl; reflexivity).
  all: cbn [calls console] in *;
    eapply import_run;
    [ simpl; rewrite Efind; reflexivity
    | eassumption
    | reflexivity
    | cbn [calls];
      match goal with Hc : calls _ = _ ++ map attempt_call _ |- _ => rewrite Hc end;
      unfold setup_calls, closing_calls; repeat rewrite <- app_assoc; reflexivity
    | cbn [console];
      match goal with Hc : console _ = _ ++ console_after _ _ _ |- _ => rewrite Hc end;
      repeat rewrite <- app_assoc; reflexivity ].
Qed.

(** In particular the importer always settles: the fuel given to its loop
    is enough for the configured batch size. *)
Corollary importJSONToImmuDB_settles (source : Outcome (list JSONExportData)) :
  settles (importJSONToImmuDB (G := G) source).
Proof.
  intros w. destruct (importJSONToImmuDB_run source w) as (w' & o & Hrun & _).
  now exists w', o.
Qed.

End ImportWhole.

(* ================================================================== *)
(** ** Counting inserted records *)
(* ================================================================== *)

Lemma skipn_length_app {A : Type} (l x : list A) : skipn (length l) (l ++ x) = x.
Proof.
  rewrite skipn_app, skipn_all, Nat.sub_diag. reflexivity.
Qed.

(** The statement that creates the table is not a bulk insert. *)
Lemma createTable_not_insert (batch : list MBACandidateRecord) :
  createTableSQL <> bulkInsertSQL batch.
Proof.
  unfold createTableSQL, bulkInsertSQL, insert_header, nl.
  cbn [String.append]. intros E. discriminate E.
Qed.

(** What was counted and what was lost add up to what was attempted. *)
Lemma count_after_balance (cnt : nat) (attempts : list Attempt) :
  count_after cnt attempts + list_sum (map lost_records attempts)
  = cnt + list_sum (map (fun a => length (records a)) attempts).
Proof.
  revert cnt. induction attempts as [|a attempts IH]; intros cnt; simpl.
  - lia.
  - unfold lost_records at 1. destruct (failure a) as [e|].
    + specialize (IH cnt). lia.
    + specialize (IH (cnt + length (records a))). lia.
Qed.

Lemma attempts_total (b : nat) (candidates : list MBACandidateRecord) (attempts : list Attempt) :
  1 <= b -> attempts_of b candidates attempts ->
  list_sum (map (fun a => length (records a)) attempts) = length candidates.
Proof.
  intros Hb [Hrec _].
  transitivity (length (concat (batches b candidates))).
  - rewrite <- sum_lengths_concat, <- Hrec, map_map. reflexivity.
  - now rewrite batches_concat.
Qed.

Lemma lost_none (attempts : list Attempt) :
  (forall a, In a attempts -> failure a = None) ->
  list_sum (map lost_records attempts) = 0.
Proof.
  induction attempts as [|a attempts IH]; intros Hall; simpl; [reflexivity|].
  unfold lost_records at 1. rewrite (Hall a (or_introl eq_refl)).
  rewrite IH; [reflexivity|]. intros a' Ha'. apply Hall. now right.
Qed.

(** When only the [j]-th attempt failed, only its records are lost. *)
Lemma lost_only (attempts : list Attempt) (j : nat) (a : Attempt) :
  nth_error attempts j = Some a ->
  (forall j' a', j' <> j -> nth_error attempts j' = Some a' -> failure a' = None) ->
  list_sum (map lost_records attempts) = lost_records a.
Proof.
  revert j. induction attempts as [|x attempts IH]; intros j Hj Hothers.
  - destruct j; discriminate.
  - destruct j as [|j]; simpl in Hj.
    + injection Hj as ->. simpl. rewrite lost_none; [lia|].
      intros a' Hin. apply In_nth_error in Hin. destruct Hin as [k Hk].
      apply (Hothers (S k)); [lia | exact Hk].
    + simpl. unfold lost_records at 1.
      rewrite (Hothers 0 x ltac:(lia) eq_refl).
      rewrite (IH j Hj); [reflexivity|].
      intros j' a' Hne Hn. apply (Hothers (S j')); [lia | exact Hn].
Qed.

Lemma console_after_reports (total cnt : nat) (attempts : list Attempt) (a : Attempt) (e : Error) :
  In a attempts -> failure a = Some e ->
  In (ErrBulkInsertBatch (offset a) (message e)) (console_after total cnt attempts).
Proof.
  revert cnt. induction attempts as [|x attempts IH]; intros cnt Hin Hf; [contradiction|].
  simpl. destruct Hin as [-> | Hin].
  - rewrite Hf. now left.
  - destruct (failure x); right; now apply IH.
Qed.

Lemma attempts_offset (b : nat) (candidates : list MBACandidateRecord)
    (attempts : list Attempt) (j : nat) (a : Attempt) :
  attempts_of b candidates attempts -> nth_error attempts j = Some a ->
  offset a = j * b /\ records a = batch_at candidates b j /\
  j < ceil_div (length candidates) b.
Proof.
  intros [Hrec Hoff] Hj.
  assert (Hlen : j < ceil_div (length candidates) b).
  { assert (Hl : length attempts = ceil_div (length candidates) b).
    { rewrite <- (length_map records), Hrec. apply batches_count. }
    rewrite <- Hl. apply nth_error_Some. congruence. }
  pose proof (map_nth_error offset j attempts Hj) as Ho.
  pose proof (map_nth_error records j attempts Hj) as Hr.
  rewrite Hoff in Ho. rewrite Hrec in Hr. unfold batches in Hr.
  rewrite nth_error_map, nth_error_seq in Ho, Hr.
  destruct (Nat.ltb_spec j (ceil_div (length candidates) b)); [|lia].
  simpl in Ho, Hr. injection Ho as Ho. injection Hr as Hr.
  repeat split; auto.
Qed.

(* ================================================================== *)
(** ** Claims about failing batches and the inserted count *)
(* ================================================================== *)

(** C2.  (1) When the submission of a batch is rejected, the iteration
    still completes normally: the call is recorded with its error, the
    console gets the offset [i] and the error message, and
    [insertedCount] is returned unchanged.  (2) For a batch size [b >= 1]
    the loop ends normally from any world and has attempted every batch of
    the dataset in order, failed or not; each failed attempt [j] is
    reported with its offset [j * b]; and when attempt [j] is the only one
    that failed, the final count is the dataset size minus the size of
    batch [j]. *)
Theorem failed_batch_is_skipped {G : Type} `{Gateway G}
    (b : nat) (candidates : list MBACandidateRecord) (w : World G) :
  1 <= b ->
  (forall (i cnt : nat) (g' : G) (e : Error),
      gw_SQLExec (bulkInsertSQL (slice candidates i (i + b))) [] (gateway w) = (g', Rejected e) ->
      insert_batch candidates b i cnt w
      = Some (mkWorld g' (clock w)
                (calls w ++ [(SQLExec (bulkInsertSQL (slice candidates i (i + b))) [], Some e)])
                (console w ++ [ErrBulkInsertBatch i (message e)]),
              Resolved cnt)) /\
  exists (w' : World G) (attempts : list Attempt),
    insert_loop (S (length candidates)) candidates b 0 0 w
      = Some (w', Resolved (count_after 0 attempts)) /\
    map records attempts = batches b candidates /\
    calls w' = calls w ++ map attempt_call attempts /\
    forall (j : nat) (a : Attempt) (e : Error),
      nth_error attempts j = Some a -> failure a = Some e ->
      In (ErrBulkInsertBatch (j * b) (message e)) (console_since w w') /\
      ((forall j' a', j' <> j -> nth_error attempts j' = Some a' -> failure a' = None) ->
       count_after 0 attempts = length candidates - length (batch_at candidates b j)).
Proof.
  intros Hb. split.
  - intros i cnt g' e Hexec.
    unfold insert_batch, try_catch, bind, client_SQLExec, client_call.
    rewrite Hexec. reflexivity.
  - destruct (insert_loop_run candidates w Hb)
      as (w' & attempts & Hloop & Hof & Hcalls & Hcons & _).
    exists w', attempts. split; [exact Hloop|].
    split; [exact (proj1 Hof)|]. split; [exact Hcalls|].
    intros j a e Hj Hfail.
    destruct (@attempts_offset b candidates attempts j a Hof Hj) as (Hoff & Hrec & _).
    split.
    + unfold console_since. rewrite Hcons, skipn_length_app, <- Hoff.
      apply console_after_reports; [|exact Hfail].
      eapply nth_error_In. exact Hj.
    + intros Hothers.
      pose proof (count_after_balance 0 attempts) as Hbal.
      rewrite (@attempts_total b candidates attempts Hb Hof),
        (@lost_only attempts j a Hj Hothers) in Hbal.
      unfold lost_records in Hbal. rewrite Hfail, Hrec in Hbal. lia.
Qed.

(** Three batches of two, two and one records, the second rejected: the
    loop still submits all three and counts 2 + 1 records. *)
Example second_batch_fails :
  let w := Scripted.world (Scripted.mk [] [None; Some (mkError "key too long"); None] []) in
  exists w',
    insert_loop 6 five_candidates 2 0 0 w = Some (w', Resolved 3) /\
    map snd (calls w') = [None; Some (mkError "key too long"); None] /\
    console w' = [LogBulkInserted 2 5; ErrBulkInsertBatch 2 "key too long"; LogBulkInserted 3 5].
Proof.
  eexists. split; [vm_compute; reflexivity|]. split; reflexivity.
Qed.

Lemma failed_batch_is_skipped_witness :
  1 <= 2 /\
  exists w' attempts,
    insert_loop 6 five_candidates 2 0 0
      (Scripted.world (Scripted.mk [] [None; Some (mkError "key too long"); None] []))
      = Some (w', Resolved (count_after 0 attempts)) /\
    map records attempts = batches 2 five_candidates.
Proof.
  assert (Hb : 1 <= 2) by lia.
  split; [exact Hb|].
  destruct (@failed_batch_is_skipped _ _ 2 five_candidates
              (Scripted.world (Scripted.mk [] [None; Some (mkError "key too long"); None] [])) Hb)
    as (_ & w' & attempts & Hloop & Hrec & _).
  exists w', attempts. split; [exact Hloop | exact Hrec].
Defined.

Section ImportClaims.
Context {G : Type} `{Gateway G}.

Lemma resolved_run (source : Outcome (list JSONExportData)) (w w' : World G) (cnt : nat) :
  importJSONToImmuDB source w = Some (w', Resolved cnt) -> ImportRun source w w' cnt.
Proof.
  intros E. exact (post_run (importJSONToImmuDB_run source w) E).
Qed.

Lemma no_attempts_of_empty (attempts : list Attempt) :
  attempts_of batchSize [] attempts -> attempts = [].
Proof.
  intros [Hrec _]. unfold batches in Hrec. simpl length in Hrec.
  rewrite (@ceil_div_zero batchSize batchSize_pos) in Hrec.
  simpl in Hrec. now apply map_eq_nil in Hrec.
Qed.

(** C4.  In a run that resolves with [insertedCount] for a dataset
    [candidates]: the count is logged; when no bulk-insert submission of
    the run was rejected, it equals the size of the dataset; and when the
    dataset is empty it is zero and the run submitted no bulk-insert
    statement at all. *)
Theorem all_batches_succeed_count (source : Outcome (list JSONExportData))
    (candidates : list MBACandidateRecord) (w w' : World G) (insertedCount : nat) :
  importJSONToImmuDB source w = Some (w', Resolved insertedCount) ->
  dataset_of source = Some candidates ->
  In (LogImported insertedCount) (console_since w w') /\
  ((forall batch e, ~ In (SQLExec (bulkInsertSQL batch) [], Some e) (calls_since w w')) ->
   insertedCount = length candidates) /\
  (candidates = [] ->
   insertedCount = 0 /\
   forall batch o, ~ In (SQLExec (bulkInsertSQL batch) [], o) (calls_since w w')).
Proof.
  intros Erun Hds.
  destruct (resolved_run _ _ Erun)
    as [cands attempts created counted sampled left Hds' Hof Hcnt Hcalls Hcons].
  assert (cands = candidates) by congruence. subst cands.
  unfold calls_since, console_since. rewrite Hcalls, Hcons, !skipn_length_app.
  split; [|split].
  - rewrite !in_app_iff. right. right. left. now left.
  - intros Hok.
    assert (Hall : forall a, In a attempts -> failure a = None).
    { intros a Ha. destruct (failure a) as [e|] eqn:Hf; [|reflexivity].
      exfalso. apply (Hok (records a) e).
      rewrite !in_app_iff. right. left.
      apply in_map_iff. exists a. split; [|exact Ha].
      unfold attempt_call. now rewrite Hf. }
    pose proof (count_after_balance 0 attempts) as Hbal.
    rewrite (lost_none attempts Hall), (@attempts_total batchSize candidates attempts batchSize_pos Hof) in Hbal.
    lia.
  - intros ->. apply no_attempts_of_empty in Hof. subst attempts.
    split; [exact Hcnt|].
    intros batch o Hin.
    unfold setup_calls, closing_calls in Hin. cbn [app map] in Hin.
    destruct Hin as [E | [E | [E | [E | [E | [E | [E | []]]]]]]];
      [discriminate E | discriminate E | discriminate E
      | | discriminate E | discriminate E | discriminate E].
    apply (@createTable_not_insert batch). congruence.
Qed.

(** A rejected count query is caught: the block completes normally and
    reports the error on the console. *)
Lemma countRecords_rejected (w : World G) (g' : G) (e : Error) :
  gw_SQLQuery count_sql [] (gateway w) = (g', Rejected e) ->
  countRecords w
  = Some (mkWorld g' (clock w) (calls w ++ [(SQLQuery count_sql [], Some e)])
                  (console w ++ [LogCountVerificationFailed (message e)]),
          Resolved tt).
Proof.
  intros E. unfold countRecords, try_catch, bind, client_SQLQuery, client_call.
  rewrite E. reflexivity.
Qed.

(** A rejected sample query is caught in the same way. *)
Lemma sampleRecords_rejected (w : World G) (g' : G) (e : Error) :
  gw_SQLQuery sample_sql [] (gateway w) = (g', Rejected e) ->
  sampleRecords w
  = Some (mkWorld g' (clock w) (calls w ++ [(SQLQuery sample_sql [], Some e)])
                  (console w ++ [LogSampleFetchFailed (message e)]),
          Resolved tt).
Proof.
  intros E. unfold sampleRecords, try_catch, bind, client_SQLQuery, client_call.
  rewrite E. reflexivity.
Qed.

Lemma count_sql_not_sample_sql : count_sql <> sample_sql.
Proof. unfold count_sql, sample_sql. cbn [String.append]. intros E. discriminate E. Qed.

Lemma rejected_query_call (sql : string) (counted sampled : Outcome (option (list Row)))
    (created left e : option Error) (attempts : list Attempt) :
  In (SQLQuery sql [], e)
     (setup_calls created ++ map attempt_call attempts ++ closing_calls counted sampled left) ->
  (sql = count_sql /\ e = failure_of counted) \/ (sql = sample_sql /\ e = failure_of sampled).
Proof.
  rewrite !in_app_iff. intros [Hin | [Hin | Hin]].
  - simpl in Hin. destruct Hin as [E | [E | [E | [E | []]]]]; discriminate E.
  - apply in_map_iff in Hin. destruct Hin as (a & E & _). discriminate E.
  - simpl in Hin. destruct Hin as [E | [E | [E | []]]]; try discriminate E;
      injection E as <- <-; auto.
Qed.

(** The loop writes no line of the verification pass. *)
Lemma console_after_no_verification (total cnt : nat) (attempts : list Attempt)
    (ev : ConsoleEvent) :
  (exists msg, ev = LogCountVerificationFailed msg \/ ev = LogSampleFetchFailed msg) ->
  ~ In ev (console_after total cnt attempts).
Proof.
  intros (msg & Hev). revert cnt.
  induction attempts as [|a rest IH]; intros cnt Hin; [contradiction|].
  cbn [console_after] in Hin.
  destruct (failure a); destruct Hin as [E | Hin];
    try (destruct Hev as [-> | ->]; discriminate E);
    exact (IH _ Hin).
Qed.

(** C8.  When a query of the verification pass was rejected during a run,
    the run nevertheless resolved, and its count is the one the loop
    computed, which the verification pass leaves alone: the calls of the
    run are those of the setup, then the bulk inserts of the batches of
    the dataset, each recorded as accepted or rejected, then the two
    queries and the logout, and the count is the number of records of the
    accepted bulk inserts, whatever the queries answered.  That count is
    logged before the verification begins, and the rejection is reported
    on the console. *)
Theorem verification_failure_is_not_fatal (source : Outcome (list JSONExportData))
    (w w' : World G) (o : Outcome nat) (e : Error) :
  importJSONToImmuDB source w = Some (w', o) ->
  In (SQLQuery count_sql [], Some e) (calls_since w w') \/
  In (SQLQuery sample_sql [], Some e) (calls_since w w') ->
  exists candidates attempts created counted sampled left,
    dataset_of source = Some candidates /\
    attempts_of batchSize candidates attempts /\
    calls_since w w'
    = setup_calls created ++ map attempt_call attempts
        ++ closing_calls counted sampled left /\
    o = Resolved (count_after 0 attempts) /\
    (exists before after,
        console_since w w'
        = before ++ [LogImported (count_after 0 attempts); LogVerifying] ++ after /\
        ~ In (LogCountVerificationFailed (message e)) before /\
        ~ In (LogSampleFetchFailed (message e)) before) /\
    (In (SQLQuery count_sql [], Some e) (calls_since w w') ->
     In (LogCountVerificationFailed (message e)) (console_since w w')) /\
    (In (SQLQuery sample_sql [], Some e) (calls_since w w') ->
     In (LogSampleFetchFailed (message e)) (console_since w w')).
Proof.
  intros Erun Hq.
  pose proof (post_run (importJSONToImmuDB_run source w) Erun) as Hshape.
  unfold calls_since, console_since in *.
  destruct o as [cnt | err]; simpl in Hshape.
  - destruct Hshape as [cands attempts created counted sampled left Hds Hof Hcnt Hcalls Hcons].
    exists cands, attempts, created, counted, sampled, left.
    rewrite Hcalls, Hcons, !skipn_length_app in *.
    split; [exact Hds|]. split; [exact Hof|]. split; [reflexivity|].
    split; [now rewrite Hcnt|].
    split; [|split].
    + eexists _, _. split.
      * rewrite Hcnt, app_assoc. reflexivity.
      * split; intros Hin; apply in_app_or in Hin; destruct Hin as [Hin | Hin].
        -- cbn [In] in Hin.
           repeat (destruct Hin as [Hin | Hin]; [destruct created; discriminate Hin|]).
           contradiction.
        -- exact (console_after_no_verification _ _ _ (ex_intro _ _ (or_introl eq_refl)) Hin).
        -- cbn [In] in Hin.
           repeat (destruct Hin as [Hin | Hin]; [destruct created; discriminate Hin|]).
           contradiction.
        -- exact (console_after_no_verification _ _ _ (ex_intro _ _ (or_intror eq_refl)) Hin).
    + intros Hin. apply rejected_query_call in Hin.
      destruct Hin as [[_ Hf] | [E _]]; [|now destruct (count_sql_not_sample_sql E)].
      destruct counted as [r | e']; [discriminate Hf|]. injection Hf as <-.
      rewrite !in_app_iff. right. right. right. left. now left.
    + intros Hin. apply rejected_query_call in Hin.
      destruct Hin as [[E _] | [_ Hf]]; [now destruct (count_sql_not_sample_sql (eq_sym E))|].
      destruct sampled as [r | e']; [discriminate Hf|]. injection Hf as <-.
      rewrite !in_app_iff. do 5 right. left. now left.
  - exfalso. destruct Hshape as (new & Hcalls & Hsetup).
    rewrite Hcalls, skipn_length_app in Hq.
    rewrite forallb_forall in Hsetup.
    destruct Hq as [Hin | Hin]; apply Hsetup in Hin; discriminate Hin.
Qed.

(** A run in which a bulk insert was rejected is not rejected for it. *)
Lemma run_survives_failed_batch (source : Outcome (list JSONExportData))
    (w w' : World G) (o : Outcome nat) (batch : list MBACandidateRecord) (e : Error) :
  importJSONToImmuDB source w = Some (w', o) ->
  In (SQLExec (bulkInsertSQL batch) [], Some e) (calls_since w w') ->
  exists insertedCount, o = Resolved insertedCount.
Proof.
  intros Erun Hin.
  pose proof (post_run (importJSONToImmuDB_run source w) Erun) as Hshape.
  destruct o as [cnt | err]; [now exists cnt|].
  exfalso. destruct Hshape as (new & Hcalls & Hsetup).
  unfold calls_since in Hin. rewrite Hcalls, skipn_length_app in Hin.
  rewrite forallb_forall in Hsetup. apply Hsetup in Hin.
  cbn [fst is_setup_request] in Hin. apply String.eqb_eq in Hin.
  exact (createTable_not_insert (eq_sym Hin)).
Qed.

End ImportClaims.

(** A run over five records with a store that accepts everything. *)
Example import_five :
  exists w',
    importJSONToImmuDB (Resolved (export_of five_candidates))
      (Scripted.world (Scripted.mk [] [] [])) = Some (w', Resolved 5) /\
    map fst (calls w')
    = [ Login "immudb" "immudb"; CreateDatabase "mba_data"; UseDatabase "mba_data";
        SQLExec createTableSQL []; SQLExec (bulkInsertSQL five_candidates) [];
        SQLQuery count_sql []; SQLQuery sample_sql []; Logout ] /\
    console w'
    = [ LogConnecting; LogConnected; LogCreatedDatabase "mba_data"; LogReadingFile;
        LogFoundCandidates 5; LogCreatingSchema; LogSchemaReady; LogBulkInserted 5 5;
        LogImported 5; LogVerifying; LogSampleHeader; LogNoSampleRecords; LogDisconnected ].
Proof.
  eexists. split; [vm_compute; reflexivity|]. split; vm_compute; reflexivity.
Qed.

(** A run whose login is refused: the outer [catch] logs and rethrows, the
    [finally] still logs out. *)
Example import_login_refused :
  exists w',
    importJSONToImmuDB (Resolved (export_of five_candidates))
      (Scripted.world (Scripted.mk [Some (mkError "invalid credentials")] [] []))
    = Some (w', Rejected (mkError "invalid credentials")) /\
    calls w' = [ (Login "immudb" "immudb", Some (mkError "invalid credentials")); (Logout, None) ] /\
    console w' = [ LogConnecting; ErrImporting "invalid credentials"; LogDisconnected ].
Proof.
  eexists. split; [vm_compute; reflexivity|]. split; reflexivity.
Qed.

Lemma all_batches_succeed_count_witness :
  exists w',
    importJSONToImmuDB (Resolved (export_of five_candidates))
      (Scripted.world (Scripted.mk [] [] [])) = Some (w', Resolved 5) /\
    dataset_of (Resolved (export_of five_candidates)) = Some five_candidates /\
    In (LogImported 5)
       (console_since (Scripted.world (Scripted.mk [] [] [])) w').
Proof.
  assert (E : exists w',
             importJSONToImmuDB (Resolved (export_of five_candidates))
               (Scripted.world (Scripted.mk [] [] [])) = Some (w', Resolved 5))
    by (eexists; vm_compute; reflexivity).
  destruct E as [w' E].
  assert (D : dataset_of (Resolved (export_of five_candidates)) = Some five_candidates)
    by reflexivity.
  exists w'. split; [exact E|]. split; [exact D|].
  exact (proj1 (@all_batches_succeed_count _ _ _ _ _ _ _ E D)).
Defined.

(** A run whose count query is rejected. *)
Example import_count_rejected :
  exists w',
    importJSONToImmuDB (Resolved (export_of five_candidates))
      (Scripted.world (Scripted.mk [] [] [Rejected (mkError "table does not exist")]))
    = Some (w', Resolved 5) /\
    console w'
    = [ LogConnecting; LogConnected; LogCreatedDatabase "mba_data"; LogReadingFile;
        LogFoundCandidates 5; LogCreatingSchema; LogSchemaReady; LogBulkInserted 5 5;
        LogImported 5; LogVerifying; LogCountVerificationFailed "table does not exist";
        LogSampleHeader; LogNoSampleRecords; LogDisconnected ].
Proof.
  eexists. split; [vm_compute; reflexivity|]. vm_compute. reflexivity.
Qed.

Lemma verification_failure_is_not_fatal_witness :
  exists w' candidates attempts,
    importJSONToImmuDB (Resolved (export_of five_candidates))
      (Scripted.world (Scripted.mk [] [] [Rejected (mkError "table does not exist")]))
    = Some (w', Resolved (count_after 0 attempts)) /\
    In (SQLQuery count_sql [], Some (mkError "table does not exist"))
       (calls_since (Scripted.world (Scripted.mk [] [] [Rejected (mkError "table does not exist")])) w') /\
    dataset_of (Resolved (export_of five_candidates)) = Some candidates /\
    In (LogCountVerificationFailed "table does not exist")
       (console_since (Scripted.world (Scripted.mk [] [] [Rejected (mkError "table does not exist")])) w').
Proof.
  assert (E : exists w',
             importJSONToImmuDB (Resolved (export_of five_candidates))
               (Scripted.world (Scripted.mk [] [] [Rejected (mkError "table does not exist")]))
             = Some (w', Resolved 5) /\
             In (SQLQuery count_sql [], Some (mkError "table does not exist"))
                (calls_since (Scripted.world (Scripted.mk [] [] [Rejected (mkError "table does not exist")])) w')).
  { eexists. split; [vm_compute; reflexivity|].
    unfold calls_since. cbn [calls Scripted.world length skipn].
    do 5 right. left. reflexivity. }
  destruct E as (w' & E & Hin).
  destruct (@verification_failure_is_not_fatal _ _ _ _ _ _ _ E (or_introl Hin))
    as (candidates & attempts & created & counted & sampled & left
        & Hds & _ & _ & Ho & _ & Hcount & _).
  exists w', candidates, attempts.
  split; [now rewrite <- Ho|]. split; [exact Hin|]. split; [exact Hds|].
  exact (Hcount Hin).
Defined.

(* ================================================================== *)
(** ** Escaping and the text of the statement *)
(* ================================================================== *)

Section Escaping.
Import Sql.

Lemma append_empty_r (s : string) : (s ++ "")%string = s.
Proof. induction s as [|c s IH]; simpl; [reflexivity | now rewrite IH]. Qed.

Lemma append_assoc (s t u : string) : ((s ++ t) ++ u)%string = (s ++ (t ++ u))%string.
Proof. induction s as [|c s IH]; simpl; [reflexivity | now rewrite IH]. Qed.

Lemma snoc_append (s t : string) (c : ascii) :
  (snoc s c ++ t)%string = (s ++ String c t)%string.
Proof. unfold snoc. now rewrite append_assoc. Qed.

Lemma run_app (st : mode * list token) (s t : string) :
  run st (s ++ t) = match run st s with
                    | Some st' => run st' t
                    | None => None
                    end.
Proof.
  revert st. induction s as [|c s IH]; intros st; simpl; [reflexivity|].
  destruct (step st c) as [st'|]; [apply IH | reflexivity].
Qed.

(** Inside a literal, the escaped text of [s] reads as [s]: the lexer
    never takes one of its quotes for the end of the literal. *)
Lemma run_replace_quotes (s buf : string) (toks : list token) :
  run (InLiteral buf, toks) (replace_quotes s) = Some (InLiteral (buf ++ s), toks).
Proof.
  revert buf. induction s as [|c s IH]; intros buf; simpl.
  - now rewrite append_empty_r.
  - destruct (Ascii.eqb c quote) eqn:Ec.
    + apply Ascii.eqb_eq in Ec. subst c. simpl.
      rewrite IH, snoc_append. reflexivity.
    + simpl. rewrite Ec, IH, snoc_append. reflexivity.
Qed.

Lemma run_escape (f : option string) (toks : list token) :
  run (InLiteral "", toks) (escape f) = Some (InLiteral (field_value f), toks).
Proof.
  destruct f as [[|c s]|]; try reflexivity.
  unfold escape. now rewrite run_replace_quotes.
Qed.

Lemma run_open_quote (toks : list token) :
  run (Idle, toks) (String quote EmptyString) = Some (InLiteral "", toks).
Proof. reflexivity. Qed.

Lemma run_close_quote (v : string) (toks : list token) :
  run (InLiteral v, toks) (String quote EmptyString) = Some (AfterQuote v, toks).
Proof. reflexivity. Qed.

Lemma run_indent (toks : list token) :
  run (Idle, toks) "          " = Some (Idle, toks).
Proof. reflexivity. Qed.

Lemma run_separator (v : string) (toks : list token) :
  run (AfterQuote v, toks) ("," ++ nl) = Some (Idle, (toks ++ [Literal v]) ++ [Comma]).
Proof. reflexivity. Qed.

(** A quoted, escaped field reads as one literal that is the field's
    value; the literal is complete once the next character is seen. *)
Lemma run_quoted (f : option string) (toks : list token) :
  run (Idle, toks) (String quote (escape f ++ String quote EmptyString))
  = Some (AfterQuote (field_value f), toks).
Proof.
  change (String quote (escape f ++ String quote "")%string)
    with (String quote EmptyString ++ (escape f ++ String quote EmptyString))%string.
  rewrite run_app, run_open_quote, run_app, run_escape.
  apply run_close_quote.
Qed.

Lemma run_literal_line (f : option string) (toks : list token) :
  run (Idle, toks) (literal_line f) = Some (AfterQuote (field_value f), toks).
Proof.
  unfold literal_line. rewrite run_app, run_indent.
  apply run_quoted.
Qed.

Lemma last_cons {A : Type} (l : list A) (u d : A) : last (u :: l) d = last l u.
Proof.
  revert u d. induction l as [|x l IH]; intros u d; [reflexivity|].
  change (last (u :: x :: l) d) with (last (x :: l) d).
  now rewrite (IH x d), (IH x u).
Qed.

Lemma open_tokens_close (v : string) (vs : list string) :
  open_tokens (v :: vs) ++ [Literal (last vs v); RParen] = values_tokens (v :: vs).
Proof.
  revert v. induction vs as [|u vs IH]; intros v; [reflexivity|].
  change (open_tokens (v :: u :: vs)) with (Literal v :: Comma :: open_tokens (u :: vs)).
  change (values_tokens (v :: u :: vs)) with (Literal v :: Comma :: values_tokens (u :: vs)).
  rewrite last_cons, <- IH. reflexivity.
Qed.

Lemma run_fields (fs : list (option string)) (f : option string) (toks : list token) :
  run (Idle, toks) (String.concat ("," ++ nl) (map literal_line (f :: fs)))
  = Some (AfterQuote (last (map field_value fs) (field_value f)),
          toks ++ open_tokens (map field_value (f :: fs))).
Proof.
  revert f toks. induction fs as [|g fs IH]; intros f toks.
  - simpl String.concat. rewrite run_literal_line. simpl. now rewrite app_nil_r.
  - change (String.concat ("," ++ nl) (map literal_line (f :: g :: fs)))
      with (literal_line f ++ ("," ++ nl) ++ String.concat ("," ++ nl) (map literal_line (g :: fs)))%string.
    rewrite run_app, run_literal_line, run_app, run_separator, IH.
    change (map field_value (f :: g :: fs))
      with (field_value f :: map field_value (g :: fs)).
    change (map field_value (g :: fs)) with (field_value g :: map field_value fs).
    rewrite last_cons, <- !app_assoc. reflexivity.
Qed.

Lemma run_tuple_close (v : string) (toks : list token) :
  run (AfterQuote v, toks) (nl ++ "        )") = Some (Idle, (toks ++ [Literal v]) ++ [RParen]).
Proof. reflexivity. Qed.

Lemma run_tuple_open (toks : list token) :
  run (Idle, toks) ("(" ++ nl) = Some (Idle, toks ++ [LParen]).
Proof. reflexivity. Qed.

(** The text of one tuple reads as the tokens of the record's values. *)
Lemma run_values_tuple (candidate : MBACandidateRecord) (toks : list token) :
  run (Idle, toks) (values_tuple candidate)
  = Some (Idle, toks ++ tuple_tokens (record_values candidate)).
Proof.
  unfold values_tuple.
  change ("(" ++ nl ++ String.concat ("," ++ nl) (map literal_line (candidate_fields candidate))
          ++ nl ++ "        )")%string
    with (("(" ++ nl) ++ String.concat ("," ++ nl) (map literal_line (candidate_fields candidate))
          ++ (nl ++ "        )"))%string.
  rewrite run_app, run_tuple_open, run_app.
  unfold record_values, tuple_tokens.
  destruct (candidate_fields candidate) as [|f fs] eqn:Efields; [discriminate Efields|].
  rewrite run_fields, run_tuple_close.
  change (map field_value (f :: fs)) with (field_value f :: map field_value fs).
  rewrite <- open_tokens_close, <- !app_assoc. reflexivity.
Qed.

Lemma run_comma (toks : list token) :
  run (Idle, toks) "," = Some (Idle, toks ++ [Comma]).
Proof. reflexivity. Qed.

(** The tuples of a batch, joined by commas. *)
Lemma run_values_clause (candidate : MBACandidateRecord) (batch : list MBACandidateRecord)
    (toks : list token) :
  run (Idle, toks) (values_clause (candidate :: batch))
  = Some (Idle, toks ++ rows_tokens (map record_values (candidate :: batch))).
Proof.
  revert candidate toks. induction batch as [|next batch IH]; intros candidate toks.
  - unfold values_clause. simpl String.concat. simpl map. simpl rows_tokens.
    apply run_values_tuple.
  - unfold values_clause in *.
    change (String.concat "," (map values_tuple (candidate :: next :: batch)))
      with (values_tuple candidate ++ "," ++ String.concat "," (map values_tuple (next :: batch)))%string.
    rewrite run_app, run_values_tuple, run_app, run_comma, IH.
    change (rows_tokens (map record_values (candidate :: next :: batch)))
      with (tuple_tokens (record_values candidate)
            ++ Comma :: rows_tokens (map record_values (next :: batch))).
    rewrite <- !app_assoc. reflexivity.
Qed.

Lemma run_insert_header : run (Idle, []) insert_header = Some (Idle, header_tokens).
Proof. vm_compute. reflexivity. Qed.

Lemma run_trailer (toks : list token) :
  run (Idle, toks) (nl ++ "      ") = Some (Idle, toks).
Proof. reflexivity. Qed.

(** The tokens of the whole statement. *)
Lemma lex_bulkInsertSQL (candidate : MBACandidateRecord) (batch : list MBACandidateRecord) :
  lex (bulkInsertSQL (candidate :: batch))
  = Some (header_tokens ++ rows_tokens (map record_values (candidate :: batch))).
Proof.
  unfold lex, bulkInsertSQL.
  rewrite run_app, run_insert_header, run_app, run_values_clause, run_trailer.
  reflexivity.
Qed.

(** The parser on the tokens of the header followed by anything. *)
Lemma parse_insert_header (toks : list token) :
  parse_insert (header_tokens ++ toks)
  = match parse_rows toks with
    | Some rs =>
        if forallb (fun r => length r =? length column_names) rs
        then Some (mkInsert mba_candidates column_names rs)
        else None
    | None => None
    end.
Proof. reflexivity. Qed.

Lemma rows_run_app (st : rows_state) (xs ys : list token) :
  rows_run st (xs ++ ys) = match rows_run st xs with
                           | Some st' => rows_run st' ys
                           | None => None
                           end.
Proof.
  revert st. induction xs as [|t xs IH]; intros st; simpl; [reflexivity|].
  destruct (rows_step st t); [apply IH | reflexivity].
Qed.

Lemma rows_run_values (vs : list string) (v : string) (done : list (list string))
    (current : list string) :
  rows_run (ExpectValue done current) (values_tokens (v :: vs))
  = Some (AfterTuple (done ++ [current ++ v :: vs])).
Proof.
  revert v current. induction vs as [|u vs IH]; intros v current.
  - reflexivity.
  - change (values_tokens (v :: u :: vs)) with (Literal v :: Comma :: values_tokens (u :: vs)).
    cbn [rows_run rows_step]. rewrite IH, <- app_assoc. reflexivity.
Qed.

Lemma rows_run_tuple (vs : list string) (done : list (list string)) :
  vs <> [] ->
  rows_run (ExpectTuple done) (tuple_tokens vs) = Some (AfterTuple (done ++ [vs])).
Proof.
  destruct vs as [|v vs]; [congruence|]. intros _.
  unfold tuple_tokens. cbn [rows_run rows_step]. now rewrite rows_run_values.
Qed.

Lemma rows_run_rows (rs : list (list string)) (r : list string) (done : list (list string)) :
  Forall (fun vs => vs <> []) (r :: rs) ->
  rows_run (ExpectTuple done) (rows_tokens (r :: rs)) = Some (AfterTuple (done ++ r :: rs)).
Proof.
  revert r done. induction rs as [|r' rs IH]; intros r done Hne.
  - simpl rows_tokens. apply rows_run_tuple. now inversion Hne.
  - change (rows_tokens (r :: r' :: rs))
      with (tuple_tokens r ++ Comma :: rows_tokens (r' :: rs)).
    inversion Hne as [|? ? Hr Hrest]; subst.
    rewrite rows_run_app, rows_run_tuple by assumption.
    cbn [rows_run rows_step]. rewrite IH by assumption.
    rewrite <- app_assoc. reflexivity.
Qed.

Lemma record_values_length (candidate : MBACandidateRecord) :
  length (record_values candidate) = length column_names.
Proof. reflexivity. Qed.

(** The statement built for a non-empty batch parses, and what it parses
    to is the table, the 56 columns and the values of the records. *)
Lemma parse_bulkInsertSQL (batch : list MBACandidateRecord) :
  batch <> [] ->
  parse (bulkInsertSQL batch)
  = Some (mkInsert mba_candidates column_names (map record_values batch)).
Proof.
  destruct batch as [|candidate batch]; [congruence|]. intros _.
  unfold parse. rewrite lex_bulkInsertSQL, parse_insert_header.
  unfold parse_rows.
  change (map record_values (candidate :: batch))
    with (record_values candidate :: map record_values batch).
  rewrite rows_run_rows.
  - change ([] ++ record_values candidate :: map record_values batch)
      with (map record_values (candidate :: batch)).
    replace (forallb (fun r => length r =? length column_names)
               (map record_values (candidate :: batch))) with true; [reflexivity|].
    symmetry. apply forallb_forall. intros r Hr.
    apply in_map_iff in Hr. destruct Hr as (c & <- & _).
    rewrite record_values_length. apply Nat.eqb_refl.
  - change (record_values candidate :: map record_values batch)
      with (map record_values (candidate :: batch)).
    apply Forall_forall. intros r Hr.
    apply in_map_iff in Hr. destruct Hr as (c & <- & _).
    intros E. apply (f_equal (fun l => length l)) in E.
    rewrite record_values_length in E. discriminate E.
Qed.

Lemma count_quotes_replace (s : string) :
  count_quotes (replace_quotes s) = 2 * count_quotes s.
Proof.
  induction s as [|c s IH]; [reflexivity|].
  simpl. destruct (Ascii.eqb c quote) eqn:Ec; simpl; rewrite ?Ec, IH; simpl; lia.
Qed.

Lemma length_replace (s : string) :
  String.length (replace_quotes s) = String.length s + count_quotes s.
Proof.
  induction s as [|c s IH]; [reflexivity|].
  simpl. destruct (Ascii.eqb c quote); simpl; rewrite IH; lia.
Qed.

Lemma escape_replace (f : option string) : escape f = replace_quotes (field_value f).
Proof. destruct f as [[|c s]|]; reflexivity. Qed.

End Escaping.

(** What [escape] does to sample values. *)
Example escape_samples :
  escape (Some "Liam O'Brien") = "Liam O''Brien" /\
  escape (Some "''") = "''''" /\
  escape (Some "") = "" /\
  escape None = "".
Proof. repeat split. Qed.

(** The grammar does tell escaped text from raw text: a literal with a
    raw quote in it does not lex, its escaped form does. *)
Example raw_quote_is_rejected :
  Sql.lex "('O'Brien')" = None /\
  Sql.lex "('O''Brien')" = Some [Sql.LParen; Sql.Literal "O'Brien"; Sql.RParen].
Proof. split; reflexivity. Qed.

(** C3.  For a non-empty batch (the loop builds no other), and for every
    field value [f] (a string, or [None] for [null]): a [null] is embedded
    as the empty string; the embedded text has twice the quote characters
    of the value and is longer by their number; between quotes it reads
    back, by the literal rule of the grammar, as exactly the value; and
    the whole statement parses as an [INSERT] into the table with the 56
    columns and, row by row, the values of the records. *)
Theorem escaped_statement_is_well_formed (batch : list MBACandidateRecord) :
  batch <> [] ->
  (forall f : option string,
      (f = None -> escape f = "") /\
      count_quotes (escape f) = 2 * count_quotes (field_value f) /\
      String.length (escape f) = String.length (field_value f) + count_quotes (field_value f) /\
      forall toks,
        Sql.run (Sql.Idle, toks) (String quote (escape f ++ String quote EmptyString))
        = Some (Sql.AfterQuote (field_value f), toks)) /\
  Sql.parse (bulkInsertSQL batch)
  = Some (Sql.mkInsert mba_candidates column_names (map record_values batch)).
Proof.
  intros Hne. split.
  - intros f. split; [|split; [|split]].
    + intros ->. reflexivity.
    + rewrite escape_replace. apply count_quotes_replace.
    + rewrite escape_replace. apply length_replace.
    + intros toks. apply run_quoted.
  - now apply parse_bulkInsertSQL.
Qed.

Lemma escaped_statement_is_well_formed_witness :
  five_candidates <> [] /\
  Sql.parse (bulkInsertSQL five_candidates)
  = Some (Sql.mkInsert mba_candidates column_names (map record_values five_candidates)).
Proof.
  assert (Hne : five_candidates <> []) by discriminate.
  split; [exact Hne|].
  exact (proj2 (escaped_statement_is_well_formed Hne)).
Defined.

(* ================================================================== *)
(** ** The in-memory store keeps the [users] table *)
(* ================================================================== *)

Lemma lookup_app_new (id : string) (u : StoredUser) (tb : MemStore.t) :
  MemStore.lookup id tb = None ->
  MemStore.lookup id (tb ++ [(id, u)]) = Some u.
Proof.
  induction tb as [|[k v] tb IH]; simpl.
  - intros _. now rewrite String.eqb_refl.
  - destruct (String.eqb k id); [discriminate | exact IH].
Qed.

Lemma lookup_overwrite (id n e : string) (tb : MemStore.t) :
  MemStore.lookup id (MemStore.overwrite id n e tb)
  = match MemStore.lookup id tb with
    | Some (_, _, t) => Some (n, e, t)
    | None => None
    end.
Proof.
  induction tb as [|[k [[n0 e0] t0]] tb IH]; simpl; [reflexivity|].
  destruct (String.eqb k id) eqn:Ek; simpl; rewrite Ek; [reflexivity | exact IH].
Qed.

Lemma update_is_not_insert :
  String.eqb Service.update_user_sql Service.insert_user_sql = false.
Proof. vm_compute. reflexivity. Qed.

#[global] Instance MemStore_users : UsersStore MemStore.t.
Proof.
  refine {| stored := fun tb id => MemStore.lookup id tb |}.
  - intros tb id. exists tb. split; [|reflexivity].
    unfold gw_SQLQuery, MemStore.gateway, MemStore.query.
    rewrite String.eqb_refl. reflexivity.
  - intros tb tb' id n e t r.
    unfold gw_SQLExec, MemStore.gateway, MemStore.exec.
    rewrite String.eqb_refl. cbn [MemStore.param String.eqb Ascii.eqb Bool.eqb].
    destruct (MemStore.lookup id tb) eqn:El; intros E; [discriminate E|].
    injection E as <- _. now apply lookup_app_new.
  - intros tb tb' id n e r.
    unfold gw_SQLExec, MemStore.gateway, MemStore.exec.
    rewrite update_is_not_insert, String.eqb_refl.
    cbn [MemStore.param String.eqb Ascii.eqb Bool.eqb].
    intros E. injection E as <- _. apply lookup_overwrite.
Defined.

(* ================================================================== *)
(** ** The CRUD service *)
(* ================================================================== *)

Section ServiceRuns.
Import Service.
Context {G : Type} `{Gateway G}.

(** [getUser] makes one call, and settles as its query did. *)
Lemma getUser_run (id : string) (w : World G) :
  exists g' queried,
    gw_SQLQuery select_user_sql [("id", SqlStr id)] (gateway w) = (g', queried) /\
    getUser id w
    = Some (mkWorld g' (clock w)
              (calls w ++ [(SQLQuery select_user_sql [("id", SqlStr id)], failure_of queried)])
              (console w ++ getUser_console queried),
            getUser_result queried).
Proof.
  unfold getUser, try_catch, bind, client_SQLQuery, client_call.
  destruct (gw_SQLQuery select_user_sql [("id", SqlStr id)] (gateway w)) as [g' queried] eqn:E.
  exists g', queried. split; [reflexivity|].
  destruct queried as [[[|row rest]|] | e]; simpl; rewrite ?app_nil_r; reflexivity.
Qed.

Lemma post_getUser (id : string) (w : World G) (Q : World G -> Outcome VerifiedResponse -> Prop) :
  (forall g' queried,
      gw_SQLQuery select_user_sql [("id", SqlStr id)] (gateway w) = (g', queried) ->
      Q (mkWorld g' (clock w)
           (calls w ++ [(SQLQuery select_user_sql [("id", SqlStr id)], failure_of queried)])
           (console w ++ getUser_console queried))
        (getUser_result queried)) ->
  post (getUser id) w Q.
Proof.
  intros HQ. destruct (getUser_run id w) as (g' & queried & E & Hrun).
  unfold post. rewrite Hrun. eexists _, _. split; [reflexivity | now apply HQ].
Qed.

(** C7.  When the select by id settles with no row (an empty result, or
    none at all), [getUser] makes that one call and is rejected with the
    error that says the user was not found. *)
Theorem getUser_not_found (id : string) (w : World G) (g' : G) (rows : option (list Row)) :
  gw_SQLQuery select_user_sql [("id", SqlStr id)] (gateway w) = (g', Resolved rows) ->
  rows = None \/ rows = Some [] ->
  getUser id w
  = Some (mkWorld g' (clock w)
            (calls w ++ [(SQLQuery select_user_sql [("id", SqlStr id)], None)])
            (console w),
          Rejected (mkError "Failed to get user: Error: User not found")).
Proof.
  intros Hq Hrows.
  destruct (getUser_run id w) as (g1 & queried & E & Hrun).
  rewrite Hq in E. injection E as <- <-.
  rewrite Hrun. destruct Hrows as [-> | ->]; simpl; rewrite app_nil_r; reflexivity.
Qed.

(** C10.  [getUserAtTransaction] makes the same single call, leaves the
    same world and returns the same data whatever [txId] it is given; the
    two responses differ in the note of their [proof] field only. *)
Theorem history_ignores_txId (id : string) (t1 t2 : option string) (w : World G) :
  exists w' o1 o2,
    getUserAtTransaction id t1 w = Some (w', o1) /\
    getUserAtTransaction id t2 w = Some (w', o2) /\
    (exists failed, calls_since w w' = [(SQLQuery history_sql [("id", SqlStr id)], failed)]) /\
    match o1, o2 with
    | Resolved r1, Resolved r2 =>
        data r1 = data r2 /\ verified r1 = verified r2 /\ txId r1 = txId r2 /\
        proof r1 = Some (NoteProof ("Historical data before transaction " ++ show_txId t1)) /\
        proof r2 = Some (NoteProof ("Historical data before transaction " ++ show_txId t2))
    | Rejected e1, Rejected e2 => e1 = e2
    | _, _ => False
    end.
Proof.
  unfold getUserAtTransaction, try_catch, bind, client_SQLQuery, client_call, ret, throw, calls_since.
  destruct (gw_SQLQuery history_sql [("id", SqlStr id)] (gateway w)) as [g' [rows | e]].
  - eexists _, _, _. split; [reflexivity|]. split; [reflexivity|].
    cbn [calls]. rewrite skipn_length_app. split; [now exists None|].
    repeat split.
  - eexists _, _, _. split; [reflexivity|]. split; [reflexivity|].
    cbn [calls]. rewrite skipn_length_app. split; [now exists (Some e)|].
    reflexivity.
Qed.

End ServiceRuns.

Section ServiceUpdates.
Import Service.
Context {G : Type} `{Gateway G}.

(** C9.  When the first read of [updateUser] finds the user, the next call
    is the update statement, which assigns both columns, with the three
    parameters [id], [name] and [email]; a name (or email) that is absent,
    [null] or empty is passed as the empty string, and one that is present
    is passed as it is.  Nothing of the stored row is read to fill in an
    omitted field. *)
Theorem updateUser_sets_both_columns (id : string) (updates : Partial.t)
    (w w1 : World G) (found : VerifiedResponse) :
  getUser id w = Some (w1, Resolved found) ->
  let params :=
    [ ("id", SqlStr id);
      ("name", SqlStr (or_empty (Partial.name updates)));
      ("email", SqlStr (or_empty (Partial.email updates))) ] in
  (exists w' o g2 executed later,
      updateUser id updates w = Some (w', o) /\
      gw_SQLExec update_user_sql params (gateway w1) = (g2, executed) /\
      calls w' = calls w1 ++ (SQLExec update_user_sql params, failure_of executed) :: later /\
      (forall sql ps failed, ~ In (SQLExec sql ps, failed) later)) /\
  includes update_user_sql "SET name = @name, email = @email" = true /\
  or_empty None = "" /\ or_empty (Some "") = "" /\ (forall s, or_empty (Some s) = s).
Proof.
  intros Hget params.
  split; [|split; [vm_compute; reflexivity | split; [reflexivity | split; [reflexivity|]]]].
  - unfold updateUser, try_catch. unfold bind at 1. rewrite Hget.
    unfold bind at 1, client_SQLExec, client_call.
    fold params.
    destruct (gw_SQLExec update_user_sql params (gateway w1)) as [g2 [r | e]] eqn:Eexec.
    + cbv beta iota. unfold bind at 1.
      destruct (getUser_run id
                  (mkWorld g2 (clock w1)
                     (calls w1 ++ [(SQLExec update_user_sql params, failure_of (Resolved r))])
                     (console w1)))
        as (g3 & queried & Eq & Hrun).
      rewrite Hrun. cbn [gateway clock calls console failure_of] in *.
      exists (mkWorld g3 (clock w1)
                ((calls w1 ++ [(SQLExec update_user_sql params, None)])
                 ++ [(SQLQuery select_user_sql [("id", SqlStr id)], failure_of queried)])
                (console w1 ++ getUser_console queried)).
      destruct (getUser_result queried) as [updatedUser | e] eqn:Er;
        eexists; exists g2, (Resolved r),
          [(SQLQuery select_user_sql [("id", SqlStr id)], failure_of queried)];
        (split; [reflexivity|]); (split; [reflexivity|]);
        (split; [cbn [calls failure_of]; now rewrite <- app_assoc|]);
        intros sql ps failed [E | []]; discriminate E.
    + cbv beta iota. unfold throw.
      eexists; eexists; exists g2, (Rejected e), [].
      split; [reflexivity|]. split; [reflexivity|].
      split; [reflexivity|]. intros sql ps failed [].
  - intros [|c s]; reflexivity.
Qed.

End ServiceUpdates.

Section ServiceOnStore.
Import Service.
Context {G : Type} `{UsersStore G}.

(** On a store that keeps the table, [getUser] is decided by what is
    stored under the id, and leaves the table as it was. *)
Lemma getUser_stored (id : string) (w : World G) :
  exists g',
    (forall k, stored g' k = stored (gateway w) k) /\
    getUser id w
    = Some (mkWorld g' (clock w)
              (calls w ++ [(SQLQuery select_user_sql [("id", SqlStr id)], None)])
              (console w ++ getUser_console (Resolved (Some (rows_for id (stored (gateway w) id))))),
            getUser_result (Resolved (Some (rows_for id (stored (gateway w) id))))).
Proof.
  destruct (select_law (gateway w) id) as (g' & Hq & Hsame).
  destruct (getUser_run id w) as (g1 & queried & E & Hrun).
  rewrite Hq in E. injection E as <- <-.
  exists g'. split; [exact Hsame | exact Hrun].
Qed.

(** C5.  On a store that keeps the table: when [createUser] resolves, its
    response carries the input with the creation time [Date.now()], and a
    [getUser] of the same id right after it resolves with the row
    [id, name, email, created_at] of the input, [created_at] being that
    time (an integer, never [NULL]). *)
Theorem create_then_read (user : User) (w w1 : World G) (created : VerifiedResponse) :
  createUser user w = Some (w1, Resolved created) ->
  data created = UserData user (clock w) /\
  exists w2 read,
    getUser (id user) w1 = Some (w2, Resolved read) /\
    data read = RowData [SqlStr (id user); SqlStr (name user); SqlStr (email user);
                         SqlInt (clock w)].
Proof.
  unfold createUser, try_catch, bind, Date_now, client_SQLExec, client_call, ret, throw.
  destruct (gw_SQLExec insert_user_sql
              [("id", SqlStr (id user)); ("name", SqlStr (name user));
               ("email", SqlStr (email user)); ("createdAt", SqlInt (clock w))] (gateway w))
    as [g1 [r | e]] eqn:Eexec; intros E; [|discriminate E].
  injection E as <- <-. split; [reflexivity|].
  apply insert_law in Eexec.
  match goal with
  | |- context [getUser (id user) ?w1] =>
      destruct (getUser_stored (id user) w1) as (g2 & _ & Hrun)
  end.
  cbn [gateway] in Hrun. rewrite Eexec in Hrun.
  rewrite Hrun. eexists _, _. split; reflexivity.
Qed.

(** C6.  On a store that keeps the table, [updateUser] always settles, and
    - when nothing is stored under the id, it has made the select and no
      other call, and is rejected with the error that says the user was
      not found;
    - when a row is stored, it has made the select and then the update
      statement; if that was rejected, so is it, with that error; if it
      went through, it has made the select once more and resolves with the
      row read back: the same id, the name and email of the request, the
      creation time as stored; and a [getUser] of the id right after it
      resolves with that same row. *)
Theorem update_confirms_then_rereads (id : string) (updates : Partial.t) (w : World G) :
  exists w1 o1,
    updateUser id updates w = Some (w1, o1) /\
    match stored (gateway w) id with
    | None =>
        o1 = Rejected (mkError
               "Failed to update user: Error: Failed to get user: Error: User not found") /\
        calls_since w w1 = [(SQLQuery select_user_sql [("id", SqlStr id)], None)]
    | Some (_, _, t0) =>
        exists executed,
          calls_since w w1
          = (SQLQuery select_user_sql [("id", SqlStr id)], None)
            :: (SQLExec update_user_sql (update_params id updates), executed)
            :: match executed with
               | None => [(SQLQuery select_user_sql [("id", SqlStr id)], None)]
               | Some _ => []
               end /\
          match executed with
          | Some e => o1 = Rejected (mkError ("Failed to update user: " ++ error_toString e))
          | None =>
              exists updated w2 read,
                o1 = Resolved updated /\
                data updated
                = RowData [SqlStr id; SqlStr (or_empty (Partial.name updates));
                           SqlStr (or_empty (Partial.email updates)); SqlInt t0] /\
                getUser id w1 = Some (w2, Resolved read) /\
                data read = data updated
          end
    end.
Proof.
  destruct (getUser_stored id w) as (g1 & Hsame1 & Hget1).
  unfold updateUser, try_catch. unfold bind at 1. rewrite Hget1.
  unfold calls_since.
  destruct (stored (gateway w) id) as [[[n0 e0] t0]|] eqn:Est.
  - cbn [rows_for getUser_result getUser_console user_row].
    unfold bind at 1, client_SQLExec, client_call. cbn [gateway clock calls console].
    fold (update_params id updates).
    destruct (gw_SQLExec update_user_sql (update_params id updates) g1)
      as [g2 [r | e]] eqn:Eexec.
    + cbv beta iota.
      pose proof (update_law _ _ _ _ Eexec) as Hst2.
      rewrite Hsame1, Est in Hst2.
      match goal with
      | |- context [bind (getUser id) _ ?w2] =>
          destruct (getUser_stored id w2) as (g3 & Hsame3 & Hget2)
      end.
      cbn [gateway clock calls console failure_of] in *.
      rewrite Hst2 in Hget2.
      unfold bind at 1. rewrite Hget2.
      cbn [rows_for getUser_result getUser_console user_row ret].
      eexists _, _. split; [reflexivity|].
      exists None. cbn [calls]. rewrite <- !app_assoc, skipn_length_app.
      split; [reflexivity|].
      match goal with
      | |- context [getUser id ?w3] =>
          destruct (getUser_stored id w3) as (g4 & _ & Hget3)
      end.
      cbn [gateway clock calls console] in Hget3.
      rewrite Hsame3, Hst2 in Hget3.
      eexists _, _, _. split; [reflexivity|]. split; [reflexivity|].
      split; [exact Hget3 | reflexivity].
    + cbv beta iota. unfold throw.
      eexists _, _. split; [reflexivity|].
      exists (Some e). cbn [calls failure_of]. rewrite <- !app_assoc, skipn_length_app.
      split; reflexivity.
  - cbn [rows_for getUser_result getUser_console]. unfold throw.
    eexists _, _. split; [reflexivity|].
    cbn [calls]. rewrite skipn_length_app. split; reflexivity.
Qed.

(** An id under which nothing is stored, never created in particular, is
    not found. *)
Lemma getUser_nothing_stored (id : string) (w : World G) :
  stored (gateway w) id = None ->
  exists w',
    getUser id w = Some (w', Rejected (mkError "Failed to get user: Error: User not found")).
Proof.
  intros Hst. destruct (getUser_stored id w) as (g' & _ & Hrun).
  rewrite Hst in Hrun. eexists. exact Hrun.
Qed.

End ServiceOnStore.

(* ================================================================== *)
(** ** The service on the in-memory store *)
(* ================================================================== *)

Section ServiceExamples.
Import Service.

(** Test 7 of the test script: a read of an id that was never created. *)
Example read_nonexistent :
  getUser "nonexistent" (MemStore.world one_user 1700000000500)
  = Some (mkWorld one_user 1700000000500%Z
            [(SQLQuery select_user_sql [("id", SqlStr "nonexistent")], None)] [],
          Rejected (mkError "Failed to get user: Error: User not found")).
Proof. vm_compute. reflexivity. Qed.

Lemma getUser_not_found_witness :
  gw_SQLQuery select_user_sql [("id", SqlStr "nonexistent")]
    (gateway (MemStore.world one_user 1700000000500)) = (one_user, Resolved (Some [])) /\
  getUser "nonexistent" (MemStore.world one_user 1700000000500)
  = Some (mkWorld one_user 1700000000500%Z
            ([] ++ [(SQLQuery select_user_sql [("id", SqlStr "nonexistent")], None)]) [],
          Rejected (mkError "Failed to get user: Error: User not found")).
Proof.
  assert (Hq : gw_SQLQuery select_user_sql [("id", SqlStr "nonexistent")]
                 (gateway (MemStore.world one_user 1700000000500))
               = (one_user, Resolved (Some []))) by (vm_compute; reflexivity).
  split; [exact Hq|].
  exact (@getUser_not_found _ _ "nonexistent" (MemStore.world one_user 1700000000500)
           one_user (Some []) Hq (or_intror eq_refl)).
Defined.

(** Creating a user and reading it back. *)
Example create_bob_then_read :
  exists w1 created w2 read,
    createUser bob (MemStore.world one_user 1700000000500) = Some (w1, Resolved created) /\
    data created = UserData bob 1700000000500 /\
    txId created = Some "2" /\
    getUser "user002" w1 = Some (w2, Resolved read) /\
    data read = RowData [SqlStr "user002"; SqlStr "Bob Smith"; SqlStr "bob@example.com";
                         SqlInt 1700000000500].
Proof.
  eexists _, _, _, _. split; [vm_compute; reflexivity|].
  split; [reflexivity|]. split; [reflexivity|].
  split; [vm_compute; reflexivity | reflexivity].
Qed.

(** Creating a user whose id is taken is rejected by the store, and the
    read then shows the row that was there. *)
Example create_duplicate :
  exists w1,
    createUser (mkUser "user001" "Mallory" "m@example.com")
      (MemStore.world one_user 1700000000500)
    = Some (w1, Rejected (mkError "Failed to create user: Error: key already exists")) /\
    gateway w1 = one_user.
Proof. eexists. split; [vm_compute; reflexivity | reflexivity]. Qed.

Lemma create_then_read_witness :
  exists w1 created w2 read,
    createUser bob (MemStore.world one_user 1700000000500) = Some (w1, Resolved created) /\
    getUser (id bob) w1 = Some (w2, Resolved read) /\
    data read = RowData [SqlStr (id bob); SqlStr (name bob); SqlStr (email bob);
                         SqlInt (clock (MemStore.world one_user 1700000000500))].
Proof.
  assert (E : exists w1 created,
             createUser bob (MemStore.world one_user 1700000000500)
             = Some (w1, Resolved created)) by (eexists _, _; vm_compute; reflexivity).
  destruct E as (w1 & created & E).
  destruct (create_then_read _ _ E) as (_ & w2 & read & Hget & Hdata).
  exists w1, created, w2, read. split; [exact E|]. split; [exact Hget | exact Hdata].
Defined.

(** Test 5 of the test script, with the email left out of the request:
    the name is changed, and the stored email is overwritten with the
    empty string. *)
Example rename_alice_loses_email :
  exists w1 updated,
    updateUser "user001" rename_alice (MemStore.world one_user 1700000000500)
    = Some (w1, Resolved updated) /\
    data updated = RowData [SqlStr "user001"; SqlStr "Alice Johnson-Smith"; SqlStr "";
                            SqlInt 1700000000000] /\
    gateway w1 = [("user001", ("Alice Johnson-Smith", "", 1700000000000%Z))] /\
    map fst (calls w1)
    = [ SQLQuery select_user_sql [("id", SqlStr "user001")];
        SQLExec update_user_sql
          [("id", SqlStr "user001"); ("name", SqlStr "Alice Johnson-Smith"); ("email", SqlStr "")];
        SQLQuery select_user_sql [("id", SqlStr "user001")] ].
Proof.
  eexists _, _. split; [vm_compute; reflexivity|].
  split; [reflexivity|]. split; reflexivity.
Qed.

Lemma updateUser_sets_both_columns_witness :
  exists w1 found w' o,
    getUser "user001" (MemStore.world one_user 1700000000500) = Some (w1, Resolved found) /\
    updateUser "user001" rename_alice (MemStore.world one_user 1700000000500) = Some (w', o) /\
    In (SQLExec update_user_sql
          [("id", SqlStr "user001");
           ("name", SqlStr (or_empty (Partial.name rename_alice)));
           ("email", SqlStr (or_empty (Partial.email rename_alice)))], None)
       (calls w').
Proof.
  assert (E : exists w1 found,
             getUser "user001" (MemStore.world one_user 1700000000500)
             = Some (w1, Resolved found)) by (eexists _, _; vm_compute; reflexivity).
  destruct E as (w1 & found & E).
  destruct (@updateUser_sets_both_columns _ _ "user001" rename_alice _ _ _ E)
    as ((w' & o & g2 & executed & later & Hrun & Hexec & Hcalls & _) & _).
  exists w1, found, w', o. split; [exact E|]. split; [exact Hrun|].
  rewrite Hcalls. apply in_or_app. right. left.
  f_equal.
  assert (Hw1 : gateway w1 = one_user).
  { vm_compute in E. injection E as <- _. reflexivity. }
  rewrite Hw1 in Hexec. vm_compute in Hexec. injection Hexec as _ <-. reflexivity.
Defined.

Lemma update_confirms_then_rereads_witness :
  exists w1 updated w2 read,
    updateUser "user001" rename_alice (MemStore.world one_user 1700000000500)
    = Some (w1, Resolved updated) /\
    data updated = RowData [SqlStr "user001"; SqlStr "Alice Johnson-Smith"; SqlStr "";
                            SqlInt 1700000000000] /\
    getUser "user001" w1 = Some (w2, Resolved read) /\
    data read = data updated.
Proof.
  destruct (update_confirms_then_rereads "user001" rename_alice
              (MemStore.world one_user 1700000000500))
    as (w1 & o1 & Hrun & Hshape).
  change (stored (gateway (MemStore.world one_user 1700000000500)) "user001")
    with (Some ("Alice Johnson", "alice@example.com", 1700000000000%Z)) in Hshape.
  destruct Hshape as (executed & Hcalls & Hout).
  destruct executed as [e|].
  - exfalso. revert Hrun. rewrite Hout. vm_compute. discriminate.
  - destruct Hout as (updated & w2 & read & -> & Hdata & Hget & Hsame).
    exists w1, updated, w2, read. repeat split; assumption.
Defined.

(** An update of an id that is not stored. *)
Example update_nonexistent :
  updateUser "nonexistent" rename_alice (MemStore.world one_user 1700000000500)
  = Some (mkWorld one_user 1700000000500%Z
            [(SQLQuery select_user_sql [("id", SqlStr "nonexistent")], None)] [],
          Rejected (mkError
            "Failed to update user: Error: Failed to get user: Error: User not found")).
Proof. vm_compute. reflexivity. Qed.

(** The history query with and without a transaction id. *)
Example history_of_alice :
  exists w' r1 r2,
    getUserAtTransaction "user001" (Some "7") (MemStore.world one_user 1700000000500)
    = Some (w', Resolved r1) /\
    getUserAtTransaction "user001" None (MemStore.world one_user 1700000000500)
    = Some (w', Resolved r2) /\
    data r1 = data r2 /\
    proof r1 = Some (NoteProof "Historical data before transaction 7") /\
    proof r2 = Some (NoteProof "Historical data before transaction undefined").
Proof.
  eexists _, _, _. split; [vm_compute; reflexivity|].
  split; [vm_compute; reflexivity|]. repeat split.
Qed.

End ServiceExamples.

(* ================================================================== *)
(** ** Every run of the importer, resolved or rejected *)
(* ================================================================== *)

Ltac trace_side :=
  first [ exact I
        | eassumption
        | reflexivity
        | eexists; reflexivity
        | simpl; match goal with E : find _ _ = _ |- _ => rewrite E end; reflexivity
        | simpl; eassumption ].

Ltac failure_with ctor :=
  (eapply import_failure;
   [ eapply ctor
   | cbn [calls]; unfold login_ok, use_ok; repeat rewrite <- app_assoc; reflexivity
   | cbn [console]; repeat rewrite <- app_assoc; reflexivity ]);
  trace_side.

Ltac failure_leaf :=
  first [ solve [failure_with login_failed]
        | solve [failure_with database_failed]
        | solve [failure_with use_failed]
        | solve [failure_with file_failed]
        | solve [failure_with table_missing]
        | solve [failure_with schema_failed] ].

Section ImportTraces.
Context {G : Type} `{Gateway G}.

Lemma importJSONToImmuDB_trace (source : Outcome (list JSONExportData)) (w : World G) :
  post (importJSONToImmuDB source) w (import_trace source w).
Proof.
  unfold importJSONToImmuDB, import_body,
    client_login, client_createDatabase, client_useDatabase, client_SQLExec, client_logout.
  repeat import_step.
  all: try (destruct source as [parsedData | e0]; cbv beta iota).
  all: try (destruct (find is_table_item parsedData)
              as [[ty nm ver cm db [candidates|]]|] eqn:Efind).
  all: repeat import_step.
  all: unfold import_trace.
  all: try failure_leaf.
  all: cbn [calls console] in *.
  all: do 6 eexists;
    (split; [|split; [|split; [|split; [|split;
       [ cbn [calls];
         match goal with Hc : calls _ = _ ++ map attempt_call _ |- _ => rewrite Hc end;
         unfold setup_calls, closing_calls; repeat rewrite <- app_assoc; reflexivity
       | cbn [console];
         match goal with Hc : console _ = _ ++ console_after _ _ _ |- _ => rewrite Hc end;
         repeat rewrite <- app_assoc; reflexivity ]]]]]);
    trace_side.
Qed.

Lemma import_traced (source : Outcome (list JSONExportData)) (w w' : World G) (o : Outcome nat) :
  importJSONToImmuDB source w = Some (w', o) -> import_trace source w w' o.
Proof. intros E. exact (post_run (importJSONToImmuDB_trace source w) E). Qed.

End ImportTraces.

(* ================================================================== *)
(** ** The importer: sessions, rejections and what a run sends *)
(* ================================================================== *)

Section ImportExtras.
Context {G : Type} `{Gateway G}.

Lemma forallb_attempt_calls (P : Request -> bool) (attempts : list Attempt) :
  (forall sql, P (SQLExec sql []) = true) ->
  forallb (fun c => P (fst c)) (map attempt_call attempts) = true.
Proof.
  intros HP. apply forallb_forall. intros c Hc.
  apply in_map_iff in Hc. destruct Hc as (a & <- & _). apply HP.
Qed.

Lemma failure_opens_with_login (source : Outcome (list JSONExportData))
    (made : list CallRecord) (written : list ConsoleEvent) (e : Error) :
  FailureCause source made written e ->
  exists opened between,
    made = (Login "immudb" "immudb", opened) :: between /\
    forallb (fun c => negb (is_session_request (fst c))) between = true.
Proof.
  intros cause. destruct cause; eexists _, _; split; reflexivity.
Qed.

(** X1.  Whatever happens in a run, the calls it makes start with the
    login and end with the logout, and it logs in and out nowhere in
    between: the [finally] closes the session on every path. *)
Theorem import_session_bracket (source : Outcome (list JSONExportData))
    (w w' : World G) (o : Outcome nat) :
  importJSONToImmuDB source w = Some (w', o) ->
  exists opened between closed,
    calls_since w w' = (Login "immudb" "immudb", opened) :: between ++ [(Logout, closed)] /\
    forallb (fun c => negb (is_session_request (fst c))) between = true.
Proof.
  intros Erun. apply import_traced in Erun. unfold calls_since.
  destruct o as [cnt | e]; simpl in Erun.
  - destruct Erun as (candidates & attempts & created & counted & sampled & left
                      & _ & _ & _ & _ & Hcalls & _).
    rewrite Hcalls, skipn_length_app.
    exists None,
      ([(CreateDatabase dbName, created); (UseDatabase dbName, None);
        (SQLExec createTableSQL [], None)]
       ++ map attempt_call attempts
       ++ [(SQLQuery count_sql [], failure_of counted);
           (SQLQuery sample_sql [], failure_of sampled)]),
      left.
    split.
    + unfold setup_calls, closing_calls. cbn [app]. repeat rewrite <- app_assoc. reflexivity.
    + rewrite !forallb_app. rewrite forallb_attempt_calls with (P := fun r => negb (is_session_request r));
        reflexivity.
  - destruct Erun as [made written left cause Hcalls _].
    rewrite Hcalls, skipn_length_app.
    destruct (failure_opens_with_login cause) as (opened & between & -> & Hbetween).
    exists opened, between, left. split; [reflexivity | exact Hbetween].
Qed.

Lemma failure_has_cause (source : Outcome (list JSONExportData))
    (made : list CallRecord) (written : list ConsoleEvent) (e : Error) :
  FailureCause source made written e ->
  (exists req, In (req, Some e) made /\ is_setup_request req = true /\ req <> Logout) \/
  source = Rejected e \/
  (e = mkError "No table data found in JSON file" /\ dataset_of source = None).
Proof.
  intros cause. destruct cause.
  - left. eexists. split; [left; reflexivity | split; [reflexivity | discriminate]].
  - left. eexists. split; [right; left; reflexivity | split; [reflexivity | discriminate]].
  - left. eexists. split; [right; right; left; reflexivity | split; [reflexivity | discriminate]].
  - right. left. assumption.
  - right. right. split; [reflexivity | assumption].
  - left. exists (SQLExec createTableSQL []).
    split; [right; right; right; left; reflexivity|].
    split; [apply String.eqb_refl | discriminate].
Qed.

(** On records as [MBACandidateRecord] declares them, a run is rejected
    with the error of the login, of [createDatabase], of [useDatabase] or
    of the statement that creates the table, as the call record shows it;
    or the error of reading the file; or 'No table data found in JSON
    file'.  Its message is on the console. *)
Lemma typed_import_rethrows_the_cause (source : Outcome (list JSONExportData))
    (w w' : World G) (e : Error) :
  importJSONToImmuDB source w = Some (w', Rejected e) ->
  In (ErrImporting (message e)) (console_since w w') /\
  ((exists req, In (req, Some e) (calls_since w w') /\
                is_setup_request req = true /\ req <> Logout) \/
   source = Rejected e \/
   (e = mkError "No table data found in JSON file" /\ dataset_of source = None)).
Proof.
  intros Erun. apply import_traced in Erun. simpl in Erun.
  destruct Erun as [made written left cause Hcalls Hconsole].
  unfold calls_since, console_since. rewrite Hcalls, Hconsole, !skipn_length_app.
  split.
  - apply in_or_app. right. left. reflexivity.
  - destruct (failure_has_cause cause) as [(req & Hin & Hreq) | Hother].
    + left. exists req. split; [apply in_or_app; now left | exact Hreq].
    + right. exact Hother.
Qed.

End ImportExtras.

Section ImportDatabase.
Context {G : Type} `{Gateway G}.

Lemma not_in_attempt_calls (r : Request) (f : option Error) (attempts : list Attempt) :
  (forall sql, r <> SQLExec sql []) -> ~ In (r, f) (map attempt_call attempts).
Proof.
  intros Hr Hin. apply in_map_iff in Hin. destruct Hin as (a & E & _).
  unfold attempt_call in E. injection E as E _. exact (Hr _ (eq_sym E)).
Qed.

(** X3.  When [createDatabase] is rejected, the message decides: if it
    says the database already exists, the run goes on to [useDatabase] and
    notes that it uses the existing database; otherwise the run is
    rejected with that error and [useDatabase] is never called. *)
Theorem createDatabase_rejection_decides (source : Outcome (list JSONExportData))
    (w w' : World G) (o : Outcome nat) (e : Error) :
  importJSONToImmuDB source w = Some (w', o) ->
  In (CreateDatabase dbName, Some e) (calls_since w w') ->
  if includes (message e) "already exists"
  then In (LogUsingExistingDatabase dbName) (console_since w w') /\
       exists used, In (UseDatabase dbName, used) (calls_since w w')
  else o = Rejected e /\
       forall used, ~ In (UseDatabase dbName, used) (calls_since w w').
Proof.
  intros Erun. apply import_traced in Erun. unfold calls_since, console_since.
  destruct o as [cnt | e']; unfold import_trace in Erun.
  - destruct Erun as (candidates & attempts & created & counted & sampled & left
                      & Hready & _ & _ & _ & Hcalls & Hconsole).
    rewrite Hcalls, Hconsole, !skipn_length_app. intros Hin.
    assert (Hc : created = Some e).
    { apply in_app_or in Hin. destruct Hin as [Hin | Hin].
      - unfold setup_calls in Hin. cbn [In] in Hin.
        destruct Hin as [E | [E | [E | [E | []]]]]; try discriminate E.
        now injection E.
      - apply in_app_or in Hin. destruct Hin as [Hin | Hin].
        + exfalso. revert Hin. apply not_in_attempt_calls. discriminate.
        + unfold closing_calls in Hin. cbn [In] in Hin.
          destruct Hin as [E | [E | [E | []]]]; discriminate E. }
    subst created. simpl in Hready. rewrite Hready. split.
    + apply in_or_app. left. cbn [database_report In]. auto.
    + exists None. apply in_or_app. left. unfold setup_calls. cbn [In]. auto.
  - destruct Erun as [made written left cause Hcalls Hconsole].
    rewrite Hcalls, Hconsole, !skipn_length_app. intros Hin.
    destruct cause as [e0 | e0 Hno | created e0 Hready | created e0 Hready Hsrc
                       | created Hready Hsrc Hds | created candidates e0 Hready Hds];
      unfold login_ok, use_ok in *; cbn [app In] in Hin.
    + destruct Hin as [E | [E | []]]; discriminate E.
    + destruct Hin as [E | [E | [E | []]]]; try discriminate E.
      injection E as <-. rewrite Hno. split; [reflexivity|].
      intros used Hu. cbn [app In] in Hu.
      destruct Hu as [E | [E | [E | []]]]; discriminate E.
    + destruct Hin as [E | [E | [E | [E | []]]]]; try discriminate E.
      injection E as ->. simpl in Hready. rewrite Hready. split.
      * apply in_or_app. left. cbn [database_report In]. auto.
      * exists (Some e0). cbn [app In]. auto.
    + destruct Hin as [E | [E | [E | [E | []]]]]; try discriminate E.
      injection E as ->. simpl in Hready. rewrite Hready. split.
      * apply in_or_app. left. cbn [database_report In]. auto.
      * exists None. cbn [app In]. auto.
    + destruct Hin as [E | [E | [E | [E | []]]]]; try discriminate E.
      injection E as ->. simpl in Hready. rewrite Hready. split.
      * apply in_or_app. left. cbn [database_report In]. auto.
      * exists None. cbn [app In]. auto.
    + destruct Hin as [E | [E | [E | [E | [E | []]]]]]; try discriminate E.
      injection E as ->. simpl in Hready. rewrite Hready. split.
      * apply in_or_app. left. cbn [database_report In]. auto.
      * exists None. cbn [app In]. auto.
Qed.

(** X4.  When the file cannot be read or holds no table with data, the
    run is rejected and has sent no statement to the store: the table is
    not even created. *)
Theorem no_dataset_no_statement (source : Outcome (list JSONExportData))
    (w w' : World G) (o : Outcome nat) :
  importJSONToImmuDB source w = Some (w', o) ->
  dataset_of source = None ->
  (exists e, o = Rejected e) /\
  forallb (fun c => negb (is_statement (fst c))) (calls_since w w') = true.
Proof.
  intros Erun Hnone. apply import_traced in Erun. unfold calls_since.
  destruct o as [cnt | e]; unfold import_trace in Erun.
  - destruct Erun as (candidates & attempts & created & counted & sampled & left
                      & _ & Hds & _).
    congruence.
  - split; [now exists e|].
    destruct Erun as [made written left cause Hcalls _].
    rewrite Hcalls, skipn_length_app.
    destruct cause; try reflexivity. congruence.
Qed.

End ImportDatabase.

Section ImportCounts.
Context {G : Type} `{Gateway G}.

Lemma batches_have_records (b : nat) (candidates batch : list MBACandidateRecord) :
  1 <= b -> In batch (batches b candidates) -> 1 <= length batch.
Proof.
  intros Hb Hin. apply In_nth_error in Hin. destruct Hin as [k Hk].
  assert (Hlt : k < ceil_div (length candidates) b).
  { rewrite <- (batches_count b candidates). apply nth_error_Some. congruence. }
  rewrite (batches_nth Hb candidates Hlt) in Hk. injection Hk as <-.
  rewrite (batch_sizes Hb candidates Hlt).
  destruct (S k =? _); [destruct (Nat.eqb_spec (length candidates mod b) 0)|]; lia.
Qed.

Lemma attempt_has_records (b : nat) (candidates : list MBACandidateRecord)
    (attempts : list Attempt) (a : Attempt) :
  1 <= b -> attempts_of b candidates attempts -> In a attempts -> 1 <= length (records a).
Proof.
  intros Hb [Hrec _] Ha. apply (@batches_have_records b candidates); [exact Hb|].
  rewrite <- Hrec. now apply in_map.
Qed.

Lemma lost_at_least (attempts : list Attempt) (a : Attempt) :
  In a attempts -> lost_records a <= list_sum (map lost_records attempts).
Proof.
  induction attempts as [|x attempts IH]; intros Hin; [contradiction|].
  simpl. destruct Hin as [-> | Hin]; [lia|]. specialize (IH Hin). lia.
Qed.

(** X5.  In a run that resolves, the count never exceeds the size of the
    dataset, and it equals that size exactly when no bulk insert of the
    run was rejected: a count below the size of the dataset is a sure
    sign, and the only one the run returns, that records are missing. *)
Theorem count_tells_failures (source : Outcome (list JSONExportData))
    (candidates : list MBACandidateRecord) (w w' : World G) (insertedCount : nat) :
  importJSONToImmuDB source w = Some (w', Resolved insertedCount) ->
  dataset_of source = Some candidates ->
  insertedCount <= length candidates /\
  (insertedCount = length candidates <->
   forall batch e, ~ In (SQLExec (bulkInsertSQL batch) [], Some e) (calls_since w w')).
Proof.
  intros Erun Hds. apply import_traced in Erun. unfold import_trace in Erun.
  destruct Erun as (cands & attempts & created & counted & sampled & left
                    & _ & Hds' & Hof & Hcnt & Hcalls & _).
  assert (cands = candidates) by congruence. subst cands.
  pose proof (count_after_balance 0 attempts) as Hbal.
  rewrite (@attempts_total batchSize candidates attempts batchSize_pos Hof) in Hbal.
  unfold calls_since. rewrite Hcalls, skipn_length_app.
  split; [lia|]. split.
  - intros Hfull batch e Hin.
    apply in_app_or in Hin. destruct Hin as [Hin | Hin].
    { unfold setup_calls in Hin. cbn [In] in Hin.
      destruct Hin as [E | [E | [E | [E | []]]]];
        first [ apply (f_equal (fun c => is_statement (fst c))) in E;
                cbn [is_statement fst] in E; discriminate E
              | apply (f_equal snd) in E; cbn [snd] in E; discriminate E ]. }
    apply in_app_or in Hin. destruct Hin as [Hin | Hin].
    + apply in_map_iff in Hin. destruct Hin as (a & E & Ha).
      unfold attempt_call in E. apply (f_equal snd) in E. cbn [snd] in E.
      pose proof (lost_at_least attempts a Ha) as Hlost.
      pose proof (@attempt_has_records batchSize candidates attempts a batchSize_pos Hof Ha).
      unfold lost_records in Hlost at 1. rewrite E in Hlost. lia.
    + unfold closing_calls in Hin. cbn [In] in Hin.
      destruct Hin as [E | [E | [E | []]]]; discriminate E.
  - intros Hok.
    rewrite lost_none in Hbal; [lia|].
    intros a Ha. destruct (failure a) as [e|] eqn:Hf; [|reflexivity].
    exfalso. apply (Hok (records a) e).
    apply in_or_app. right. apply in_or_app. left.
    apply in_map_iff. exists a. split; [|exact Ha].
    unfold attempt_call. now rewrite Hf.
Qed.

Lemma createTable_is_no_insert : Sql.parse createTableSQL = None.
Proof. vm_compute. reflexivity. Qed.

Lemma flat_map_map_concat {A B C : Type} (f : B -> C) (g : A -> list B) (l : list A) :
  flat_map (fun a => map f (g a)) l = map f (concat (map g l)).
Proof.
  induction l as [|a l IH]; simpl; [reflexivity|].
  now rewrite map_app, IH.
Qed.

Lemma inserted_rows_app (xs ys : list CallRecord) :
  inserted_rows (xs ++ ys) = inserted_rows xs ++ inserted_rows ys.
Proof. unfold inserted_rows. apply flat_map_app. Qed.

Lemma inserted_rows_attempts (b : nat) (candidates : list MBACandidateRecord)
    (attempts : list Attempt) :
  1 <= b -> attempts_of b candidates attempts ->
  inserted_rows (map attempt_call attempts) = map record_values candidates.
Proof.
  intros Hb Hof.
  transitivity (flat_map (fun a => map record_values (records a)) attempts).
  - unfold inserted_rows. rewrite flat_map_concat_map, map_map, <- flat_map_concat_map.
    assert (Hall : forall a, In a attempts ->
              match fst (attempt_call a) with
              | SQLExec sql _ =>
                  match Sql.parse sql with
                  | Some stmt => Sql.rows stmt
                  | None => []
                  end
              | _ => []
              end = map record_values (records a)).
    { intros a Ha. cbn [attempt_call fst].
      rewrite parse_bulkInsertSQL; [reflexivity|].
      pose proof (@attempt_has_records b candidates attempts a Hb Hof Ha) as Hlen.
      intros E. rewrite E in Hlen. simpl in Hlen. lia. }
    clear Hof. induction attempts as [|a attempts IH]; [reflexivity|].
    cbn [flat_map]. rewrite (Hall a (or_introl eq_refl)).
    f_equal. apply IH. intros a' Ha'. apply Hall. now right.
  - rewrite flat_map_map_concat. destruct Hof as [Hrec _].
    rewrite Hrec, batches_concat by exact Hb. reflexivity.
Qed.

(** X6.  In a run that resolves, the rows of the [INSERT] statements it
    sent, read back by the grammar in the order sent, are the values of
    the records of the dataset in their order, each record once and none
    split or merged: the store was offered all of the data, whatever it
    did with it. *)
Theorem statements_carry_dataset (source : Outcome (list JSONExportData))
    (candidates : list MBACandidateRecord) (w w' : World G) (insertedCount : nat) :
  importJSONToImmuDB source w = Some (w', Resolved insertedCount) ->
  dataset_of source = Some candidates ->
  inserted_rows (calls_since w w') = map record_values candidates.
Proof.
  intros Erun Hds. apply import_traced in Erun. unfold import_trace in Erun.
  destruct Erun as (cands & attempts & created & counted & sampled & left
                    & _ & Hds' & Hof & _ & Hcalls & _).
  assert (cands = candidates) by congruence. subst cands.
  unfold calls_since. rewrite Hcalls, skipn_length_app, !inserted_rows_app.
  rewrite (inserted_rows_attempts batchSize_pos Hof).
  unfold inserted_rows at 1 2, setup_calls, closing_calls.
  cbn [flat_map fst]. rewrite createTable_is_no_insert. cbn [app].
  now rewrite app_nil_r.
Qed.

End ImportCounts.

(** X7.  Two field values are embedded as the same text exactly when they
    carry the same value: distinct strings never collide after escaping,
    while [null] and the empty string, and only they, are embedded alike. *)
Theorem escape_injective_on_values (f g : option string) :
  escape f = escape g <-> field_value f = field_value g.
Proof.
  split.
  - intros E.
    pose proof (run_escape f []) as Hf. pose proof (run_escape g []) as Hg.
    rewrite E in Hf. rewrite Hf in Hg. now injection Hg.
  - intros E. now rewrite !escape_replace, E.
Qed.

(* ================================================================== *)
(** ** [readFirst10Records] *)
(* ================================================================== *)

Ltac reader_case :=
  match goal with
  | |- context [let '(_, _) := ?c in _] => destruct c as [? [?|?]]
  end;
  cbv beta iota zeta delta [gateway clock calls console Reader.world Reader.printed].

Ltac read_leaf ctor :=
  eexists _, _, _, _; split; [reflexivity|];
  split; [eapply ctor|];
  split; [unfold login_ok, use_ok; repeat rewrite <- app_assoc; reflexivity|];
  split; [repeat rewrite <- app_assoc; reflexivity | reflexivity].

Section ReaderRuns.
Context {G : Type} `{Gateway G}.

Lemma print_records_run (rows : list Row) (index : nat) (d : Reader.Desk G) :
  Reader.print_records rows index d
  = Some (Reader.mkDesk (Reader.world d) (Reader.printed d ++ records_lines rows index),
          Resolved tt).
Proof.
  revert index d. induction rows as [|row rows IH]; intros index d.
  - simpl. unfold Reader.ret. rewrite app_nil_r. now destruct d.
  - cbn [Reader.print_records records_lines]. unfold Reader.bind at 1.
    unfold Reader.print_record, Reader.try_catch, Reader.bind, Reader.print.
    cbn [Reader.world Reader.printed]. rewrite IH. cbn [Reader.world Reader.printed].
    unfold record_lines. repeat rewrite <- app_assoc. reflexivity.
Qed.

(** Every run of [readFirst10Records] settles, in one of the three
    shapes. *)
Lemma readFirst10Records_run (d : Reader.Desk G) :
  exists d' o made lines,
    Reader.readFirst10Records d = Some (d', o) /\
    ReadShape made lines o /\
    calls (Reader.world d') = calls (Reader.world d) ++ made /\
    Reader.printed d' = Reader.printed d ++ lines /\
    console (Reader.world d') = console (Reader.world d).
Proof.
  unfold Reader.readFirst10Records, Reader.show_first10.
  cbv beta iota zeta delta
    [Reader.try_finally Reader.try_catch Reader.bind Reader.print Reader.on_world
     Reader.ret Reader.throw client_login client_useDatabase client_SQLQuery client_logout
     client_call Reader.world Reader.printed gateway clock calls console].
  destruct d as [[g0 clk cs co] pr].
  repeat reader_case.
  all: try (match goal with |- context [match ?a with Some _ => _ | None => _ end] =>
              destruct a as [[|row rest]|] end;
            cbv beta iota zeta delta [gateway clock calls console Reader.world Reader.printed]).
  all: rewrite ?print_records_run;
       cbv beta iota zeta delta [gateway clock calls console Reader.world Reader.printed].
  all: repeat reader_case.
  all: first [ solve [read_leaf read_login_failed]
             | solve [read_leaf read_use_failed]
             | solve [read_leaf read_done] ].
Qed.

Lemma read_shaped (d d' : Reader.Desk G) (o : Outcome unit) :
  Reader.readFirst10Records d = Some (d', o) ->
  exists made lines,
    ReadShape made lines o /\
    desk_calls_since d d' = made /\
    printed_since d d' = lines.
Proof.
  intros E. destruct (readFirst10Records_run d)
    as (d1 & o1 & made & lines & Hrun & Hshape & Hcalls & Hprinted & _).
  rewrite Hrun in E. injection E as <- <-.
  exists made, lines. split; [exact Hshape|].
  unfold desk_calls_since, calls_since, printed_since.
  rewrite Hcalls, Hprinted, !skipn_length_app. split; reflexivity.
Qed.

(** X8.  [readFirst10Records] is rejected exactly when its login or its
    [useDatabase] was rejected, and then with that error.  A rejected
    query does not reject it: it resolves and prints the message of the
    error. *)
Theorem read_rejects_only_for_session (d d' : Reader.Desk G) (o : Outcome unit) :
  Reader.readFirst10Records d = Some (d', o) ->
  (forall e, o = Rejected e <->
             In (Login "immudb" "immudb", Some e) (desk_calls_since d d') \/
             In (UseDatabase dbName, Some e) (desk_calls_since d d')) /\
  (forall e, In (SQLQuery Reader.first10_sql [], Some e) (desk_calls_since d d') ->
             o = Resolved tt /\
             In (Reader.ErrExecutingQuery (message e)) (printed_since d d')).
Proof.
  intros Erun. destruct (read_shaped _ Erun) as (made & lines & Hshape & -> & ->).
  destruct Hshape as [e0 left | e0 left | queried left]; unfold login_ok, use_ok.
  - split.
    + intros e. split.
      * intros E. injection E as ->. left. now left.
      * intros [[E | [E | []]] | [E | [E | []]]]; try discriminate E. now injection E as ->.
    + intros e [E | [E | []]]; discriminate E.
  - split.
    + intros e. split.
      * intros E. injection E as ->. right. right. now left.
      * intros [[E | [E | [E | []]]] | [E | [E | [E | []]]]]; try discriminate E.
        now injection E as ->.
    + intros e [E | [E | [E | []]]]; discriminate E.
  - split.
    + intros e. split; [discriminate|].
      intros [[E | [E | [E | [E | []]]]] | [E | [E | [E | [E | []]]]]]; discriminate E.
    + intros e [E | [E | [E | [E | []]]]]; try discriminate E.
      split; [reflexivity|].
      apply (f_equal snd) in E. cbn [snd] in E.
      destruct queried as [r | e']; [discriminate E|]. injection E as ->.
      apply in_or_app. right. now left.
Qed.

(** X9.  Whatever happens, [readFirst10Records] opens with the login and
    closes with the logout, and in between it selects the database and
    runs at most its one query: it never sends a statement that changes
    the store, and never creates a database. *)
Theorem read_never_writes (d d' : Reader.Desk G) (o : Outcome unit) :
  Reader.readFirst10Records d = Some (d', o) ->
  exists opened between closed,
    desk_calls_since d d' = (Login "immudb" "immudb", opened) :: between ++ [(Logout, closed)] /\
    forallb (fun c => is_read_request (fst c)) between = true /\
    length between <= 2.
Proof.
  intros Erun. destruct (read_shaped _ Erun) as (made & lines & Hshape & -> & _).
  destruct Hshape as [e0 left | e0 left | queried left]; unfold login_ok, use_ok.
  - exists (Some e0), [], left. repeat split. simpl. lia.
  - exists None, [(UseDatabase dbName, Some e0)], left. repeat split. simpl. lia.
  - exists None, [(UseDatabase dbName, None);
                  (SQLQuery Reader.first10_sql [], failure_of queried)], left.
    repeat split. simpl. lia.
Qed.

Lemma headings_app (xs ys : list Reader.Line) :
  headings (xs ++ ys) = headings xs ++ headings ys.
Proof. unfold headings. apply flat_map_app. Qed.

Lemma headings_records (rows : list Row) (index : nat) :
  headings (records_lines rows index)
  = combine (seq (index + 1) (length rows))
            (map (fun row => value_or row 0 (SqlStr "N/A")) rows).
Proof.
  revert index. induction rows as [|row rows IH]; intros index; [reflexivity|].
  cbn [records_lines]. rewrite headings_app, IH.
  replace (S index + 1) with (S (index + 1)) by lia. reflexivity.
Qed.

Lemma records_lines_say_records (rows : list Row) (index : nat) :
  ~ In Reader.SayNoRecords (records_lines rows index).
Proof.
  revert index. induction rows as [|row rows IH]; intros index; [intros []|].
  cbn [records_lines]. rewrite in_app_iff. intros [Hin | Hin]; [|exact (IH _ Hin)].
  unfold record_lines in Hin. cbn [In] in Hin.
  repeat (destruct Hin as [Hin | Hin]; try discriminate Hin). contradiction.
Qed.

(** X10.  When login, [useDatabase] and the query go through, the
    records are shown in the order of the rows returned, numbered from 1,
    each headed by its first column, with 'N/A' where that column is
    missing or falsy ([NULL], empty, 0 or false); and when no row is
    returned, the function
    says so instead.  The logout cannot change this. *)
Theorem read_shows_rows_in_order (d : Reader.Desk G) (g1 g2 g3 : G) (rows : list Row) :
  gw_login "immudb" "immudb" (gateway (Reader.world d)) = (g1, Resolved tt) ->
  gw_useDatabase dbName g1 = (g2, Resolved tt) ->
  gw_SQLQuery Reader.first10_sql [] g2 = (g3, Resolved (Some rows)) ->
  exists d',
    Reader.readFirst10Records d = Some (d', Resolved tt) /\
    headings (printed_since d d')
    = combine (seq 1 (length rows)) (map (fun row => value_or row 0 (SqlStr "N/A")) rows) /\
    (rows = [] <-> In Reader.SayNoRecords (printed_since d d')).
Proof.
  intros Hlogin Huse Hquery.
  unfold Reader.readFirst10Records, Reader.show_first10, printed_since.
  cbv beta iota zeta delta
    [Reader.try_finally Reader.try_catch Reader.bind Reader.print Reader.on_world
     Reader.ret Reader.throw client_login client_useDatabase client_SQLQuery client_logout
     client_call Reader.world Reader.printed gateway clock calls console].
  destruct d as [[g0 clk cs co] pr].
  cbn [Reader.world gateway] in Hlogin. rewrite Hlogin.
  cbv beta iota zeta delta [gateway clock calls console Reader.world Reader.printed].
  rewrite Huse.
  cbv beta iota zeta delta [gateway clock calls console Reader.world Reader.printed].
  rewrite Hquery.
  cbv beta iota zeta delta [gateway clock calls console Reader.world Reader.printed].
  destruct rows as [|row rest].
  - reader_case; eexists; (split; [reflexivity|]);
      cbv beta iota zeta delta [Reader.printed];
      repeat rewrite <- app_assoc; rewrite skipn_length_app;
      (split; [reflexivity|]); (split; [intros _; cbn [app In]; auto 10 | reflexivity]).
  - rewrite print_records_run.
    cbv beta iota zeta delta [gateway clock calls console Reader.world Reader.printed].
    reader_case; eexists; (split; [reflexivity|]);
      cbv beta iota zeta delta [Reader.printed];
      repeat rewrite <- app_assoc; rewrite skipn_length_app;
      rewrite !headings_app, headings_records;
      (split; [cbn [headings flat_map app]; now rewrite app_nil_r|]);
      (split; [discriminate|]);
      rewrite !in_app_iff; unfold records_lines; fold records_lines;
      intros Hin; exfalso.
    all: destruct Hin as [Hin | [Hin | Hin]].
    all: try (cbn [In] in Hin; repeat (destruct Hin as [Hin | Hin]; try discriminate Hin);
              try contradiction).
    all: cbn [app] in Hin; exact (records_lines_say_records _ _ Hin).
Qed.

End ReaderRuns.

(* ================================================================== *)
(** ** The main block *)
(* ================================================================== *)

Section MainBlock.
Context {G : Type} `{Gateway G}.

Lemma attempts_not_fatal (attempts : list Attempt) :
  existsb fatal_call (map attempt_call attempts) = false.
Proof.
  induction attempts as [|a rest IH]; [reflexivity|].
  cbn [map existsb]. rewrite IH, orb_false_r.
  unfold attempt_call, fatal_call. destruct (failure a); [|reflexivity].
  unfold is_setup_request. apply String.eqb_neq. intros E.
  exact (createTable_not_insert (eq_sym E)).
Qed.

Lemma failure_is_fatal (source : Outcome (list JSONExportData))
    (made : list CallRecord) (written : list ConsoleEvent) (e : Error) :
  FailureCause source made written e ->
  dataset_of source = None \/ existsb fatal_call made = true.
Proof.
  intros cause. destruct cause.
  - right. reflexivity.
  - right. cbn [existsb fatal_call login_ok message]. rewrite H0. reflexivity.
  - right. cbn [existsb fatal_call login_ok is_setup_request].
    destruct created; cbn; rewrite ?orb_true_r; reflexivity.
  - left. subst source. reflexivity.
  - left. assumption.
  - right. cbn [existsb fatal_call login_ok use_ok is_setup_request].
    rewrite String.eqb_refl. destruct created; cbn; rewrite ?orb_true_r; reflexivity.
Qed.

(** On records as [MBACandidateRecord] declares them, the main block
    always ends with an exit code, 0 or 1, and the code is 1 exactly when
    the source holds no dataset or a call that is fatal was rejected. *)
Lemma typed_main_exit_code (source : Outcome (list JSONExportData)) (d : Reader.Desk G) :
  exists d' code,
    Reader.main source d = Some (d', Resolved code) /\
    (code = 0 \/ code = 1) /\
    (code = 1 <->
     dataset_of source = None \/ existsb fatal_call (desk_calls_since d d') = true).
Proof.
  destruct (importJSONToImmuDB_settles source (Reader.world d)) as (w1 & o1 & E1).
  pose proof (@import_traced _ _ _ _ _ _ E1) as T1.
  unfold Reader.main. unfold Reader.try_catch at 1. unfold Reader.bind at 1.
  unfold Reader.on_world at 1. rewrite E1.
  destruct o1 as [cnt | e].
  - unfold import_trace in T1.
    destruct T1 as (candidates & attempts & created & counted & sampled & left
                    & Hready & Hdata & _ & _ & Hcalls1 & _).
    unfold Reader.bind at 1. unfold Reader.print at 1. cbv beta iota.
    unfold Reader.bind at 1. unfold Reader.print at 1. cbv beta iota.
    cbn [Reader.world Reader.printed].
    destruct (readFirst10Records_run
                (Reader.mkDesk w1
                   ((Reader.printed d ++ [Reader.SayImportCompleted]) ++ [Reader.SayNowReading])))
      as (d2 & o2 & made & lines & Hrun & Hshape & Hcalls2 & _ & _).
    cbn [Reader.world] in Hcalls2.
    unfold Reader.bind at 1. rewrite Hrun.
    assert (Hsince : forall p, desk_calls_since d (Reader.mkDesk (Reader.world d2) p)
                     = setup_calls created ++ map attempt_call attempts
                       ++ closing_calls counted sampled left ++ made).
    { intros p. unfold desk_calls_since, calls_since. cbn [Reader.world].
      rewrite Hcalls2, Hcalls1. repeat rewrite <- app_assoc. apply skipn_length_app. }
    assert (Hsetup : existsb fatal_call (setup_calls created) = false).
    { unfold setup_calls. cbn [existsb fatal_call is_setup_request].
      destruct created as [e|]; [|reflexivity].
      simpl in Hready. cbn [message]. rewrite Hready. reflexivity. }
    assert (Hclosing : existsb fatal_call (closing_calls counted sampled left) = false).
    { unfold closing_calls. cbn [existsb fatal_call is_setup_request].
      destruct (failure_of counted), (failure_of sampled); reflexivity. }
    destruct Hshape as [e0 left0 | e0 left0 | queried left0].
    + eexists _, 1. split; [reflexivity|]. split; [now right|].
      split; [intros _|reflexivity]. right.
      rewrite Hsince, !existsb_app. cbn. now rewrite !orb_true_r.
    + eexists _, 1. split; [reflexivity|]. split; [now right|].
      split; [intros _|reflexivity]. right.
      rewrite Hsince, !existsb_app. cbn. now rewrite !orb_true_r.
    + eexists _, 0. split; [reflexivity|]. split; [now left|].
      split; [discriminate|]. rewrite Hdata. intros [E | E]; [discriminate E|].
      exfalso. rewrite Hsince, !existsb_app, Hsetup, attempts_not_fatal, Hclosing in E.
      cbn [orb existsb fatal_call login_ok use_ok is_setup_request] in E.
      destruct (failure_of queried); discriminate E.
  - unfold import_trace in T1. destruct T1 as [made written left cause Hcalls _].
    eexists _, 1. split; [reflexivity|]. split; [now right|].
    split; [intros _|reflexivity].
    destruct (failure_is_fatal cause) as [E | E]; [now left|]. right.
    unfold desk_calls_since, calls_since. cbn [Reader.world].
    rewrite Hcalls, skipn_length_app, existsb_app, E. reflexivity.
Qed.
End MainBlock.

(* ================================================================== *)
(** ** The routes and [connect] *)
(* ================================================================== *)

Section ApiRuns.
Import Service Api.
Context {G : Type} `{Gateway G}.

(** X12.  [GET /users/:id] always answers, with one select sent: 200 and
    the first row returned when there is one, and 404 otherwise, whether
    the user is not there or the store rejected the query; only the
    message tells the two apart. *)
Theorem get_user_answers (id : string) (w : World G) :
  exists w' resp g' queried,
    gw_SQLQuery select_user_sql [("id", SqlStr id)] (gateway w) = (g', queried) /\
    get_user id w = Some (w', Resolved resp) /\
    calls_since w w' = [(SQLQuery select_user_sql [("id", SqlStr id)], failure_of queried)] /\
    resp = match queried with
           | Resolved (Some (row :: _)) =>
               mkHttp 200 (UserBody (RowData row) (mkTamperProof true None true None))
           | Resolved _ =>
               mkHttp 404 (ErrorBody "Failed to get user: Error: User not found")
           | Rejected e =>
               mkHttp 404 (ErrorBody ("Failed to get user: " ++ error_toString e))
           end.
Proof.
  destruct (getUser_run id w) as (g' & queried & E & Hrun).
  unfold get_user, try_catch, bind. rewrite Hrun.
  destruct queried as [[[|row rest]|] | e]; cbn [getUser_result];
    eexists _, _, g', _; (split; [exact E|]); (split; [reflexivity|]);
    unfold calls_since; cbn [calls]; rewrite skipn_length_app; split; reflexivity.
Qed.

(** X13.  [GET /users] always answers, with one select sent: 200 with
    the rows returned and [count] their number; 200 with an empty list,
    [count] 0 and [cryptographicProof] false when the client returns no
    result at all; and 500 when the query is rejected. *)
Theorem get_users_counts (w : World G) :
  exists w' resp g' queried,
    gw_SQLQuery select_all_sql [] (gateway w) = (g', queried) /\
    get_users w = Some (w', Resolved resp) /\
    calls_since w w' = [(SQLQuery select_all_sql [], failure_of queried)] /\
    resp = match queried with
           | Resolved (Some rows) =>
               mkHttp 200 (UsersBody (RowsData (Some rows)) (Some (length rows))
                             (mkTamperProof true None true None))
           | Resolved None =>
               mkHttp 200 (UsersBody (RowsData (Some [])) (Some 0)
                             (mkTamperProof true None false None))
           | Rejected e =>
               mkHttp 500 (ErrorBody ("Failed to get users: " ++ error_toString e))
           end.
Proof.
  unfold get_users, getAllUsers, try_catch, bind, client_SQLQuery, client_call, ret, throw.
  destruct (gw_SQLQuery select_all_sql [] (gateway w)) as [g' queried] eqn:E.
  destruct queried as [[rows|] | e];
    eexists _, _, g', _; (split; [reflexivity|]); (split; [reflexivity|]);
    unfold calls_since; cbn [calls]; rewrite skipn_length_app; split; reflexivity.
Qed.

(** X14.  [GET /users/:id/history] always answers, with one query sent:
    200 with whatever the history query returned, also when that is
    nothing, so an unknown id is not a 404; and 404 only when the query
    is rejected. *)
Theorem get_user_history_answers (id : string) (w : World G) :
  exists w' resp g' queried,
    gw_SQLQuery history_sql [("id", SqlStr id)] (gateway w) = (g', queried) /\
    get_user_history id w = Some (w', Resolved resp) /\
    calls_since w w' = [(SQLQuery history_sql [("id", SqlStr id)], failure_of queried)] /\
    resp = match queried with
           | Resolved rows =>
               mkHttp 200
                 (HistoryBody (RowsData rows)
                    (mkTamperProof true None true
                       (Some "This data represents the state before the specified transaction")))
           | Rejected e =>
               mkHttp 404
                 (ErrorBody ("Failed to get historical user data: " ++ error_toString e))
           end.
Proof.
  unfold get_user_history, getUserAtTransaction, try_catch, bind, client_SQLQuery,
    client_call, ret, throw.
  destruct (gw_SQLQuery history_sql [("id", SqlStr id)] (gateway w)) as [g' queried] eqn:E.
  destruct queried as [rows | e];
    eexists _, _, g', _; (split; [reflexivity|]); (split; [reflexivity|]);
    unfold calls_since; cbn [calls]; rewrite skipn_length_app; split; reflexivity.
Qed.

(** X15.  [GET /health] always answers, with the one probe query sent:
    200 and 'connected' when the probe went through, 500 and
    'disconnected' when it was rejected.  The answer never carries an
    [error] field: [healthCheck] catches every error, so the [catch] of
    the route is never entered. *)
Theorem get_health_never_errors (w : World G) :
  exists w' resp failed,
    get_health w = Some (w', Resolved resp) /\
    calls_since w w' = [(SQLQuery "SELECT 1;" [], failed)] /\
    resp = match failed with
           | None => mkHttp 200 (HealthBody true "connected" None (clock w))
           | Some _ => mkHttp 500 (HealthBody false "disconnected" None (clock w))
           end.
Proof.
  unfold get_health, healthCheck, try_catch, bind, client_SQLQuery, client_call, ret,
    Date_now.
  destruct (gw_SQLQuery "SELECT 1;" [] (gateway w)) as [g' [rows | e]];
    eexists _, _, _; (split; [reflexivity|]);
    unfold calls_since; cbn [calls]; rewrite skipn_length_app; split; reflexivity.
Qed.

Lemma connect_run (env : string -> option string) (w : World G) :
  exists w' o made written,
    connect env w = Some (w', o) /\
    ConnectShape (env_or (env "IMMUDB_USER") "immudb")
                 (env_or (env "IMMUDB_PASSWORD") "immudb") made written o /\
    calls w' = calls w ++ made /\
    console w' = console w ++ written.
Proof.
  unfold connect.
  cbv beta iota zeta delta
    [try_catch bind ret throw console_log client_login client_SQLExec client_call
     gateway clock calls console].
  destruct w as [g0 clk cs co].
  destruct (gw_login _ _ g0) as [g1 [[]|e1]].
  2: { eexists _, _, _, _. split; [reflexivity|]. split; [apply connect_login_failed|].
       split; [reflexivity | now rewrite app_nil_r]. }
  destruct (gw_SQLExec create_users_sql [] g1) as [g2 [r2|e2]].
  2: { eexists _, _, _, _. split; [reflexivity|]. split; [apply connect_table_failed|].
       split; [now rewrite <- !app_assoc | now rewrite app_nil_r]. }
  destruct (gw_SQLExec index_name_sql [] g2) as [g3 [r3|e3]].
  2: { eexists _, _, _, _. split; [reflexivity|]. split; [apply connect_name_index_failed|].
       split; [now rewrite <- !app_assoc | reflexivity]. }
  destruct (gw_SQLExec index_email_sql [] g3) as [g4 [r4|e4]].
  2: { eexists _, _, _, _. split; [reflexivity|]. split; [apply connect_email_index_failed|].
       split; [now rewrite <- !app_assoc | reflexivity]. }
  eexists _, _, _, _. split; [reflexivity|]. split; [apply connect_done|].
  split; [now rewrite <- !app_assoc | now rewrite app_nil_r].
Qed.

Lemma connect_sql_distinct :
  create_users_sql <> index_name_sql /\ create_users_sql <> index_email_sql /\
  index_name_sql <> index_email_sql.
Proof.
  repeat split; apply String.eqb_neq; vm_compute; reflexivity.
Qed.

(** X16.  [connect] first logs in with the user and password of the
    environment, 'immudb' standing in for one that is unset or empty, and
    it is rejected exactly when the login or the creation of the table was
    rejected, with that very error. *)
Theorem connect_rejects_only_for_login_or_table (env : string -> option string)
    (w w' : World G) (o : Outcome unit) :
  connect env w = Some (w', o) ->
  let user := env_or (env "IMMUDB_USER") "immudb" in
  let password := env_or (env "IMMUDB_PASSWORD") "immudb" in
  (exists opened later, calls_since w w' = (Login user password, opened) :: later) /\
  (forall e, o = Rejected e <->
             In (Login user password, Some e) (calls_since w w') \/
             In (SQLExec create_users_sql [], Some e) (calls_since w w')).
Proof.
  intros Erun user password.
  destruct (connect_run env w) as (w1 & o1 & made & written & Hrun & Hshape & Hcalls & _).
  rewrite Hrun in Erun. injection Erun as -> ->.
  unfold calls_since. rewrite Hcalls, skipn_length_app.
  fold user password in Hshape.
  destruct connect_sql_distinct as (Dn & De & _).
  destruct Hshape; (split; [eexists _, _; reflexivity|]); intros e'; split;
    try discriminate; cbn [In]; intros Hin.
  all: try (injection Hin as ->; auto; fail).
  all: repeat match goal with
              | Hin : _ \/ _ |- _ => destruct Hin as [Hin | Hin]
              | Hin : False |- _ => contradiction
              | Hin : (_, _) = (_, _) |- _ =>
                  first [ discriminate Hin
                        | injection Hin as Hin; subst; first [reflexivity | congruence] ]
              end.
Qed.

(** X17.  A rejected index creation does not fail [connect]: it
    resolves, and the console shows the error and nothing else.  When it is
    the first index that was rejected, the second is not even attempted. *)
Theorem connect_survives_index_failure (env : string -> option string)
    (w w' : World G) (o : Outcome unit) (e : Error) :
  connect env w = Some (w', o) ->
  In (SQLExec index_name_sql [], Some e) (calls_since w w') \/
  In (SQLExec index_email_sql [], Some e) (calls_since w w') ->
  o = Resolved tt /\
  console_since w w' = [LogError e] /\
  (In (SQLExec index_name_sql [], Some e) (calls_since w w') ->
   forall failed, ~ In (SQLExec index_email_sql [], failed) (calls_since w w')).
Proof.
  intros Erun.
  destruct (connect_run env w) as (w1 & o1 & made & written & Hrun & Hshape & Hcalls & Hcons).
  rewrite Hrun in Erun. injection Erun as -> ->.
  unfold calls_since, console_since. rewrite Hcalls, Hcons, !skipn_length_app.
  destruct connect_sql_distinct as (Dn & De & Dne).
  destruct Hshape; cbn [In]; intros Hin.
  all: repeat match goal with
              | Hin : _ \/ _ |- _ => destruct Hin as [Hin | Hin]
              | Hin : False |- _ => contradiction
              | Hin : (_, _) = (_, _) |- _ =>
                  first [ discriminate Hin
                        | injection Hin as Hin; try subst e; try congruence ]
              end.
  all: split; [reflexivity|]; split; [reflexivity|].
  all: intros Hin' failed Hin2.
  all: repeat match goal with
              | Hin : _ \/ _ |- _ => destruct Hin as [Hin | Hin]
              | Hin : False |- _ => contradiction
              | Hin : (_, _) = (_, _) |- _ =>
                  first [ discriminate Hin
                        | injection Hin as Hin; try congruence ]
              end.
Qed.

Lemma updateUser_run (id : string) (updates : Partial.t) (w : World G) :
  exists g1 q1,
    gw_SQLQuery select_user_sql [("id", SqlStr id)] (gateway w) = (g1, q1) /\
    match getUser_result q1 with
    | Rejected e1 =>
        updateUser id updates w
        = Some (mkWorld g1 (clock w)
                  (calls w ++ [(SQLQuery select_user_sql [("id", SqlStr id)], failure_of q1)])
                  (console w ++ getUser_console q1),
                Rejected (mkError ("Failed to update user: " ++ error_toString e1)))
    | Resolved _ =>
        exists g2 x2,
          gw_SQLExec update_user_sql (update_params id updates) g1 = (g2, x2) /\
          match x2 with
          | Rejected e2 =>
              updateUser id updates w
              = Some (mkWorld g2 (clock w)
                        (calls w
                         ++ [(SQLQuery select_user_sql [("id", SqlStr id)], failure_of q1);
                             (SQLExec update_user_sql (update_params id updates), Some e2)])
                        (console w ++ getUser_console q1),
                      Rejected (mkError ("Failed to update user: " ++ error_toString e2)))
          | Resolved r =>
              exists g3 q3,
                gw_SQLQuery select_user_sql [("id", SqlStr id)] g2 = (g3, q3) /\
                updateUser id updates w
                = Some (mkWorld g3 (clock w)
                          (calls w
                           ++ [(SQLQuery select_user_sql [("id", SqlStr id)], failure_of q1);
                               (SQLExec update_user_sql (update_params id updates), None);
                               (SQLQuery select_user_sql [("id", SqlStr id)], failure_of q3)])
                          (console w ++ getUser_console q1 ++ getUser_console q3),
                        match getUser_result q3 with
                        | Resolved updatedUser =>
                            Resolved (mkResponse (data updatedUser) true (first_tx_id r)
                                        (Some (ExecProof r)))
                        | Rejected e3 =>
                            Rejected (mkError ("Failed to update user: " ++ error_toString e3))
                        end)
          end
    end.
Proof.
  destruct (getUser_run id w) as (g1 & q1 & E1 & Hrun1).
  exists g1, q1. split; [exact E1|].
  revert Hrun1. destruct (getUser_result q1) as [found | e1]; intros Hrun1.
  2: { unfold updateUser, try_catch. unfold bind at 1. rewrite Hrun1. reflexivity. }
  destruct (gw_SQLExec update_user_sql (update_params id updates) g1) as [g2 [r | e2]] eqn:E2;
    exists g2; eexists; (split; [reflexivity|]).
  - destruct (getUser_run id
                (mkWorld g2 (clock w)
                   ((calls w ++ [(SQLQuery select_user_sql [("id", SqlStr id)], failure_of q1)])
                    ++ [(SQLExec update_user_sql (update_params id updates), None)])
                   (console w ++ getUser_console q1)))
      as (g3 & q3 & E3 & Hrun3).
    cbn [gateway clock calls console] in E3, Hrun3.
    exists g3, q3. split; [exact E3|].
    unfold updateUser, try_catch. unfold bind at 1. rewrite Hrun1.
    unfold bind at 1, client_SQLExec, client_call. cbn [gateway clock calls console].
    fold (update_params id updates). rewrite E2. cbv beta iota.
    unfold bind at 1. cbn [failure_of]. rewrite Hrun3.
    destruct (getUser_result q3); unfold ret, throw;
      repeat rewrite <- app_assoc; reflexivity.
  - unfold updateUser, try_catch. unfold bind at 1. rewrite Hrun1.
    unfold bind at 1, client_SQLExec, client_call. cbn [gateway clock calls console].
    fold (update_params id updates). rewrite E2. cbv beta iota.
    unfold throw. cbn [failure_of]. repeat rewrite <- app_assoc. reflexivity.
Qed.

End ApiRuns.

Section ApiUpdates.
Import Service Api.
Context {G : Type} `{Gateway G}.

(** X18.  [PUT /users/:id] always answers, with 200 or 400 and never
    404.  A 200 means that the three calls, select, update and select,
    were made one after the other and all went through, each from the
    state the one before left; it carries the first row the second select
    returned, read after the update, and the transaction id of the update.
    A 400 carries a message that starts with 'Failed to update user: '. *)
Theorem put_user_answers (id : string) (updates : Partial.t) (w : World G) :
  exists w' resp,
    put_user id updates w = Some (w', Resolved resp) /\
    (status resp = 200 \/ status resp = 400) /\
    (status resp = 200 ->
     exists g1 row1 rest1 g2 r g3 row rest,
       gw_SQLQuery select_user_sql [("id", SqlStr id)] (gateway w)
       = (g1, Resolved (Some (row1 :: rest1))) /\
       gw_SQLExec update_user_sql (update_params id updates) g1 = (g2, Resolved r) /\
       gw_SQLQuery select_user_sql [("id", SqlStr id)] g2
       = (g3, Resolved (Some (row :: rest))) /\
       gateway w' = g3 /\
       resp = mkHttp 200 (UserBody (RowData row)
                            (mkTamperProof true (first_tx_id r) true None)) /\
       calls_since w w'
       = [ (SQLQuery select_user_sql [("id", SqlStr id)], None);
           (SQLExec update_user_sql (update_params id updates), None);
           (SQLQuery select_user_sql [("id", SqlStr id)], None) ]) /\
    (status resp = 400 ->
     exists reason, body resp = ErrorBody ("Failed to update user: " ++ reason)).
Proof.
  destruct (updateUser_run id updates w) as (g1 & q1 & E1 & Hrun).
  unfold put_user, try_catch, bind.
  change (Partial.mk (Partial.name updates) (Partial.email updates)) with updates
    || (destruct updates as [n e]; cbn [Partial.name Partial.email]).
  destruct (getUser_result q1) as [found | e1] eqn:Er1.
  - destruct Hrun as (g2 & x2 & E2 & Hrun). destruct x2 as [r | e2].
    + destruct Hrun as (g3 & q3 & E3 & Hrun). rewrite Hrun.
      destruct q3 as [[[|row rest]|] | e3]; cbn [getUser_result].
      * eexists _, _. split; [reflexivity|]. split; [now right|].
        split; [discriminate|]. intros _. eexists. reflexivity.
      * destruct q1 as [[[|row1 rest1]|] | e1]; try discriminate Er1.
        eexists _, _. split; [reflexivity|]. split; [now left|].
        split; [|discriminate]. intros _.
        exists g1, row1, rest1, g2, r, g3, row, rest.
        split; [exact E1|]. split; [exact E2|]. split; [exact E3|].
        split; [reflexivity|]. split; [reflexivity|].
        unfold calls_since. cbn [calls failure_of]. now rewrite skipn_length_app.
      * eexists _, _. split; [reflexivity|]. split; [now right|].
        split; [discriminate|]. intros _. eexists. reflexivity.
      * eexists _, _. split; [reflexivity|]. split; [now right|].
        split; [discriminate|]. intros _. eexists. reflexivity.
    + rewrite Hrun. eexists _, _. split; [reflexivity|]. split; [now right|].
      split; [discriminate|]. intros _. eexists. reflexivity.
  - rewrite Hrun. eexists _, _. split; [reflexivity|]. split; [now right|].
    split; [discriminate|]. intros _. eexists. reflexivity.
Qed.

(** X19.  The update is not undone when the read that follows it fails:
    if the first select finds a row and the update goes through, but the
    second select is rejected or returns no row, [PUT /users/:id] answers
    400 although the update statement was accepted by the store, whose
    state is the one after the update. *)
Theorem put_400_after_update_applied (id : string) (updates : Partial.t) (w : World G)
    (g1 g2 g3 : G) (row : Row) (rest : list Row) (r : SQLExecResult)
    (queried : Outcome (option (list Row))) :
  gw_SQLQuery select_user_sql [("id", SqlStr id)] (gateway w)
  = (g1, Resolved (Some (row :: rest))) ->
  gw_SQLExec update_user_sql (update_params id updates) g1 = (g2, Resolved r) ->
  gw_SQLQuery select_user_sql [("id", SqlStr id)] g2 = (g3, queried) ->
  (forall row' rest', queried <> Resolved (Some (row' :: rest'))) ->
  exists w',
    put_user id updates w
    = Some (w', Resolved (mkHttp 400
                            (ErrorBody ("Failed to update user: Error: Failed to get user: "
                                        ++ match queried with
                                           | Rejected e => error_toString e
                                           | Resolved _ => "Error: User not found"
                                           end)))) /\
    gateway w' = g3 /\
    calls_since w w'
    = [ (SQLQuery select_user_sql [("id", SqlStr id)], None);
        (SQLExec update_user_sql (update_params id updates), None);
        (SQLQuery select_user_sql [("id", SqlStr id)], failure_of queried) ].
Proof.
  intros E1 E2 E3 Hnone.
  destruct (updateUser_run id updates w) as (g1' & q1 & E1' & Hrun).
  rewrite E1 in E1'. injection E1' as <- <-. cbn [getUser_result] in Hrun.
  destruct Hrun as (g2' & x2 & E2' & Hrun).
  rewrite E2 in E2'. injection E2' as <- <-.
  destruct Hrun as (g3' & q3 & E3' & Hrun).
  rewrite E3 in E3'. injection E3' as <- <-.
  unfold put_user, try_catch, bind.
  change (Partial.mk (Partial.name updates) (Partial.email updates)) with updates
    || (destruct updates as [n e]; cbn [Partial.name Partial.email]).
  rewrite Hrun.
  destruct queried as [[[|row' rest']|] | e3]; cbn [getUser_result].
  - eexists. split; [reflexivity|]. split; [reflexivity|].
    unfold calls_since. cbn [calls failure_of]. now rewrite skipn_length_app.
  - exfalso. exact (Hnone row' rest' eq_refl).
  - eexists. split; [reflexivity|]. split; [reflexivity|].
    unfold calls_since. cbn [calls failure_of]. now rewrite skipn_length_app.
  - eexists. split; [reflexivity|]. split; [reflexivity|].
    unfold calls_since. cbn [calls failure_of]. now rewrite skipn_length_app.
Qed.

End ApiUpdates.

Section ApiOnStore.
Import Service Api.
Context {G : Type} `{UsersStore G}.

(** X20.  On a store that keeps the table, [PUT /users/:id] for an id
    under which nothing is stored answers 400 with the message that the
    user was not found, after the one select: no update is sent, and the
    table is as it was. *)
Theorem put_unknown_user_is_400 (id : string) (updates : Partial.t) (w : World G) :
  stored (gateway w) id = None ->
  exists w',
    put_user id updates w
    = Some (w', Resolved (mkHttp 400
                            (ErrorBody
                               "Failed to update user: Error: Failed to get user: Error: User not found"))) /\
    calls_since w w' = [(SQLQuery select_user_sql [("id", SqlStr id)], None)] /\
    forall k, stored (gateway w') k = stored (gateway w) k.
Proof.
  intros Hst.
  destruct (select_law (gateway w) id) as (g' & Hq & Hsame).
  destruct (updateUser_run id updates w) as (g1 & q1 & E1 & Hrun).
  rewrite Hq in E1. injection E1 as <- <-. rewrite Hst in Hrun.
  cbn [rows_for getUser_result] in Hrun.
  unfold put_user, try_catch, bind.
  change (Partial.mk (Partial.name updates) (Partial.email updates)) with updates
    || (destruct updates as [n e]; cbn [Partial.name Partial.email]).
  rewrite Hrun. eexists. split; [reflexivity|].
  split; [|exact Hsame].
  unfold calls_since. cbn [calls failure_of]. now rewrite skipn_length_app.
Qed.

(** X21.  On a store that keeps the table, when [POST /users] answers
    201, its body is the user of the request with the creation time, and a
    [GET /users/:id] of that id right after it answers 200 with the row
    [id, name, email, created_at] of the request. *)
Theorem post_then_get (user : User) (w w1 : World G) (resp : Response) :
  post_users user w = Some (w1, Resolved resp) ->
  status resp = 201 ->
  (exists transactionId,
      body resp = UserBody (UserData user (clock w))
                    (mkTamperProof true transactionId true None)) /\
  exists w2,
    get_user (id user) w1
    = Some (w2, Resolved (mkHttp 200
                            (UserBody
                               (RowData [SqlStr (id user); SqlStr (name user);
                                         SqlStr (email user); SqlInt (clock w)])
                               (mkTamperProof true None true None)))).
Proof.
  destruct user as [uid uname uemail]. cbn [id name email].
  unfold post_users, createUser, try_catch, bind, Date_now, client_SQLExec, client_call,
    ret, throw.
  cbn [id name email].
  destruct (gw_SQLExec insert_user_sql
              [("id", SqlStr uid); ("name", SqlStr uname);
               ("email", SqlStr uemail); ("createdAt", SqlInt (clock w))] (gateway w))
    as [g1 [r | e]] eqn:Eexec; intros E; injection E as <- <-; intros Hstatus;
    [|discriminate Hstatus].
  split; [eexists; reflexivity|].
  apply insert_law in Eexec.
  match goal with
  | |- context [get_user uid ?w1] =>
      destruct (getUser_stored uid w1) as (g2 & _ & Hrun)
  end.
  cbn [gateway] in Hrun. rewrite Eexec in Hrun.
  unfold get_user, try_catch, bind. rewrite Hrun. eexists. reflexivity.
Qed.

End ApiOnStore.

(* ================================================================== *)
(** ** The importer, the reader and the routes on concrete clients *)
(* ================================================================== *)

Lemma import_session_bracket_witness :
  exists w' opened between closed,
    importJSONToImmuDB (Resolved (export_of five_candidates))
      (Scripted.world (Scripted.mk [] [] [])) = Some (w', Resolved 5) /\
    calls_since (Scripted.world (Scripted.mk [] [] [])) w'
    = (Login "immudb" "immudb", opened) :: between ++ [(Logout, closed)].
Proof.
  assert (E : exists w',
             importJSONToImmuDB (Resolved (export_of five_candidates))
               (Scripted.world (Scripted.mk [] [] [])) = Some (w', Resolved 5))
    by (eexists; vm_compute; reflexivity).
  destruct E as [w' E].
  destruct (@import_session_bracket _ _ _ _ _ _ E) as (opened & between & closed & Hcalls & _).
  exists w', opened, between, closed. split; [exact E | exact Hcalls].
Defined.

Lemma createDatabase_rejection_decides_witness :
  exists w',
    importJSONToImmuDB (Resolved (export_of five_candidates))
      (Fixed.world (Fixed.mk None (Some (mkError "database already exists")) None None
                      (Resolved None) None))
    = Some (w', Resolved 5) /\
    In (LogUsingExistingDatabase dbName)
       (console_since
          (Fixed.world (Fixed.mk None (Some (mkError "database already exists")) None None
                          (Resolved None) None)) w').
Proof.
  assert (E : exists w',
             importJSONToImmuDB (Resolved (export_of five_candidates))
               (Fixed.world (Fixed.mk None (Some (mkError "database already exists")) None None
                               (Resolved None) None))
             = Some (w', Resolved 5) /\
             In (CreateDatabase dbName, Some (mkError "database already exists"))
                (calls_since
                   (Fixed.world (Fixed.mk None (Some (mkError "database already exists")) None
                                   None (Resolved None) None)) w')).
  { eexists. split; [vm_compute; reflexivity|]. vm_compute. right. left. reflexivity. }
  destruct E as (w' & E & Hin).
  pose proof (@createDatabase_rejection_decides _ _ _ _ _ _ _ E Hin) as D.
  assert (Hinc : includes (message (mkError "database already exists")) "already exists" = true)
    by (vm_compute; reflexivity).
  rewrite Hinc in D.
  exists w'. split; [exact E | exact (proj1 D)].
Defined.

Lemma no_dataset_no_statement_witness :
  exists w' e,
    importJSONToImmuDB (Rejected (mkError "ENOENT: no such file or directory"))
      (Scripted.world (Scripted.mk [] [] [])) = Some (w', Rejected e) /\
    forallb (fun c => negb (is_statement (fst c)))
      (calls_since (Scripted.world (Scripted.mk [] [] [])) w') = true.
Proof.
  assert (E : exists w',
             importJSONToImmuDB (Rejected (mkError "ENOENT: no such file or directory"))
               (Scripted.world (Scripted.mk [] [] []))
             = Some (w', Rejected (mkError "ENOENT: no such file or directory")))
    by (eexists; vm_compute; reflexivity).
  destruct E as [w' E].
  destruct (@no_dataset_no_statement _ _ _ _ _ _ E eq_refl) as (_ & Hcalls).
  exists w', (mkError "ENOENT: no such file or directory"). split; [exact E | exact Hcalls].
Defined.

Lemma count_tells_failures_witness :
  exists w',
    importJSONToImmuDB (Resolved (export_of five_candidates))
      (Scripted.world (Scripted.mk [] [None; Some (mkError "syntax error")] []))
    = Some (w', Resolved 0) /\
    0 <= length five_candidates.
Proof.
  assert (E : exists w',
             importJSONToImmuDB (Resolved (export_of five_candidates))
               (Scripted.world (Scripted.mk [] [None; Some (mkError "syntax error")] []))
             = Some (w', Resolved 0))
    by (eexists; vm_compute; reflexivity).
  destruct E as [w' E].
  exists w'. split; [exact E|].
  exact (proj1 (@count_tells_failures _ _ (Resolved (export_of five_candidates))
                  five_candidates _ _ _ E eq_refl)).
Defined.

Lemma statements_carry_dataset_witness :
  exists w',
    importJSONToImmuDB (Resolved (export_of five_candidates))
      (Scripted.world (Scripted.mk [] [] [])) = Some (w', Resolved 5) /\
    inserted_rows (calls_since (Scripted.world (Scripted.mk [] [] [])) w')
    = map record_values five_candidates.
Proof.
  assert (E : exists w',
             importJSONToImmuDB (Resolved (export_of five_candidates))
               (Scripted.world (Scripted.mk [] [] [])) = Some (w', Resolved 5))
    by (eexists; vm_compute; reflexivity).
  destruct E as [w' E].
  exists w'. split; [exact E|].
  exact (@statements_carry_dataset _ _ (Resolved (export_of five_candidates))
           five_candidates _ _ _ E eq_refl).
Defined.

Lemma read_rejects_only_for_session_witness :
  exists d',
    Reader.readFirst10Records
      (Fixed.desk (Fixed.mk None None None None
                     (Rejected (mkError "table does not exist")) None))
    = Some (d', Resolved tt) /\
    In (Reader.ErrExecutingQuery "table does not exist")
       (printed_since
          (Fixed.desk (Fixed.mk None None None None
                         (Rejected (mkError "table does not exist")) None)) d').
Proof.
  assert (E : exists d',
             Reader.readFirst10Records
               (Fixed.desk (Fixed.mk None None None None
                              (Rejected (mkError "table does not exist")) None))
             = Some (d', Resolved tt) /\
             In (SQLQuery Reader.first10_sql [], Some (mkError "table does not exist"))
                (desk_calls_since
                   (Fixed.desk (Fixed.mk None None None None
                                  (Rejected (mkError "table does not exist")) None)) d')).
  { eexists. split; [vm_compute; reflexivity|]. vm_compute. right. right. left. reflexivity. }
  destruct E as (d' & E & Hin).
  exists d'. split; [exact E|].
  exact (proj2 (proj2 (@read_rejects_only_for_session _ _ _ _ _ E) _ Hin)).
Defined.

Lemma read_never_writes_witness :
  exists d' opened between closed,
    Reader.readFirst10Records
      (Fixed.desk (Fixed.mk None None (Some (mkError "database does not exist")) None
                     (Resolved None) None))
    = Some (d', Rejected (mkError "database does not exist")) /\
    desk_calls_since
      (Fixed.desk (Fixed.mk None None (Some (mkError "database does not exist")) None
                     (Resolved None) None)) d'
    = (Login "immudb" "immudb", opened) :: between ++ [(Logout, closed)].
Proof.
  assert (E : exists d',
             Reader.readFirst10Records
               (Fixed.desk (Fixed.mk None None (Some (mkError "database does not exist")) None
                              (Resolved None) None))
             = Some (d', Rejected (mkError "database does not exist")))
    by (eexists; vm_compute; reflexivity).
  destruct E as [d' E].
  destruct (@read_never_writes _ _ _ _ _ E) as (opened & between & closed & Hcalls & _).
  exists d', opened, between, closed. split; [exact E | exact Hcalls].
Defined.

Lemma read_shows_rows_in_order_witness :
  exists d',
    Reader.readFirst10Records
      (Fixed.desk (Fixed.mk None None None None
                     (Resolved (Some [[SqlStr "MBA24001"; SqlStr "Asha Rao"]; [SqlNull]]))
                     None))
    = Some (d', Resolved tt) /\
    headings
      (printed_since
         (Fixed.desk (Fixed.mk None None None None
                        (Resolved (Some [[SqlStr "MBA24001"; SqlStr "Asha Rao"]; [SqlNull]]))
                        None)) d')
    = [(1, SqlStr "MBA24001"); (2, SqlStr "N/A")].
Proof.
  destruct (@read_shows_rows_in_order Fixed.t Fixed.gateway
              (Fixed.desk (Fixed.mk None None None None
                             (Resolved (Some [[SqlStr "MBA24001"; SqlStr "Asha Rao"]; [SqlNull]]))
                             None))
              (Fixed.mk None None None None
                 (Resolved (Some [[SqlStr "MBA24001"; SqlStr "Asha Rao"]; [SqlNull]])) None)
              (Fixed.mk None None None None
                 (Resolved (Some [[SqlStr "MBA24001"; SqlStr "Asha Rao"]; [SqlNull]])) None)
              (Fixed.mk None None None None
                 (Resolved (Some [[SqlStr "MBA24001"; SqlStr "Asha Rao"]; [SqlNull]])) None)
              [[SqlStr "MBA24001"; SqlStr "Asha Rao"]; [SqlNull]]
              eq_refl eq_refl eq_refl)
    as (d' & E & Hheadings & _).
  exists d'. split; [exact E | exact Hheadings].
Defined.

Lemma connect_rejects_only_for_login_or_table_witness :
  exists w',
    Api.connect (fun _ => None)
      (Scripted.world (Scripted.mk [] [Some (mkError "permission denied")] []))
    = Some (w', Rejected (mkError "permission denied")) /\
    (In (Login "immudb" "immudb", Some (mkError "permission denied"))
        (calls_since (Scripted.world (Scripted.mk [] [Some (mkError "permission denied")] [])) w') \/
     In (SQLExec Api.create_users_sql [], Some (mkError "permission denied"))
        (calls_since (Scripted.world (Scripted.mk [] [Some (mkError "permission denied")] [])) w')).
Proof.
  assert (E : exists w',
             Api.connect (fun _ => None)
               (Scripted.world (Scripted.mk [] [Some (mkError "permission denied")] []))
             = Some (w', Rejected (mkError "permission denied")))
    by (eexists; vm_compute; reflexivity).
  destruct E as [w' E].
  exists w'. split; [exact E|].
  exact (proj1 (proj2 (@connect_rejects_only_for_login_or_table _ _ _ _ _ _ E) _) eq_refl).
Defined.

Lemma connect_survives_index_failure_witness :
  exists w',
    Api.connect (fun _ => None)
      (Scripted.world (Scripted.mk [] [None; Some (mkError "index already exists")] []))
    = Some (w', Resolved tt) /\
    console_since
      (Scripted.world (Scripted.mk [] [None; Some (mkError "index already exists")] [])) w'
    = [LogError (mkError "index already exists")].
Proof.
  assert (E : exists w',
             Api.connect (fun _ => None)
               (Scripted.world (Scripted.mk [] [None; Some (mkError "index already exists")] []))
             = Some (w', Resolved tt) /\
             In (SQLExec Api.index_name_sql [], Some (mkError "index already exists"))
                (calls_since
                   (Scripted.world
                      (Scripted.mk [] [None; Some (mkError "index already exists")] [])) w')).
  { eexists. split; [vm_compute; reflexivity|]. vm_compute. right. right. left. reflexivity. }
  destruct E as (w' & E & Hin).
  exists w'. split; [exact E|].
  exact (proj1 (proj2 (@connect_survives_index_failure _ _ _ _ _ _ _ E (or_introl Hin)))).
Defined.

Lemma put_400_after_update_applied_witness :
  exists w',
    Api.put_user "user001" rename_alice
      (Scripted.world
         (Scripted.mk [] []
            [ Resolved (Some [[SqlStr "user001"; SqlStr "Alice Johnson";
                               SqlStr "alice@example.com"; SqlInt 1700000000000]]);
              Rejected (mkError "connection lost") ]))
    = Some (w', Resolved (Api.mkHttp 400
                            (Api.ErrorBody
                               "Failed to update user: Error: Failed to get user: Error: connection lost"))) /\
    In (SQLExec Service.update_user_sql (update_params "user001" rename_alice), None)
       (calls_since
          (Scripted.world
             (Scripted.mk [] []
                [ Resolved (Some [[SqlStr "user001"; SqlStr "Alice Johnson";
                                   SqlStr "alice@example.com"; SqlInt 1700000000000]]);
                  Rejected (mkError "connection lost") ])) w').
Proof.
  destruct (@put_400_after_update_applied Scripted.t Scripted.gateway
              "user001" rename_alice
              (Scripted.world
                 (Scripted.mk [] []
                    [ Resolved (Some [[SqlStr "user001"; SqlStr "Alice Johnson";
                                       SqlStr "alice@example.com"; SqlInt 1700000000000]]);
                      Rejected (mkError "connection lost") ]))
              (Scripted.mk [] [] [Rejected (mkError "connection lost")])
              (Scripted.mk [] [] [Rejected (mkError "connection lost")])
              (Scripted.mk [] [] [])
              [SqlStr "user001"; SqlStr "Alice Johnson"; SqlStr "alice@example.com";
               SqlInt 1700000000000]
              [] (mkExecResult []) (Rejected (mkError "connection lost"))
              eq_refl eq_refl eq_refl)
    as (w' & Hrun & _ & Hcalls).
  { intros row' rest'. discriminate. }
  exists w'. split; [exact Hrun|].
  rewrite Hcalls. right. left. reflexivity.
Defined.

Lemma put_unknown_user_is_400_witness :
  exists w',
    Api.put_user "nonexistent" rename_alice (MemStore.world one_user 1700000000500)
    = Some (w', Resolved (Api.mkHttp 400
                            (Api.ErrorBody
                               "Failed to update user: Error: Failed to get user: Error: User not found"))) /\
    calls_since (MemStore.world one_user 1700000000500) w'
    = [(SQLQuery Service.select_user_sql [("id", SqlStr "nonexistent")], None)].
Proof.
  destruct (@put_unknown_user_is_400 MemStore.t MemStore.gateway MemStore_users
              "nonexistent" rename_alice (MemStore.world one_user 1700000000500) eq_refl)
    as (w' & Hrun & Hcalls & _).
  exists w'. split; [exact Hrun | exact Hcalls].
Defined.

Lemma post_then_get_witness :
  exists w1 resp w2,
    Api.post_users bob (MemStore.world one_user 1700000000500) = Some (w1, Resolved resp) /\
    Api.status resp = 201 /\
    Api.get_user "user002" w1
    = Some (w2, Resolved (Api.mkHttp 200
                            (Api.UserBody
                               (Service.RowData [SqlStr "user002"; SqlStr "Bob Smith";
                                                 SqlStr "bob@example.com";
                                                 SqlInt 1700000000500])
                               (Api.mkTamperProof true None true None)))).
Proof.
  assert (E : exists w1 resp,
             Api.post_users bob (MemStore.world one_user 1700000000500)
             = Some (w1, Resolved resp) /\ Api.status resp = 201).
  { eexists _, _. split; [vm_compute; reflexivity | reflexivity]. }
  destruct E as (w1 & resp & E & Hstatus).
  destruct (@post_then_get MemStore.t MemStore.gateway MemStore_users bob _ _ _ E Hstatus)
    as (_ & w2 & Hget).
  exists w1, resp, w2. split; [exact E|]. split; [exact Hstatus | exact Hget].
Defined.

(* ================================================================== *)
(** ** The importer on a file as it is *)
(* ================================================================== *)

Section RawText.

Lemma raw_escape_typed (v : Raw.Json) :
  Raw.unescapable v = false -> Raw.escape v = Resolved (escape (Raw.as_text v)).
Proof. destruct v as [[|c s]| |[|]]; intros E; try discriminate E; reflexivity. Qed.

Lemma raw_escape_throws (v : Raw.Json) :
  Raw.unescapable v = true ->
  Raw.escape v = Rejected (mkError "str.replace is not a function").
Proof. destruct v as [[|c s]| |[|]]; intros E; try discriminate E; reflexivity. Qed.

Lemma raw_literal_lines_typed (fs : list Raw.Json) :
  existsb Raw.unescapable fs = false ->
  Raw.literal_lines fs = Resolved (map (fun v => literal_line (Raw.as_text v)) fs).
Proof.
  induction fs as [|f rest IH]; [reflexivity|].
  cbn [existsb]. intros E. apply orb_false_elim in E. destruct E as [Ef Erest].
  cbn [Raw.literal_lines map]. rewrite (raw_escape_typed _ Ef), (IH Erest). reflexivity.
Qed.

Lemma raw_literal_lines_throws (fs : list Raw.Json) :
  existsb Raw.unescapable fs = true ->
  Raw.literal_lines fs = Rejected (mkError "str.replace is not a function").
Proof.
  induction fs as [|f rest IH]; [discriminate|].
  cbn [existsb Raw.literal_lines]. intros E.
  destruct (Raw.unescapable f) eqn:Ef.
  - now rewrite (raw_escape_throws _ Ef).
  - rewrite (raw_escape_typed _ Ef), (IH E). reflexivity.
Qed.

Lemma literal_line_as_string (v : Raw.Json) :
  literal_line (Some (Raw.as_string v)) = literal_line (Raw.as_text v).
Proof. destruct v as [s| |b]; reflexivity. Qed.

Lemma typed_lines (candidate : Raw.Candidate) :
  map literal_line (candidate_fields (Raw.typed_of candidate))
  = map (fun v => literal_line (Raw.as_text v)) (map candidate Raw.field_names).
Proof.
  unfold candidate_fields, Raw.typed_of, Raw.field_names.
  cbv beta iota delta
    [map AcademicYear ProgramID ProgramShortName UserId ApplicationID CandidateName
     ApplicantCategoryId ApplicantCategory AdmissionCategoryId AdmissionCategory CasteName
     Gender DOB ReligionID Religion MotherTongueId MotherTongue IncomeId AnnualFamilyIncome
     FinalCandidatureType FinalPHType FinalDefenceType LingusticMinority ReligiousMinority
     CandidateMobile Email AdmittedChoiceCode AdmittedChoiceCodeDisplay AdmittedCourseName
     AdmittedInstituteCode AdmittedInstituteName AdmittedInstituteDistrict
     AdmittedInstituteStatus1 AdmittedInstituteStatus2 AdmittedInstituteStatus3
     AdmittedCourseStatus1 AdmittedCourseStatus2 AdmittedCourseStatus3 AdmittedCourseGender
     SeatTypeAllotted CAPorIL CAPRoundNo CAPRoundDetails TotalFees AdmissionDate
     AdmissionUploadDate StateMeritSLGMN AllIndiaMeritNo MeritMarks CAPAdmissionTFWS
     CAPAdmissionEWS CAPAdmissionOrphan NON_CAP MotherName Status StatusDetails].
  rewrite !literal_line_as_string. reflexivity.
Qed.

Lemma raw_values_tuple_typed (candidate : Raw.Candidate) :
  Raw.throws candidate = false ->
  Raw.values_tuple candidate = Resolved (values_tuple (Raw.typed_of candidate)).
Proof.
  unfold Raw.throws. intros E.
  assert (E' : existsb Raw.unescapable (map candidate Raw.field_names) = false).
  { rewrite <- E. clear E. induction Raw.field_names as [|n ns IH]; [reflexivity|].
    cbn [map existsb]. now rewrite IH. }
  unfold Raw.values_tuple, values_tuple.
  rewrite (raw_literal_lines_typed _ E'), typed_lines. reflexivity.
Qed.

Lemma raw_values_tuple_throws (candidate : Raw.Candidate) :
  Raw.throws candidate = true ->
  Raw.values_tuple candidate = Rejected (mkError "str.replace is not a function").
Proof.
  unfold Raw.throws. intros E.
  assert (E' : existsb Raw.unescapable (map candidate Raw.field_names) = true).
  { rewrite <- E. clear E. induction Raw.field_names as [|n ns IH]; [reflexivity|].
    cbn [map existsb]. now rewrite IH. }
  unfold Raw.values_tuple. now rewrite (raw_literal_lines_throws _ E').
Qed.

Lemma raw_values_clause_typed (batch : list Raw.Candidate) :
  existsb Raw.throws batch = false ->
  Raw.values_clause batch = Resolved (values_clause (map Raw.typed_of batch)).
Proof.
  intros E. unfold Raw.values_clause, values_clause.
  assert (Ht : Raw.values_tuples batch = Resolved (map values_tuple (map Raw.typed_of batch))).
  { induction batch as [|c rest IH]; [reflexivity|].
    cbn [existsb] in E. apply orb_false_elim in E. destruct E as [Ec Erest].
    cbn [Raw.values_tuples map]. rewrite (raw_values_tuple_typed _ Ec), (IH Erest).
    reflexivity. }
  now rewrite Ht.
Qed.

Lemma raw_values_clause_throws (batch : list Raw.Candidate) :
  existsb Raw.throws batch = true ->
  Raw.values_clause batch = Rejected (mkError "str.replace is not a function").
Proof.
  intros E. unfold Raw.values_clause.
  assert (Ht : Raw.values_tuples batch = Rejected (mkError "str.replace is not a function")).
  { induction batch as [|c rest IH]; [discriminate|].
    cbn [existsb] in E. cbn [Raw.values_tuples].
    destruct (Raw.throws c) eqn:Ec.
    - now rewrite (raw_values_tuple_throws _ Ec).
    - rewrite (raw_values_tuple_typed _ Ec), (IH E). reflexivity. }
  now rewrite Ht.
Qed.

Lemma slice_map {A B : Type} (f : A -> B) (l : list A) (start stop : nat) :
  slice (map f l) start stop = map f (slice l start stop).
Proof. unfold slice. now rewrite skipn_map, firstn_map. Qed.

Lemma skipn_slice {A : Type} (l : list A) (i b : nat) :
  skipn i l = slice l i (i + b) ++ skipn (i + b) l.
Proof.
  unfold slice. replace (i + b - i) with b by lia.
  rewrite <- (firstn_skipn b (skipn i l)) at 1. f_equal.
  rewrite skipn_skipn. f_equal. lia.
Qed.

Lemma find_typed_item (parsedData : list Raw.ExportItem) :
  find is_table_item (map Raw.typed_item parsedData)
  = option_map Raw.typed_item (find Raw.is_table_item parsedData).
Proof.
  induction parsedData as [|item rest IH]; [reflexivity|].
  cbn [map find].
  assert (E : is_table_item (Raw.typed_item item) = Raw.is_table_item item).
  { unfold is_table_item, Raw.is_table_item, Raw.typed_item. cbn [type data].
    destruct (Raw.data item); reflexivity. }
  rewrite E. destruct (Raw.is_table_item item); [reflexivity | exact IH].
Qed.

End RawText.

Ltac raw_case :=
  match goal with
  | |- context [let '(_, _) := ?c in _] => destruct c as [? [[]|?]]
  | |- context [if includes ?m ?s then _ else _] => destruct (includes m s)
  end;
  cbv beta iota zeta.

Ltac raw_leaf :=
  solve [eexists _, _; (split; [reflexivity|]); cbv beta iota; reflexivity].

Section RawRuns.
Context {G : Type} `{Gateway G}.

Lemma raw_insert_batch_typed (candidates : list Raw.Candidate) (b i cnt : nat) (w : World G) :
  existsb Raw.throws (slice candidates i (i + b)) = false ->
  Raw.insert_batch candidates b i cnt w
  = insert_batch (map Raw.typed_of candidates) b i cnt w.
Proof.
  intros E. unfold Raw.insert_batch, insert_batch. unfold bind at 1, Raw.evaluated.
  rewrite (raw_values_clause_typed _ E), slice_map, !length_map. reflexivity.
Qed.

Lemma raw_insert_batch_throws (candidates : list Raw.Candidate) (b i cnt : nat) (w : World G) :
  existsb Raw.throws (slice candidates i (i + b)) = true ->
  Raw.insert_batch candidates b i cnt w
  = Some (w, Rejected (mkError "str.replace is not a function")).
Proof.
  intros E. unfold Raw.insert_batch. unfold bind at 1, Raw.evaluated.
  now rewrite (raw_values_clause_throws _ E).
Qed.

(** The loop on the records as they are, beside the loop on the records
    as typed: they agree as long as no record makes [escape] throw, and
    the first batch with such a record ends the loop with the
    [TypeError], before anything of that batch is sent. *)
Lemma raw_insert_loop (candidates : list Raw.Candidate) (b : nat) :
  forall (fuel i cnt : nat) (w wt : World G) (ot : Outcome nat),
    insert_loop fuel (map Raw.typed_of candidates) b i cnt w = Some (wt, ot) ->
    if existsb Raw.throws (skipn i candidates)
    then exists w' attempts,
           Raw.insert_loop fuel candidates b i cnt w
           = Some (w', Rejected (mkError "str.replace is not a function")) /\
           calls w' = calls w ++ map attempt_call attempts /\
           console w' = console w ++ console_after (length candidates) cnt attempts
    else Raw.insert_loop fuel candidates b i cnt w = Some (wt, ot).
Proof.
  induction fuel as [|fuel IH]; intros i cnt w wt ot Ht; [discriminate Ht|].
  cbn [insert_loop Raw.insert_loop] in *. rewrite length_map in Ht.
  destruct (Nat.ltb_spec i (length candidates)) as [Hlt | Hge].
  - rewrite (skipn_slice candidates i b), existsb_app.
    destruct (insert_batch_run (map Raw.typed_of candidates) b i cnt w)
      as (w1 & fl & Hrun & Hcalls & Hcons & _).
    cbv zeta in Hrun, Hcalls, Hcons. rewrite length_map in Hcons.
    unfold bind at 1 in Ht. rewrite Hrun in Ht.
    destruct (existsb Raw.throws (slice candidates i (i + b))) eqn:Ebatch; cbn [orb].
    + exists w, []. unfold bind at 1. rewrite (raw_insert_batch_throws _ _ _ _ _ Ebatch).
      cbn [map console_after]. rewrite !app_nil_r. repeat split; reflexivity.
    + specialize (IH _ _ _ _ _ Ht).
      destruct (existsb Raw.throws (skipn (i + b) candidates)).
      2: { unfold bind at 1. rewrite (raw_insert_batch_typed _ _ _ _ _ Ebatch), Hrun.
           exact IH. }
      destruct IH as (w' & attempts & Hloop & Hcalls' & Hcons').
      exists w', (mkAttempt i (slice (map Raw.typed_of candidates) i (i + b)) fl :: attempts).
      split.
      { unfold bind at 1. rewrite (raw_insert_batch_typed _ _ _ _ _ Ebatch), Hrun.
        exact Hloop. }
      split.
      * rewrite Hcalls', Hcalls, <- app_assoc. reflexivity.
      * rewrite Hcons', Hcons, <- app_assoc. f_equal.
        cbn [console_after failure records offset]. destruct fl; reflexivity.
  - rewrite skipn_all2 by lia. cbn [existsb]. exact Ht.
Qed.

Lemma raw_import_body_run (source : Outcome (list Raw.ExportItem)) (w : World G) :
  exists wt ot,
    import_body (Raw.typed_source source) w = Some (wt, ot) /\
    match ot with
    | Rejected e => Raw.import_body source w = Some (wt, Rejected e)
    | Resolved cnt =>
        if Raw.ill_typed source
        then exists w' written,
               Raw.import_body source w
               = Some (w', Rejected (mkError "str.replace is not a function")) /\
               console w' = console w ++ written
        else Raw.import_body source w = Some (wt, Resolved cnt)
    end.
Proof.
  unfold import_body, Raw.import_body, Raw.ill_typed, Raw.dataset_of.
  destruct w as [g0 clk cs co].
  destruct source as [parsedData | e0]; cbn [Raw.typed_source].
  - cbv beta iota zeta delta
      [bind try_catch ret throw console_log client_login client_createDatabase
       client_useDatabase client_SQLExec client_call read_json Raw.evaluated
       gateway clock calls console].
    rewrite find_typed_item.
    destruct (find Raw.is_table_item parsedData) as [[ty [cands|]]|] eqn:Efind;
      cbn [option_map Raw.typed_item Raw.data Raw.type]; rewrite ?length_map.
    + repeat raw_case.
      all: try raw_leaf.
      all: match goal with
           | |- context [insert_loop _ (map Raw.typed_of ?c) batchSize 0 0 ?W] =>
               destruct (@insert_loop_run _ _ (map Raw.typed_of c) batchSize W batchSize_pos)
                 as (w4 & attempts & Hloop & _);
               rewrite length_map in Hloop;
               pose proof (raw_insert_loop c batchSize _ _ _ _ Hloop) as Hraw;
               cbn [skipn] in Hraw; rewrite Hloop
           end.
      all: destruct (existsb Raw.throws cands).
      all: try (destruct Hraw as (w' & attempts' & Hraw & _ & Hcons'));
           rewrite Hraw; cbv beta iota zeta.
      all: match goal with
           | |- context [countRecords ?W] =>
               destruct (countRecords_run W) as (? & ? & _ & Hc); rewrite Hc; clear Hc
           end; cbv beta iota zeta.
      all: match goal with
           | |- context [sampleRecords ?W] =>
               destruct (sampleRecords_run W) as (? & ? & _ & Hc); rewrite Hc; clear Hc
           end; cbv beta iota zeta.
      all: eexists _, _; (split; [reflexivity|]); cbv beta iota.
      all: try reflexivity.
      all: exists w'; eexists; (split; [reflexivity|]).
      all: unfold console in Hcons'; cbv beta iota in Hcons'; rewrite Hcons';
           repeat rewrite <- app_assoc; reflexivity.
    + repeat raw_case. all: raw_leaf.
    + repeat raw_case. all: raw_leaf.
  - cbv beta iota zeta delta
      [bind try_catch ret throw console_log client_login client_createDatabase
       client_useDatabase client_SQLExec client_call read_json Raw.evaluated
       gateway clock calls console].
    repeat raw_case. all: raw_leaf.
Qed.

(** A run on the file as it is, beside the run on its records as typed:
    they are the same run, unless the typed run reaches the loop and a
    record makes [escape] throw; then the run is rejected with the
    [TypeError]. *)
Lemma raw_import_run (source : Outcome (list Raw.ExportItem)) (w : World G) :
  exists wt ot,
    importJSONToImmuDB (Raw.typed_source source) w = Some (wt, ot) /\
    match ot with
    | Rejected e => Raw.importJSONToImmuDB source w = Some (wt, Rejected e)
    | Resolved cnt =>
        if Raw.ill_typed source
        then exists w' written,
               Raw.importJSONToImmuDB source w
               = Some (w', Rejected (mkError "str.replace is not a function")) /\
               console w' = console w ++ written /\
               In (ErrImporting "str.replace is not a function") written
        else Raw.importJSONToImmuDB source w = Some (wt, Resolved cnt)
    end.
Proof.
  destruct (raw_import_body_run source w) as (wb & ob & Hb & Hraw).
  unfold importJSONToImmuDB, Raw.importJSONToImmuDB.
  cbv beta iota zeta delta
    [try_finally try_catch bind ret throw console_log client_logout client_call].
  rewrite Hb.
  destruct ob as [cnt | e].
  - destruct (Raw.ill_typed source).
    + destruct Hraw as (w' & written & Hraw & Hcons). rewrite Hraw. cbv beta iota zeta. cbn [gateway clock calls console message].
      destruct (gw_logout (gateway wb)) as [gt [[]|et]];
        destruct (gw_logout (gateway w')) as [g' [[]|e']]; cbv beta iota zeta;
        cbn [gateway clock calls console message];
        eexists _, _; (split; [reflexivity|]); cbv beta iota;
        eexists _, _; (split; [reflexivity|]); cbn [console message];
        rewrite Hcons; repeat rewrite <- app_assoc;
        (split; [reflexivity|]); apply in_or_app; right; left; reflexivity.
    + rewrite Hraw. cbv beta iota zeta. cbn [gateway clock calls console message].
      destruct (gw_logout (gateway wb)) as [gt [[]|et]]; cbv beta iota zeta;
        cbn [gateway clock calls console message];
        eexists _, _; (split; [reflexivity|]); reflexivity.
  - rewrite Hraw. cbv beta iota zeta. cbn [gateway clock calls console message].
    destruct (gw_logout (gateway wb)) as [gt [[]|et]]; cbv beta iota zeta;
      cbn [gateway clock calls console message];
      eexists _, _; (split; [reflexivity|]); reflexivity.
Qed.

Lemma dataset_typed (source : Outcome (list Raw.ExportItem)) :
  dataset_of (Raw.typed_source source)
  = option_map (map Raw.typed_of) (Raw.dataset_of source).
Proof.
  destruct source as [parsedData | e]; [|reflexivity].
  cbn [Raw.typed_source dataset_of Raw.dataset_of]. rewrite find_typed_item.
  destruct (find Raw.is_table_item parsedData) as [item|]; reflexivity.
Qed.

Lemma no_dataset_typed (source : Outcome (list Raw.ExportItem)) :
  dataset_of (Raw.typed_source source) = None <-> Raw.dataset_of source = None.
Proof.
  rewrite dataset_typed. destruct (Raw.dataset_of source); cbn [option_map];
    split; intros E; try discriminate E; reflexivity.
Qed.

Lemma ill_typed_record (source : Outcome (list Raw.ExportItem)) :
  Raw.ill_typed source = true <->
  exists candidates candidate name,
    Raw.dataset_of source = Some candidates /\ In candidate candidates /\
    In name Raw.field_names /\ candidate name = Raw.JOther true.
Proof.
  unfold Raw.ill_typed. split.
  - destruct (Raw.dataset_of source) as [candidates|]; [|discriminate].
    intros E. apply existsb_exists in E. destruct E as (candidate & Hin & E).
    apply existsb_exists in E. destruct E as (name & Hname & E).
    exists candidates, candidate, name. repeat split; try assumption.
    destruct (candidate name) as [s| |[|]]; try discriminate E. reflexivity.
  - intros (candidates & candidate & name & -> & Hin & Hname & E).
    apply existsb_exists. exists candidate. split; [exact Hin|].
    apply existsb_exists. exists name. split; [exact Hname|]. now rewrite E.
Qed.

(** X2.  A run on a file as it is, whatever values the fields of its
    records hold, is rejected with the very error that stopped it, and
    its message is on the console.  The error is that of the login, of
    [createDatabase], of [useDatabase] or of the statement that creates
    the table, as the call record shows it; or the error of reading the
    file; or 'No table data found in JSON file', when the file holds no
    table with data; or the [TypeError] 'str.replace is not a function'
    that [escape] throws, outside the [try] of the batch, on a field of
    a record that holds a truthy value that is not a string. *)
Theorem file_import_rethrows_the_cause (source : Outcome (list Raw.ExportItem))
    (w w' : World G) (e : Error) :
  Raw.importJSONToImmuDB source w = Some (w', Rejected e) ->
  In (ErrImporting (message e)) (console_since w w') /\
  ((exists req, In (req, Some e) (calls_since w w') /\
                is_setup_request req = true /\ req <> Logout) \/
   source = Rejected e \/
   (e = mkError "No table data found in JSON file" /\ Raw.dataset_of source = None) \/
   (e = mkError "str.replace is not a function" /\
    exists candidates candidate name,
      Raw.dataset_of source = Some candidates /\ In candidate candidates /\
      In name Raw.field_names /\ candidate name = Raw.JOther true)).
Proof.
  intros Erun.
  destruct (raw_import_run source w) as (wt & ot & Ht & Hr).
  destruct ot as [cnt | e0].
  - destruct (Raw.ill_typed source) eqn:Eill.
    + destruct Hr as (w1 & written & Hr & Hcons & Hin).
      rewrite Hr in Erun. injection Erun as <- <-.
      unfold console_since. rewrite Hcons, skipn_length_app.
      split; [exact Hin|]. right. right. right.
      split; [reflexivity|]. now apply ill_typed_record.
    + rewrite Hr in Erun. discriminate Erun.
  - rewrite Hr in Erun. injection Erun as <- <-.
    destruct (typed_import_rethrows_the_cause _ _ Ht) as (Hin & Hcause).
    split; [exact Hin|].
    destruct Hcause as [Hcall | [Hsrc | (He & Hnone)]].
    + left. exact Hcall.
    + right. left. destruct source as [parsedData | e1]; [discriminate Hsrc|].
      cbn [Raw.typed_source] in Hsrc. congruence.
    + right. right. left. split; [exact He|]. now apply no_dataset_typed.
Qed.

End RawRuns.

Section RawMain.
Context {G : Type} `{Gateway G}.

Lemma raw_main_as_typed (source : Outcome (list Raw.ExportItem)) (d : Reader.Desk G)
    (wt : World G) (ot : Outcome nat) :
  importJSONToImmuDB (Raw.typed_source source) (Reader.world d) = Some (wt, ot) ->
  Raw.importJSONToImmuDB source (Reader.world d) = Some (wt, ot) ->
  Raw.main source d = Reader.main (Raw.typed_source source) d.
Proof.
  intros Ht Hr.
  cbv beta delta [Raw.main Reader.main Reader.try_catch Reader.bind Reader.on_world].
  now rewrite Ht, Hr.
Qed.

(** X11.  The main block, on a file as it is, always ends with an exit
    code, 0 or 1, and never with a rejection.  The code is 1 exactly when
    the file holds no dataset, or a call that is fatal was rejected (a
    login, a [useDatabase], the creation of the table, or a
    [createDatabase] whose message does not say that the database
    exists), or a field of a record of the dataset holds a truthy value
    that is not a string, on which [escape] throws.  Rejected bulk
    inserts, queries and logouts never change the exit code. *)
Theorem file_main_exit_code (source : Outcome (list Raw.ExportItem)) (d : Reader.Desk G) :
  exists d' code,
    Raw.main source d = Some (d', Resolved code) /\
    (code = 0 \/ code = 1) /\
    (code = 1 <->
     Raw.dataset_of source = None \/
     existsb fatal_call (desk_calls_since d d') = true \/
     Raw.ill_typed source = true).
Proof.
  destruct (typed_main_exit_code (Raw.typed_source source) d)
    as (dt & code & Hmain & H01 & Hiff).
  destruct (raw_import_run source (Reader.world d)) as (wt & ot & Ht & Hr).
  rewrite no_dataset_typed in Hiff.
  destruct ot as [cnt | e].
  - destruct (Raw.ill_typed source) eqn:Eill.
    + destruct Hr as (w' & written & Hr & _).
      eexists _, 1. split.
      * unfold Raw.main. unfold Reader.try_catch at 1. unfold Reader.bind at 1.
        unfold Reader.on_world at 1. rewrite Hr. reflexivity.
      * split; [now right|]. split; [auto | reflexivity].
    + exists dt, code. rewrite (raw_main_as_typed _ _ Ht Hr).
      split; [exact Hmain|]. split; [exact H01|].
      rewrite Hiff. split.
      * intros [E | E]; auto.
      * intros [E | [E | E]]; auto. discriminate E.
  - exists dt, code. rewrite (raw_main_as_typed _ _ Ht Hr).
    split; [exact Hmain|]. split; [exact H01|].
    assert (Hcode : code = 1).
    { revert Hmain. unfold Reader.main. unfold Reader.try_catch at 1.
      unfold Reader.bind at 1. unfold Reader.on_world at 1. rewrite Ht.
      intros E. injection E as _ E. now symmetry. }
    split; [|intros _; exact Hcode].
    intros Hone. apply Hiff in Hone. destruct Hone as [E | E]; auto.
Qed.

End RawMain.

Lemma file_import_rethrows_the_cause_witness :
  exists w',
    Raw.importJSONToImmuDB (Resolved [Raw.mkItem "table" (Some [fees_as_text; fees_as_number])])
      (Scripted.world (Scripted.mk [] [] []))
    = Some (w', Rejected (mkError "str.replace is not a function")) /\
    In (ErrImporting "str.replace is not a function")
       (console_since (Scripted.world (Scripted.mk [] [] [])) w').
Proof.
  assert (E : exists w',
             Raw.importJSONToImmuDB
               (Resolved [Raw.mkItem "table" (Some [fees_as_text; fees_as_number])])
               (Scripted.world (Scripted.mk [] [] []))
             = Some (w', Rejected (mkError "str.replace is not a function")))
    by (eexists; vm_compute; reflexivity).
  destruct E as [w' E].
  exists w'. split; [exact E|].
  exact (proj1 (@file_import_rethrows_the_cause _ _ _ _ _ _ E)).
Defined.

(** The run on the file whose [TotalFees] is a number: the setup is done
    and the table created, but nothing of the dataset is sent; and on the
    same file with the fees as text, the record is sent. *)
Example import_fees_as_number :
  exists w',
    Raw.importJSONToImmuDB (Resolved [Raw.mkItem "table" (Some [fees_as_number])])
      (Scripted.world (Scripted.mk [] [] []))
    = Some (w', Rejected (mkError "str.replace is not a function")) /\
    map fst (calls w')
    = [ Login "immudb" "immudb"; CreateDatabase "mba_data"; UseDatabase "mba_data";
        SQLExec createTableSQL []; Logout ] /\
    console w'
    = [ LogConnecting; LogConnected; LogCreatedDatabase "mba_data"; LogReadingFile;
        LogFoundCandidates 1; LogCreatingSchema; LogSchemaReady;
        ErrImporting "str.replace is not a function"; LogDisconnected ].
Proof.
  eexists. split; [vm_compute; reflexivity|]. split; vm_compute; reflexivity.
Qed.

Example import_fees_as_text :
  exists w',
    Raw.importJSONToImmuDB (Resolved [Raw.mkItem "table" (Some [fees_as_text])])
      (Scripted.world (Scripted.mk [] [] []))
    = Some (w', Resolved 1) /\
    map fst (calls w')
    = [ Login "immudb" "immudb"; CreateDatabase "mba_data"; UseDatabase "mba_data";
        SQLExec createTableSQL [];
        SQLExec (bulkInsertSQL [Raw.typed_of fees_as_text]) [];
        SQLQuery count_sql []; SQLQuery sample_sql []; Logout ].
Proof.
  eexists. split; [vm_compute; reflexivity|]. vm_compute. reflexivity.
Qed.

Example main_fees_as_number :
  exists d',
    Raw.main (Resolved [Raw.mkItem "table" (Some [fees_as_number])])
      (Reader.mkDesk (Scripted.world (Scripted.mk [] [] [])) [])
    = Some (d', Resolved 1) /\
    Reader.printed d' = [Reader.ErrOperationFailed "str.replace is not a function"].
Proof. eexists. split; [vm_compute; reflexivity | reflexivity]. Qed.
